(** * Classification and sensitivity engine of the state.vscdb analyzers

    A shallow embedding of the keyword classifier, the sensitivity
    derivation, the redactor and the aggregation bookkeeping of

      - [keyword_analyzer.py]            (module [KeywordAnalyzer]),
      - [keyword_analyzer_optimized.py]  (module [Optimized]),
      - [flexible_keyword_analyzer.py]   (module [Flexible]),
      - [advanced_analyzer.py]           (module [Advanced]),

    followed by the properties of the engine.

    Conventions of the embedding.

      - A Python [str] is a Rocq [string] of ASCII characters; [len] is
        [String.length] and [str.lower] maps the letters A..Z to a..z.
      - A raw SQLite scalar is a [Value]: NULL, TEXT or INTEGER.  REAL and
        BLOB scalars, whose Python text depends on floating-point and byte
        formatting, are outside the embedding.
      - A Python [dict] is an association list in insertion order, updated
        with [dict_set] (an existing key keeps its position).
      - The data store is a list of [Table]s.  A table carries its column
        names, its rows, and the index of the [cursor.execute] call that
        raises while the table is scanned, if any.
      - [print] is a log of [Event]s threaded through the scan.
      - The SQL text of a statement is not parsed.  [LIKE] is evaluated
        with its wildcards ([like_match]); a quote inside a keyword, which
        would end the SQL literal it is pasted into, is outside the
        embedding, and the properties that depend on which rows a query
        selects state that their keywords hold no wildcard and no quote
        ([sql_plain]). *)

From Stdlib Require Import List String Ascii Bool Arith ZArith Lia.
From Stdlib Require Import Permutation Sorted QArith DecimalString.
Import ListNotations.

Close Scope Q_scope.
Open Scope string_scope.
Open Scope list_scope.

(** ** Strings as Python uses them *)

Definition lower_ascii (c : ascii) : ascii :=
  let n := nat_of_ascii c in
  if (65 <=? n)%nat && (n <=? 90)%nat then ascii_of_nat (n + 32) else c.

(** [s.lower()] *)
Fixpoint lower (s : string) : string :=
  match s with
  | EmptyString => EmptyString
  | String c s' => String (lower_ascii c) (lower s')
  end.

(** [needle in hay] on strings *)
Fixpoint str_in (needle hay : string) : bool :=
  String.prefix needle hay ||
  match hay with
  | EmptyString => false
  | String _ hay' => str_in needle hay'
  end.

(** [s[:n]] *)
Definition take (n : nat) (s : string) : string := substring 0 n s.

(** [s[-n:]] for [n > 0] *)
Definition take_last (n : nat) (s : string) : string :=
  substring (String.length s - n) n s.

(** [k in l] on a list of strings *)
Definition str_mem (k : string) (l : list string) : bool :=
  existsb (String.eqb k) l.

(** [any(f(x) for x in l)] *)
Definition any {A : Type} (f : A -> bool) (l : list A) : bool := existsb f l.

(** ** Raw scalars *)

Inductive Value : Type :=
| VNull : Value
| VText : string -> Value
| VInt : Z -> Value.

(** [if value:] *)
Definition truthy (v : Value) : bool :=
  match v with
  | VNull => false
  | VText s => negb (String.eqb s "")
  | VInt z => negb (Z.eqb z 0)
  end.

(** [str(value)] *)
Definition py_str (v : Value) : string :=
  match v with
  | VNull => "None"
  | VText s => s
  | VInt z => NilZero.string_of_int (Z.to_int z)
  end.

(** [value is None] *)
Definition is_none (v : Value) : bool :=
  match v with VNull => true | _ => false end.

(** ** Dictionaries in insertion order *)

Definition Dict : Type := list (string * Value).

(** [d[k] = v] *)
Fixpoint dict_set (k : string) (v : Value) (d : Dict) : Dict :=
  match d with
  | [] => [(k, v)]
  | (k', v') :: d' =>
      if String.eqb k' k then (k', v) :: d' else (k', v') :: dict_set k v d'
  end.

(** [d.get(k)] *)
Fixpoint dict_get (k : string) (d : Dict) : option Value :=
  match d with
  | [] => None
  | (k', v') :: d' => if String.eqb k' k then Some v' else dict_get k d'
  end.

(** [{col: val for col, val in pairs}], also the result of assigning
    [data[col] = value] for each pair in turn. *)
Definition dict_of_pairs (pairs : list (string * Value)) : Dict :=
  fold_left (fun d kv => dict_set (fst kv) (snd kv) d) pairs [].

(** ** Matched keywords of one row

    The loop shared by the three classifiers:
<<
    for col, value in zip(columns, row):
        if value:
            value_str = str(value).lower()
            for keyword in keywords:
                if keyword.lower() in value_str:
                    if keyword not in matched_keywords:
                        matched_keywords.append(keyword)
>> *)

Definition add_keyword (value_str : string) (matched : list string)
    (keyword : string) : list string :=
  if str_in (lower keyword) value_str then
    if str_mem keyword matched then matched else matched ++ [keyword]
  else matched.

Definition scan_value (keywords : list string) (matched : list string)
    (value : Value) : list string :=
  if truthy value then
    fold_left (add_keyword (lower (py_str value))) keywords matched
  else matched.

Definition scan_fields (keywords : list string)
    (fields : list (string * Value)) (matched : list string) : list string :=
  fold_left (fun acc cv => scan_value keywords acc (snd cv)) fields matched.

Definition matched_keywords_of (keywords : list string)
    (columns : list string) (row : list Value) : list string :=
  scan_fields keywords (combine columns row) [].

(** The description of the same list in the words of the specification:
    the keywords that occur in a field, field by field, with later
    repetitions dropped. *)

Definition occurs_in (keyword : string) (value : Value) : bool :=
  truthy value && str_in (lower keyword) (lower (py_str value)).

Definition occurrences (keywords : list string)
    (fields : list (string * Value)) : list string :=
  flat_map (fun cv => filter (fun k => occurs_in k (snd cv)) keywords) fields.

Fixpoint dedup_first (l : list string) : list string :=
  match l with
  | [] => []
  | x :: l' => x :: filter (fun y => negb (String.eqb x y)) (dedup_first l')
  end.

(** ** Matches, buckets, tables *)

Inductive Sensitivity : Type := High | Medium | Low.

Definition Sensitivity_eqb (a b : Sensitivity) : bool :=
  match a, b with
  | High, High | Medium, Medium | Low, Low => true
  | _, _ => false
  end.

(** The [match_data] dictionary built for one (row, category) pair. *)
Record Match : Type := mkMatch {
  m_table : string;
  m_category : string;
  m_columns : list string;
  m_data : Dict;
  m_matched_keywords : list string;
  m_sensitivity : Sensitivity
}.

(** [target_keywords]: category name to its [keywords] list, in
    declaration order.  The [patterns] and [priority] entries of a category
    take no part in classification. *)
Definition Taxonomy : Type := list (string * list string).

(** [category_matches] and [results['keywords']]: category name to the list
    of its matches. *)
Definition Buckets : Type := list (string * list Match).

(** [{category: [] for category in target_keywords}] *)
Definition empty_buckets (tk : Taxonomy) : Buckets :=
  map (fun c => (fst c, @nil Match)) tk.

(** [buckets[category]] *)
Fixpoint bucket_get (category : string) (b : Buckets) : list Match :=
  match b with
  | [] => []
  | (c, l) :: b' => if String.eqb c category then l else bucket_get category b'
  end.

(** [buckets[category].extend(ms)]; every category that is looked up was
    entered when the buckets were created. *)
Fixpoint bucket_extend (category : string) (ms : list Match) (b : Buckets)
    : Buckets :=
  match b with
  | [] => []
  | (c, l) :: b' =>
      if String.eqb c category then (c, l ++ ms) :: b'
      else (c, l) :: bucket_extend category ms b'
  end.

(** [sum(len(matches) for matches in buckets.values())] *)
Definition total_len (b : Buckets) : nat :=
  fold_right (fun cl n => (List.length (snd cl) + n)%nat) 0%nat b.

(** The buckets laid end to end, in category order. *)
Definition flatten (b : Buckets) : list Match := flat_map snd b.

(** [len([m for m in ms if m['sensitivity'] == tier])] *)
Definition count_tier (tier : Sensitivity) (ms : list Match) : nat :=
  List.length (filter (fun m => Sensitivity_eqb (m_sensitivity m) tier) ms).

(** What the scan prints that the properties speak about. *)
Inductive Event : Type :=
| TableError (table_name : string)
| LimitReached.

(** One table of the store.  [tbl_fault = Some i] makes the [i]-th call of
    [cursor.execute] issued for this table (counted from 0) raise. *)
Record Table : Type := mkTable {
  tbl_name : string;
  tbl_columns : list string;
  tbl_rows : list (list Value);
  tbl_fault : option nat
}.

Definition raises (t : Table) (stmt : nat) : bool :=
  match tbl_fault t with
  | Some i => Nat.eqb i stmt
  | None => false
  end.

(** *** The SQL the scans issue *)

(** [text LIKE pattern] in SQLite: in the pattern a percent sign stands for
    any run of characters and an underscore for any one character; every
    other character stands for itself, letters without regard to case. *)
Fixpoint like_match (pattern text : string) : bool :=
  match pattern with
  | EmptyString =>
      match text with
      | EmptyString => true
      | String _ _ => false
      end
  | String p pattern' =>
      if Ascii.eqb p "%"%char then
        (fix from (text : string) : bool :=
           like_match pattern' text
           || match text with
              | EmptyString => false
              | String _ text' => from text'
              end) text
      else
        match text with
        | EmptyString => false
        | String c text' =>
            (Ascii.eqb p "_"%char
             || Ascii.eqb (lower_ascii p) (lower_ascii c))
            && like_match pattern' text'
        end
  end.

(** [LOWER(col) LIKE '%keyword%'], the keyword pasted as
    [keyword.lower()]: NULL on a NULL, else the match of the text of the
    scalar.  A keyword that holds a quote ends the SQL literal it is pasted
    into; what the statement then means is outside the embedding (see
    [sql_plain]). *)
Definition sql_like (keyword : string) (v : Value) : bool :=
  match v with
  | VNull => false
  | _ => like_match ("%" ++ lower keyword ++ "%")%string (lower (py_str v))
  end.

(** A keyword that stands for itself when pasted into the pattern: it
    holds no percent sign, no underscore and no quote. *)
Definition sql_plain_char (c : ascii) : bool :=
  negb (Ascii.eqb c "%"%char || Ascii.eqb c "_"%char || Ascii.eqb c "'"%char).

Fixpoint sql_plain (keyword : string) : bool :=
  match keyword with
  | EmptyString => true
  | String c keyword' => sql_plain_char c && sql_plain keyword'
  end.

(** The [search_conditions] joined by [OR], evaluated on one row. *)
Definition where_any (keywords : list string) (columns : list string)
    (row : list Value) : bool :=
  existsb (fun k => existsb (fun cv => sql_like k (snd cv)) (combine columns row))
          keywords.

(** [if search_conditions:] *)
Definition has_conditions (keywords : list string) (columns : list string)
    : bool :=
  match keywords, columns with
  | _ :: _, _ :: _ => true
  | _, _ => false
  end.

(** [LIMIT n]: a negative bound is no bound. *)
Definition sql_limit (n : Z) (rows : list (list Value)) : list (list Value) :=
  if (n <? 0)%Z then rows else firstn (Z.to_nat n) rows.

(** ** Percentages

    [a / b] on Python integers raises [ZeroDivisionError] when [b] is 0;
    otherwise the quotient is taken here as an exact rational. *)

Definition py_div (a b : nat) : option Q :=
  match b with
  | O => None
  | S _ => Some (Qmake (Z.of_nat a) (Pos.of_nat b))
  end.

(** [(part / total * 100) if total > 0 else 0] *)
Definition guarded_percentage (part total : nat) : option Q :=
  if (0 <? total)%nat
  then option_map (fun q => (q * 100)%Q) (py_div part total)
  else Some 0%Q.

(** [(part / total) * 100] *)
Definition unguarded_percentage (part total : nat) : option Q :=
  option_map (fun q => (q * 100)%Q) (py_div part total).

(** Evaluate a list of computations in order; the first exception aborts. *)
Fixpoint sequence {A : Type} (l : list (option A)) : option (list A) :=
  match l with
  | [] => Some []
  | None :: _ => None
  | Some a :: l' => option_map (cons a) (sequence l')
  end.

(** The figures of a printed report: the two tier percentages and one
    percentage per category line.  [None] stands for an exception leaving
    the report function. *)
Record Report : Type := mkReport {
  high_percentage : Q;
  medium_percentage : Q;
  category_percentages : list (string * Q)
}.

Definition build_report (high medium : option Q)
    (cats : option (list (string * Q))) : option Report :=
  match high, medium, cats with
  | Some h, Some m, Some c => Some (mkReport h m c)
  | _, _, _ => None
  end.

(** ** keyword_analyzer.py *)

Module KeywordAnalyzer.

Definition target_keywords : Taxonomy :=
  [ ("authentication",
      ["token"; "auth"; "login"; "logout"; "credential"; "password"; "session"]);
    ("subscription",
      ["pro"; "plan"; "subscription"; "trial"; "premium"; "paid"; "billing"]);
    ("ai_features",
      ["max mode"; "ai"; "model"; "chat"; "composer"; "copilot"]);
    ("account_status",
      ["status"; "active"; "inactive"; "enabled"; "disabled"; "banned"]);
    ("blackbox_specific", ["blackbox"; "blackboxai"; "blackboxapp"]);
    ("usage_limits", ["limit"; "quota"; "usage"; "remaining"; "consumed"]) ].

Definition high_sensitive : list string :=
  ["token"; "password"; "key"; "secret"; "credential"].

Definition medium_sensitive : list string :=
  ["userid"; "email"; "api"; "auth"].

(** The text blob of [_determine_sensitivity]. *)
Definition all_text (data : Dict) : string :=
  lower
    (fold_left
       (fun acc cv =>
          if truthy (snd cv)
          then (acc ++ " " ++ fst cv ++ " " ++ py_str (snd cv))%string
          else acc)
       data "").

(** [_determine_sensitivity] *)
Definition determine_sensitivity (data : Dict) : Sensitivity :=
  let text := all_text data in
  if any (fun keyword => str_in keyword text) high_sensitive then High
  else if any (fun keyword => str_in keyword text) medium_sensitive then Medium
  else Low.

(** The body of [for row in rows:] in [_search_in_table]. *)
Definition make_match (table_name category : string) (keywords : list string)
    (columns : list string) (row : list Value) : Match :=
  let data := dict_of_pairs (combine columns row) in
  {| m_table := table_name;
     m_category := category;
     m_columns := columns;
     m_data := data;
     m_matched_keywords := matched_keywords_of keywords columns row;
     m_sensitivity := determine_sensitivity data |}.

Section Analyzer.

Variable tk : Taxonomy.
Variable quick_mode : bool.
Variable max_items : Z.

(** The rows the query of one category returns. *)
Definition select_rows (t : Table) (keywords : list string)
    : list (list Value) :=
  let hits := filter (where_any keywords (tbl_columns t)) (tbl_rows t) in
  if quick_mode
  then sql_limit (max_items / Z.of_nat (List.length tk)) hits
  else hits.

(** [for category, config in self.target_keywords.items():] inside the
    [try]; [stmt] counts the statements executed so far.  The boolean tells
    whether an exception reached the handler. *)
Fixpoint search_categories (t : Table) (cats : Taxonomy) (stmt : nat)
    (cm : Buckets) : Buckets * bool :=
  match cats with
  | [] => (cm, false)
  | (category, keywords) :: rest =>
      if has_conditions keywords (tbl_columns t) then
        if raises t stmt then (cm, true)
        else
          let found :=
            map (make_match (tbl_name t) category keywords (tbl_columns t))
                (select_rows t keywords) in
          search_categories t rest (S stmt) (bucket_extend category found cm)
      else search_categories t rest stmt cm
  end.

(** [_search_in_table] *)
Definition search_in_table (t : Table) : Buckets * list Event :=
  let category_matches := empty_buckets tk in
  if raises t 0 then (category_matches, [TableError (tbl_name t)])
  else
    let '(cm, raised) := search_categories t tk 1 category_matches in
    (cm, if raised then [TableError (tbl_name t)] else []).

(** [self.results] *)
Record Results : Type := mkResults {
  keywords : Buckets;
  raw_data : list Match
}.

(** [for category, matches in table_matches.items():] in [search_keywords] *)
Definition merge_category (res : Results) (cm : string * list Match)
    : Results :=
  let category := fst cm in
  let matches :=
    if quick_mode then
      let remaining_slots :=
        Z.max 0 (max_items - Z.of_nat (List.length (bucket_get category (keywords res)))) in
      firstn (Z.to_nat remaining_slots) (snd cm)
    else snd cm in
  {| keywords := bucket_extend category matches (keywords res);
     raw_data := raw_data res ++ matches |}.

Definition merge_table (res : Results) (table_matches : Buckets) : Results :=
  if (0 <? total_len table_matches)%nat
  then fold_left merge_category table_matches res
  else res.

(** [for table_name in tables:] in [search_keywords] *)
Fixpoint search_tables (tables : list Table) (res : Results)
    (log : list Event) : Results * list Event :=
  match tables with
  | [] => (res, log)
  | t :: rest =>
      if quick_mode && (max_items <=? Z.of_nat (List.length (raw_data res)))%Z
      then (res, log ++ [LimitReached])
      else
        let '(table_matches, events) := search_in_table t in
        search_tables rest (merge_table res table_matches) (log ++ events)
  end.

(** [search_keywords] on a fresh analyzer *)
Definition search_keywords (tables : list Table) : Results * list Event :=
  search_tables tables {| keywords := empty_buckets tk; raw_data := [] |} [].

End Analyzer.

(** [export_results]: the [total_matches] entry of [analysis_info] and the
    [categories] entry of [summary]. *)
Definition export_total (res : Results) : nat := List.length (raw_data res).

Definition export_categories (res : Results) : list (string * nat) :=
  map (fun cl => (fst cl, List.length (snd cl))) (keywords res).

(** What [_format_value] returns: a masked text, the text ["NULL"], or the
    text handed on to the display formatting (JSON pretty-printing and
    truncation to 200 characters) below the sensitivity branch. *)
Inductive Formatted : Type :=
| NullText
| Masked (text : string)
| Display (value_str : string).

(** [_format_value], down to the end of its sensitivity branch. *)
Definition format_value (value : Value) (sensitivity : Sensitivity)
    : Formatted :=
  if is_none value then NullText
  else
    let value_str := py_str value in
    match sensitivity with
    | High =>
        if (20 <? String.length value_str)%nat then
          Masked (take 10 value_str ++ "***[DISENSOR]***" ++ take_last 5 value_str)%string
        else if (10 <? String.length value_str)%nat then
          Masked (take 5 value_str ++ "***[DISENSOR]***")%string
        else Display value_str
    | _ => Display value_str
    end.

(** [generate_security_report]; this report prints no percentage on its
    category lines. *)
Definition generate_security_report (res : Results) : option Report :=
  let total_matches := List.length (raw_data res) in
  let high_sensitive := count_tier High (raw_data res) in
  let medium_sensitive := count_tier Medium (raw_data res) in
  build_report (guarded_percentage high_sensitive total_matches)
               (guarded_percentage medium_sensitive total_matches)
               (Some []).

End KeywordAnalyzer.

(** ** keyword_analyzer_optimized.py *)

Module Optimized.

Definition target_keywords : Taxonomy :=
  [ ("authentication",
      ["token"; "auth"; "credential"; "password"; "session"; "login"]);
    ("subscription",
      ["pro"; "plan"; "subscription"; "trial"; "premium"; "billing"]);
    ("ai_features",
      ["ai"; "model"; "chat"; "composer"; "copilot"; "max mode"]);
    ("account_status", ["status"; "active"; "enabled"; "disabled"]);
    ("blackbox_specific", ["blackbox"; "blackboxai"; "blackboxapp"]);
    ("usage_limits", ["limit"; "quota"; "usage"; "remaining"]) ].

(** The [priority] lists, used only for the indicator columns of the
    batch query. *)
Definition priority_keywords : Taxonomy :=
  [ ("authentication", ["token"; "credential"; "auth"]);
    ("subscription", ["pro"; "plan"; "subscription"]);
    ("ai_features", ["ai"; "model"; "chat"]);
    ("account_status", ["status"; "active"]);
    ("blackbox_specific", ["blackbox"; "blackboxai"]);
    ("usage_limits", ["limit"; "usage"]) ].

Definition high_sensitive_keywords : list string :=
  ["token"; "password"; "key"; "secret"; "credential"; "auth"].

Definition medium_keywords : list string := ["userid"; "email"; "api"].

(** [" ".join(str(item) for item in data_row if item)[:500].lower()] *)
Definition data_str (data_row : list Value) : string :=
  lower (take 500 (String.concat " " (map py_str (filter truthy data_row)))).

(** [_determine_sensitivity_fast] *)
Definition determine_sensitivity_fast (matched_keywords : list string)
    (data_row : list Value) : Sensitivity :=
  if any (fun keyword =>
            any (fun sensitive => str_in sensitive (lower keyword))
                high_sensitive_keywords)
         matched_keywords
  then High
  else
    let text := data_str data_row in
    if any (fun sensitive => str_in sensitive text) high_sensitive_keywords
    then High
    else if any (fun keyword => str_in keyword text) medium_keywords
    then Medium
    else Low.

(** The body of [for category, config in ...:] in [_process_batch]: the
    match entry made for one category, if any. *)
Definition classify (table_name : string) (columns : list string)
    (main_data : list Value) (c : string * list string) : option Match :=
  match matched_keywords_of (snd c) columns main_data with
  | [] => None
  | matched_keywords =>
      Some {| m_table := table_name;
              m_category := fst c;
              m_columns := columns;
              m_data := dict_of_pairs (combine columns main_data);
              m_matched_keywords := matched_keywords;
              m_sensitivity :=
                determine_sensitivity_fast matched_keywords main_data |}
  end.

Section Analyzer.

Variable tk : Taxonomy.
Variable batch_size : Z.

(** The body of [for row in rows:] in [_process_batch] *)
Definition process_row (table_name : string) (columns : list string)
    (category_matches : Buckets) (row : list Value) : Buckets :=
  let main_data := firstn (List.length columns) row in
  fold_left
    (fun cm c =>
       match classify table_name columns main_data c with
       | Some match_data => bucket_extend (fst c) [match_data] cm
       | None => cm
       end)
    tk category_matches.

(** [_process_batch] *)
Definition process_batch (rows : list (list Value)) (columns : list string)
    (category_matches : Buckets) (table_name : string) : Buckets :=
  fold_left (process_row table_name columns) rows category_matches.

(** The indicator columns [(LOWER(col) LIKE '%kw%') as match_...] that the
    batch query appends to every row. *)
Definition indicator (keyword : string) (v : Value) : Value :=
  match v with
  | VNull => VNull
  | _ => VInt (if sql_like keyword v then 1 else 0)
  end.

Definition indicators (prio : Taxonomy) (columns : list string)
    (row : list Value) : list Value :=
  flat_map
    (fun c =>
       flat_map
         (fun keyword =>
            map (fun cv => indicator keyword (snd cv)) (combine columns row))
         (snd c))
    prio.

(** The rows of [base_query], before [LIMIT] and [OFFSET]. *)
Definition base_rows (prio : Taxonomy) (t : Table) : list (list Value) :=
  map (fun row => row ++ indicators prio (tbl_columns t) row) (tbl_rows t).

(** [while processed < total_rows:] in [_search_table_optimized].  Every
    turn that goes on consumes one unit of [fuel]; [None] is fuel running
    out.  The boolean tells whether an exception reached the handler. *)
Fixpoint batch_loop (fuel : nat) (t : Table) (rows : list (list Value))
    (processed stmt : nat) (cm : Buckets) : option (Buckets * bool) :=
  match fuel with
  | O => None
  | S fuel' =>
      if (processed <? List.length (tbl_rows t))%nat then
        if raises t stmt then Some (cm, true)
        else
          let batch_rows := sql_limit batch_size (skipn processed rows) in
          match batch_rows with
          | [] => Some (cm, false)
          | _ :: _ =>
              batch_loop fuel' t rows
                (processed + List.length batch_rows) (S stmt)
                (process_batch batch_rows (tbl_columns t) cm (tbl_name t))
          end
      else Some (cm, false)
  end.

(** [_search_table_optimized].  Statement 0 reads the columns, statement 1
    counts the rows, the statements from 2 on fetch the batches.  Table names
    are distinct, so the column cache is never hit. *)
Definition search_table_optimized (prio : Taxonomy) (t : Table)
    : option (Buckets * list Event) :=
  let category_matches := empty_buckets tk in
  if raises t 0 || raises t 1
  then Some (category_matches, [TableError (tbl_name t)])
  else
    match batch_loop (S (List.length (tbl_rows t))) t (base_rows prio t)
                     0 2 category_matches with
    | Some (cm, raised) =>
        Some (cm, if raised then [TableError (tbl_name t)] else [])
    | None => None
    end.

(** [self.results] *)
Record Results : Type := mkResults {
  keywords : Buckets;
  raw_data : list Match;
  total_processed : nat
}.

Definition merge_category (res : Results) (cm : string * list Match)
    : Results :=
  {| keywords := bucket_extend (fst cm) (snd cm) (keywords res);
     raw_data := raw_data res ++ snd cm;
     total_processed := total_processed res |}.

Definition merge_table (res : Results) (table_matches : Buckets) : Results :=
  if (0 <? total_len table_matches)%nat
  then fold_left merge_category table_matches res
  else res.

(** [for table_name in tables:] in [search_keywords_optimized];
    [total_matches] is the running sum of the table totals. *)
Fixpoint search_tables (prio : Taxonomy) (tables : list Table)
    (res : Results) (total_matches : nat) (log : list Event)
    : option (Results * list Event) :=
  match tables with
  | [] =>
      Some ({| keywords := keywords res;
               raw_data := raw_data res;
               total_processed := total_matches |}, log)
  | t :: rest =>
      match search_table_optimized prio t with
      | Some (table_matches, events) =>
          search_tables prio rest (merge_table res table_matches)
            (total_matches + total_len table_matches) (log ++ events)
      | None => None
      end
  end.

(** [search_keywords_optimized] on a fresh analyzer *)
Definition search_keywords_optimized (prio : Taxonomy) (tables : list Table)
    : option (Results * list Event) :=
  search_tables prio tables
    {| keywords := empty_buckets tk; raw_data := []; total_processed := 0 |}
    0 [].

End Analyzer.

(** The category lines of [generate_comprehensive_report]: one percentage
    for every category with matches.  The lines are listed in bucket order;
    the report prints them by decreasing count. *)
Definition category_lines (res : Results) : option (list (string * Q)) :=
  let total_matches := List.length (raw_data res) in
  sequence
    (map (fun cl =>
            option_map (fun q => (fst cl, q))
              (unguarded_percentage (List.length (snd cl)) total_matches))
         (filter (fun cl => negb (Nat.eqb (List.length (snd cl)) 0))
                 (keywords res))).

(** [generate_comprehensive_report] *)
Definition generate_comprehensive_report (res : Results) : option Report :=
  let total_matches := List.length (raw_data res) in
  let high_sensitive := count_tier High (raw_data res) in
  let medium_sensitive := count_tier Medium (raw_data res) in
  build_report (guarded_percentage high_sensitive total_matches)
               (guarded_percentage medium_sensitive total_matches)
               (category_lines res).

(** [export_comprehensive_results]: [total_matches] and the [categories]
    summary. *)
Definition export_total (res : Results) : nat := List.length (raw_data res).

Definition export_categories (res : Results) : list (string * nat) :=
  map (fun cl => (fst cl, List.length (snd cl))) (keywords res).

End Optimized.

(** ** flexible_keyword_analyzer.py *)

Module Flexible.

(** The [match_data] of this analyzer; its time stamp is left out. *)
Record FlexMatch : Type := mkFlexMatch {
  f_table : string;
  f_columns : list string;
  f_data : Dict;
  f_matched_keywords : list string
}.

Section Analyzer.

Variable keywords : list string.
Variable max_results : Z.

Definition make_match (t : Table) (row : list Value) : FlexMatch :=
  {| f_table := tbl_name t;
     f_columns := tbl_columns t;
     f_data := dict_of_pairs (combine (tbl_columns t) row);
     f_matched_keywords := matched_keywords_of keywords (tbl_columns t) row |}.

(** [for row in rows:] with its [break] *)
Fixpoint collect_rows (t : Table) (rows : list (list Value))
    (matches : list FlexMatch) : list FlexMatch :=
  match rows with
  | [] => matches
  | row :: rest =>
      let matches' := matches ++ [make_match t row] in
      if (max_results <=? Z.of_nat (List.length matches'))%Z
      then matches'
      else collect_rows t rest matches'
  end.

(** [_search_in_table] *)
Definition search_in_table (t : Table) : list FlexMatch * list Event :=
  if raises t 0 then ([], [TableError (tbl_name t)])
  else if has_conditions keywords (tbl_columns t) then
    if raises t 1 then ([], [TableError (tbl_name t)])
    else
      (collect_rows t
         (filter (where_any keywords (tbl_columns t)) (tbl_rows t)) [],
       [])
  else ([], []).

(** [self.results], the entries the scan fills *)
Record Results : Type := mkResults {
  total_matches : nat;
  matches_by_table : list (string * nat);
  detailed_matches : list FlexMatch
}.

(** [for table_name in tables:] in [search_keywords] *)
Fixpoint search_tables (tables : list Table) (res : Results)
    (log : list Event) : Results * list Event :=
  match tables with
  | [] => (res, log)
  | t :: rest =>
      let '(table_matches, events) := search_in_table t in
      let res' :=
        match table_matches with
        | [] => res
        | _ :: _ =>
            {| total_matches :=
                 total_matches res + List.length table_matches;
               matches_by_table :=
                 matches_by_table res
                 ++ [(tbl_name t, List.length table_matches)];
               detailed_matches := detailed_matches res ++ table_matches |}
        end in
      if (max_results <=? Z.of_nat (total_matches res'))%Z
      then (res', log ++ events ++ [LimitReached])
      else search_tables rest res' (log ++ events)
  end.

(** [search_keywords] on a fresh analyzer *)
Definition search_keywords (tables : list Table) : Results * list Event :=
  search_tables tables
    {| total_matches := 0; matches_by_table := []; detailed_matches := [] |}
    [].

End Analyzer.

End Flexible.

(** ** advanced_analyzer.py *)

Module Advanced.

Definition high_sensitive : list string :=
  ["token"; "password"; "key"; "secret"; "credential"].

(** [any(sens in key_lower for sens in high_sensitive)] *)
Definition sensitive_key (key : string) : bool :=
  any (fun sens => str_in sens (lower key)) high_sensitive.

(** The body of the loop of [_censor_sensitive_data]: the value stored
    under [key] in the censored copy. *)
Definition censor_value (key : string) (value : Value) : Value :=
  if is_none value then VNull
  else
    let value_str := py_str value in
    if sensitive_key key then
      if (20 <? String.length value_str)%nat then
        VText (take 10 value_str ++ "***[SENSITIVE DATA CENSORED]***"
               ++ take_last 5 value_str)%string
      else if (10 <? String.length value_str)%nat then
        VText (take 5 value_str ++ "***[CENSORED]***")%string
      else VText "***[CENSORED]***"
    else value.

(** [_censor_sensitive_data] *)
Definition censor_sensitive_data (data_dict : Dict) : Dict :=
  fold_left
    (fun censored kv =>
       dict_set (fst kv) (censor_value (fst kv) (snd kv)) censored)
    data_dict [].

(** The [percentage] entry of a category in [create_overall_summary] *)
Definition category_percentage (matches total_matches : nat) : option Q :=
  guarded_percentage matches total_matches.

End Advanced.

(** ** Auxiliary notions used in the statements *)

(** One step of the de-duplicating append. *)
Definition keep_new (acc : list string) (k : string) : list string :=
  if str_mem k acc then acc else acc ++ [k].

(** A possible match as the list of matches it adds. *)
Definition option_list {A : Type} (o : option A) : list A :=
  match o with
  | Some a => [a]
  | None => []
  end.

(** The concatenation of the non-null field values of a row, as the
    specification words the matching condition: the values set end to end,
    and the values joined by single blanks. *)
Definition non_null (v : Value) : bool := negb (is_none v).



(** Distinct names, decided. *)
Fixpoint distinct (l : list string) : bool :=
  match l with
  | [] => true
  | x :: l' => negb (str_mem x l') && distinct l'
  end.

(** The text blob of the sensitivity derivation as the specification words
    it: the non-null field values together with their column names. *)
Definition non_null_text (data : Dict) : string :=
  lower
    (fold_left
       (fun acc cv =>
          if non_null (snd cv)
          then (acc ++ " " ++ fst cv ++ " " ++ py_str (snd cv))%string
          else acc)
       data "").

(** [text * n] *)
Fixpoint repeat_string (text : string) (n : nat) : string :=
  match n with
  | O => ""
  | S n' => (text ++ repeat_string text n')%string
  end.

(** [sum(counts.values())] *)
Definition sum_counts (counts : list (string * nat)) : nat :=
  fold_right (fun cn n => (snd cn + n)%nat) 0%nat counts.

(** The same table with every read succeeding. *)
Definition healthy (t : Table) : Table :=
  mkTable (tbl_name t) (tbl_columns t) (tbl_rows t) None.

(** What a clean scan of one category of a table contributes. *)
Definition category_scan (tk : Taxonomy) (quick_mode : bool) (max_items : Z)
    (t : Table) (c : string * list string) : list Match :=
  map (KeywordAnalyzer.make_match (tbl_name t) (fst c) (snd c) (tbl_columns t))
      (KeywordAnalyzer.select_rows tk quick_mode max_items t (snd c)).

(** ** Consistency of the aggregates *)

(** What the aggregate keeps true: the buckets are those of the taxonomy,
    and the flat list holds the Matches of the buckets. *)
Definition ka_consistent (tk : Taxonomy) (res : KeywordAnalyzer.Results)
    : Prop :=
  map fst (KeywordAnalyzer.keywords res) = map fst tk
  /\ Permutation (KeywordAnalyzer.raw_data res)
       (flatten (KeywordAnalyzer.keywords res)).

Definition opt_consistent (tk : Taxonomy) (res : Optimized.Results)
    (total_matches : nat) : Prop :=
  map fst (Optimized.keywords res) = map fst tk
  /\ Permutation (Optimized.raw_data res) (flatten (Optimized.keywords res))
  /\ total_matches = List.length (Optimized.raw_data res).

Definition flexible_counted (res : Flexible.Results) : Prop :=
  Flexible.total_matches res = List.length (Flexible.detailed_matches res).

(** ** Sample inputs *)

Module Sample.

Definition item_columns : list string := ["key"; "value"].

Definition token_row : list Value :=
  [VText "auth_token"; VText "Bearer abc123xyz789secretvalue"].

Definition plan_row : list Value := [VText "plan_type"; VText "pro_trial"].

(** The two-row table of the end-to-end scenario. *)
Definition item_table : Table :=
  mkTable "ItemTable" item_columns [token_row; plan_row] None.

(** A keyword split over two fields. *)
Definition split_row : list Value := [VText "to"; VText "ken"].

Definition split_table : Table :=
  mkTable "ItemTable" item_columns [split_row] None.


(** A row whose sensitive column holds the integer 0, and one whose
    sensitive column holds the empty text. *)
Definition zero_columns : list string := ["api_key"; "note"].
Definition zero_row : list Value := [VInt 0; VText "my plan"].
Definition zero_table : Table :=
  mkTable "settings" zero_columns [zero_row] None.

Definition empty_columns : list string := ["token"; "note"].
Definition empty_row : list Value := [VText ""; VText "my plan"].
Definition empty_table : Table :=
  mkTable "settings" empty_columns [empty_row] None.

(** A second table holding one more token row. *)
Definition token_table : Table :=
  mkTable "cursorDiskKV" item_columns [token_row] None.

(** A long value: "pro", 500 filler characters, then "token". *)
Definition long_value : string :=
  ("pro" ++ repeat_string "x" 500 ++ "token")%string.
Definition long_columns : list string := ["id"; "value"].
Definition long_row : list Value := [VInt 7; VText long_value].

(** A row that several categories match. *)
Definition mixed_columns : list string := ["name"; "state"].
Definition mixed_row : list Value :=
  [VText "session_plan"; VText "active chat"].

(** The scenario table, its second query failing. *)
Definition failing_table : Table :=
  mkTable "ItemTable" item_columns
    [token_row; plan_row] (Some 2).

(** A table whose column list cannot be read. *)
Definition unreadable_table : Table :=
  mkTable "broken" item_columns [token_row] (Some 0).

(** One matching row, then two: three Matches under a bound of two. *)
Definition one_token : Table :=
  mkTable "first" item_columns [token_row] None.

Definition two_tokens : Table :=
  mkTable "second" item_columns
    [token_row; token_row] None.

(** A row that five categories match. *)
Definition busy_row : list Value :=
  [VText "k"; VText "token plan chat status limit"].

Definition busy_table (name : string) : Table :=
  mkTable name item_columns [busy_row] None.

(** A table with plain column names whose only row several categories
    match. *)
Definition mixed_table : Table :=
  mkTable "prefs" mixed_columns [mixed_row] None.

End Sample.

(** ** Notions used in the further properties *)

(** A Match found by the taxonomy analyzer in bucket [category] stems from
    a row of one of the tables that satisfies the conditions of that
    category. *)
Definition stems_from (tk : Taxonomy) (tables : list Table)
    (category : string) (m : Match) : Prop :=
  exists t keywords row,
    In t tables /\ In (category, keywords) tk /\ In row (tbl_rows t)
    /\ where_any keywords (tbl_columns t) row = true
    /\ m = KeywordAnalyzer.make_match (tbl_name t) category keywords
             (tbl_columns t) row.

Definition buckets_stem_from (tk : Taxonomy) (tables : list Table)
    (b : Buckets) : Prop :=
  Forall (fun cl => Forall (stems_from tk tables (fst cl)) (snd cl)) b.

(** A keyword that the query and the Python test judge alike on every
    scalar: it holds no LIKE wildcard and no quote, and it is neither the
    empty text nor the text "0". *)
Definition plain_keyword (k : string) : bool :=
  sql_plain k && negb (str_in (lower k) "") && negb (str_in (lower k) "0").



(** ** More of Python's strings *)

(** The ASCII characters that [str.strip] removes. *)
Definition is_space (c : ascii) : bool :=
  let n := nat_of_ascii c in
  ((9 <=? n)%nat && (n <=? 13)%nat) || ((28 <=? n)%nat && (n <=? 32)%nat).

(** [s.lstrip()] *)
Fixpoint lstrip (s : string) : string :=
  match s with
  | EmptyString => EmptyString
  | String c s' => if is_space c then lstrip s' else s
  end.

(** [s.rstrip()] *)
Fixpoint rstrip (s : string) : string :=
  match s with
  | EmptyString => EmptyString
  | String c s' =>
      match rstrip s' with
      | EmptyString => if is_space c then EmptyString else String c EmptyString
      | r => String c r
      end
  end.

(** [s.strip()] *)
Definition strip (s : string) : string := rstrip (lstrip s).

(** [value.strip().startswith(("{", "["))] *)
Definition looks_like_json (s : string) : bool :=
  String.prefix "{" (strip s) || String.prefix "[" (strip s).

(** [d[k] = a] on a dictionary with values of any type *)
Fixpoint assoc_set {A : Type} (k : string) (a : A) (d : list (string * A))
    : list (string * A) :=
  match d with
  | [] => [(k, a)]
  | (k', a') :: d' =>
      if String.eqb k' k then (k', a) :: d' else (k', a') :: assoc_set k a d'
  end.

(** ** keyword_analyzer.py: the export *)

Module Exporter.

Section Json.

(** The decoded documents of the [json] module, and [json.loads]; [None]
    stands for the exception it raises on a text that is not JSON. *)
Variable J : Type.
Variable json_loads : string -> option J.

(** An exported field value: the stored scalar, or the decoded document. *)
Inductive Exported : Type :=
| Kept (value : Value)
| Decoded (document : J).

(** The [match_data] of [export_results] *)
Record ExportedMatch : Type := mkExportedMatch {
  x_table : string;
  x_category : string;
  x_matched_keywords : list string;
  x_sensitivity : Sensitivity;
  x_data : list (string * Exported)
}.

(** The value stored under a column of an exported Match:
<<
    if isinstance(value, str) and value.strip().startswith(("{", "[")):
        try:    data[col] = json.loads(value)
        except: data[col] = value
    else:       data[col] = value
>> *)
Definition export_value (value : Value) : Exported :=
  match value with
  | VText s =>
      if looks_like_json s then
        match json_loads s with
        | Some document => Decoded document
        | None => Kept value
        end
      else Kept value
  | _ => Kept value
  end.

Definition filtered_data : list (string * Exported) :=
  [("[SENSITIVE DATA FILTERED]",
    Kept (VText "Use include_sensitive=True to export"))].

(** The body of [for match in matches:] in [export_results] *)
Definition export_match (include_sensitive : bool) (m : Match)
    : ExportedMatch :=
  {| x_table := m_table m;
     x_category := m_category m;
     x_matched_keywords := m_matched_keywords m;
     x_sensitivity := m_sensitivity m;
     x_data :=
       if negb include_sensitive && Sensitivity_eqb (m_sensitivity m) High
       then filtered_data
       else
         fold_left
           (fun data cv => assoc_set (fst cv) (export_value (snd cv)) data)
           (m_data m) [] |}.

(** The [detailed_results] of [export_results]: one entry for every
    category that has Matches. *)
Definition detailed_results (include_sensitive : bool)
    (res : KeywordAnalyzer.Results) : list (string * list ExportedMatch) :=
  fold_left
    (fun detailed cl =>
       match snd cl with
       | [] => detailed
       | _ :: _ =>
           assoc_set (fst cl) (map (export_match include_sensitive) (snd cl))
             detailed
       end)
    (KeywordAnalyzer.keywords res) [].

End Json.

End Exporter.

(** ** advanced_analyzer.py: the category files

    [search_keywords], [_search_in_table] and [_determine_sensitivity] of
    advanced_analyzer.py repeat those of keyword_analyzer.py statement for
    statement, over the same taxonomy and the same sensitivity lists. *)

Module AdvancedFiles.

Definition search_keywords := KeywordAnalyzer.search_keywords.

(** The entry of [category_data["results"]] made for one Match in
    [save_category_files]: a copy whose data is censored when the tier is
    high. *)
Definition saved_data (m : Match) : Dict :=
  if Sensitivity_eqb (m_sensitivity m) High
  then Advanced.censor_sensitive_data (m_data m)
  else m_data m.

(** The [results] lists of the files written by [save_category_files], one
    for every category that has Matches, each entry with its copied fields
    and its data. *)
Definition save_category_files (res : KeywordAnalyzer.Results)
    : list (string * list (Match * Dict)) :=
  map (fun cl => (fst cl, map (fun m => (m, saved_data m)) (snd cl)))
      (filter (fun cl => negb (Nat.eqb (List.length (snd cl)) 0))
              (KeywordAnalyzer.keywords res)).

End AdvancedFiles.

(** ** keyword_analyzer.py: the console display *)

Module Display.

(** [[m for m in matches if m['sensitivity'] == tier]] *)
Definition with_tier (tier : Sensitivity) (matches : list Match)
    : list Match :=
  filter (fun m => Sensitivity_eqb (m_sensitivity m) tier) matches.

(** The [priority_items] of [display_detailed_results] *)
Definition priority_items (max_items_per_category : nat)
    (matches : list Match) : list Match :=
  let high_sens := with_tier High matches in
  let medium_sens := with_tier Medium matches in
  let low_sens := with_tier Low matches in
  let priority_items :=
    firstn max_items_per_category high_sens
    ++ firstn
         (max_items_per_category
          - List.length (firstn max_items_per_category high_sens))
         medium_sens in
  if (List.length priority_items <? max_items_per_category)%nat
  then priority_items
       ++ firstn (max_items_per_category - List.length priority_items) low_sens
  else priority_items.

(** The fields printed for one item:
<<
    for col, value in match['data'].items():
        if value and any(keyword.lower() in str(value).lower()
                         for keyword in match['matched_keywords']):
            formatted_value = self._format_value(value, match['sensitivity'])
>> *)
Definition shown_fields (m : Match)
    : list (string * KeywordAnalyzer.Formatted) :=
  map (fun cv =>
         (fst cv, KeywordAnalyzer.format_value (snd cv) (m_sensitivity m)))
      (filter
         (fun cv =>
            truthy (snd cv)
            && any (fun keyword =>
                      str_in (lower keyword) (lower (py_str (snd cv))))
                   (m_matched_keywords m))
         (m_data m)).

(** The count of the line "... and N more items", printed when the
    category has more Matches than the limit. *)
Definition more_items (max_items_per_category : nat) (matches : list Match)
    : option nat :=
  if (max_items_per_category <? List.length matches)%nat
  then Some (List.length matches - max_items_per_category)%nat
  else None.

End Display.

(** ** The display formatting of field values *)

Module Formatting.

Section Json.

(** [json.dumps(json.loads(text), indent=2, ensure_ascii=False)]; [None]
    stands for an exception raised by either call. *)
Variable json_pretty : string -> option string.

Definition json_cut_marker : string :=
  String (ascii_of_nat 10) "         ... [JSON DIPOTONG]".

Definition cut_marker : string := " ... [DIPOTONG]".

(** The part of [_format_value] below its first lines, in both analyzers:
<<
    try:
        if value_str.strip().startswith(("{", "[")):
            parsed = json.loads(value_str)
            formatted = json.dumps(parsed, indent=2, ensure_ascii=False)
            if len(formatted) > max_length * 3:
                return formatted[:max_length * 3] + "\n         ... [JSON DIPOTONG]"
            return formatted
    except:
        pass
    if len(value_str) > max_length:
        return value_str[:max_length] + " ... [DIPOTONG]"
    return value_str
>>
    (the taxonomy analyzer writes 600 and 200 for the two bounds). *)
Definition display_text (max_length : nat) (value_str : string) : string :=
  let plain :=
    if (max_length <? String.length value_str)%nat
    then (take max_length value_str ++ cut_marker)%string
    else value_str in
  if looks_like_json value_str then
    match json_pretty value_str with
    | Some formatted =>
        if (max_length * 3 <? String.length formatted)%nat
        then (take (max_length * 3) formatted ++ json_cut_marker)%string
        else formatted
    | None => plain
    end
  else plain.

(** [KeywordAnalyzer._format_value], whole *)
Definition format_value (value : Value) (sensitivity : Sensitivity)
    : string :=
  match KeywordAnalyzer.format_value value sensitivity with
  | KeywordAnalyzer.NullText => "NULL"
  | KeywordAnalyzer.Masked text => text
  | KeywordAnalyzer.Display value_str => display_text 200 value_str
  end.

(** [FlexibleKeywordAnalyzer._format_value] *)
Definition flexible_format_value (value : Value) (max_length : nat)
    : string :=
  if is_none value then "NULL" else display_text max_length (py_str value).

End Json.

End Formatting.

(** ** flexible_keyword_analyzer.py: the results and their display *)

(** The number of Matches in a list that come from the table [name] *)
Definition table_count (name : string) (ms : list Flexible.FlexMatch) : nat :=
  List.length (filter (fun m => String.eqb (Flexible.f_table m) name) ms).

(** The entries of [self.results] agree with one another, the tables of
    [matches_by_table] being among [seen]. *)
Definition counts_agree (res : Flexible.Results) (seen : list string) : Prop :=
  Flexible.total_matches res = List.length (Flexible.detailed_matches res)
  /\ Flexible.total_matches res
     = list_sum (map snd (Flexible.matches_by_table res))
  /\ NoDup (map fst (Flexible.matches_by_table res))
  /\ (forall name n,
        In (name, n) (Flexible.matches_by_table res) ->
        (1 <= n)%nat /\ In name seen
        /\ n = table_count name (Flexible.detailed_matches res))
  /\ (forall m,
        In m (Flexible.detailed_matches res) ->
        In (Flexible.f_table m) (map fst (Flexible.matches_by_table res))).

(** [counts[key]] on a [defaultdict(int)] *)
Fixpoint count_of (key : string) (counts : list (string * nat)) : nat :=
  match counts with
  | [] => 0%nat
  | (k, n) :: rest => if String.eqb k key then n else count_of key rest
  end.

Module FlexibleDisplay.

(** The loop of [display_results] over [detailed_matches]: the Matches it
    prints and the final [table_display_count].
<<
    for match in self.results["detailed_matches"]:
        table = match["table"]
        if table_display_count[table] >= 5:
            continue
        ...
        table_display_count[table] += 1
>> *)
Fixpoint display_loop (matches : list Flexible.FlexMatch)
    (table_display_count : list (string * nat))
    : list Flexible.FlexMatch * list (string * nat) :=
  match matches with
  | [] => ([], table_display_count)
  | m :: rest =>
      let table := Flexible.f_table m in
      if (5 <=? count_of table table_display_count)%nat
      then display_loop rest table_display_count
      else
        let '(shown, counts) :=
          display_loop rest
            (assoc_set table (count_of table table_display_count + 1)%nat
               table_display_count) in
        (m :: shown, counts)
  end.

(** [display_results]: [None] when it returns at "no results", else the
    Matches printed and the [remaining] of the closing line, if printed. *)
Definition display_results (res : Flexible.Results)
    : option (list Flexible.FlexMatch * option nat) :=
  if (Flexible.total_matches res =? 0)%nat then None
  else
    let '(shown, counts) :=
      display_loop (Flexible.detailed_matches res) [] in
    let displayed := list_sum (map snd counts) in
    Some (shown,
          if (displayed <? Flexible.total_matches res)%nat
          then Some (Flexible.total_matches res - displayed)%nat
          else None).

End FlexibleDisplay.

(** ** flexible_keyword_analyzer.py: the keywords and options of a run *)

Module KeywordInput.

Definition is_empty (s : string) : bool :=
  match s with
  | EmptyString => true
  | String _ _ => false
  end.

Definition comma : ascii := ascii_of_nat 44.

(** [s.split(",")] *)
Fixpoint split_commas (s : string) : list string :=
  match s with
  | EmptyString => [EmptyString]
  | String c rest =>
      if Ascii.eqb c comma then EmptyString :: split_commas rest
      else
        match split_commas rest with
        | [] => [String c EmptyString]
        | word :: words => String c word :: words
        end
  end.

(** [sep.join(words)] *)
Fixpoint join (sep : string) (words : list string) : string :=
  match words with
  | [] => EmptyString
  | [word] => word
  | word :: rest => (word ++ sep ++ join sep rest)%string
  end.

(** The interactive branch of [get_keywords_from_input], [line] being what
    [input] returns:
<<
    keywords_input = input("Kata kunci: ").strip()
    if not keywords_input:
        return None
    keywords = [kw.strip() for kw in keywords_input.split(",") if kw.strip()]
    if not keywords:
        return None
    return keywords
>> *)
Definition keywords_of_line (line : string) : option (list string) :=
  let keywords_input := strip line in
  if is_empty keywords_input then None
  else
    let keywords :=
      map strip
          (filter (fun kw => negb (is_empty (strip kw)))
                  (split_commas keywords_input)) in
    match keywords with
    | [] => None
    | _ :: _ => Some keywords
    end.

(** [get_keywords_from_input] *)
Definition get_keywords_from_input (argv : list string) (line : string)
    : option (list string) :=
  if (2 <? List.length argv)%nat then Some (skipn 2 argv)
  else keywords_of_line line.

(** [argv.index(word)]; [None] for its [ValueError] *)
Fixpoint index_of (word : string) (argv : list string) : option nat :=
  match argv with
  | [] => None
  | w :: rest =>
      if String.eqb w word then Some 0%nat
      else option_map S (index_of word rest)
  end.

Section Options.

(** [int(text)]; [None] for its [ValueError] *)
Variable py_int : string -> option Z.

(** The [max_results] of [main]:
<<
    max_results = 1000
    if "--max-results" in sys.argv:
        try:
            idx = sys.argv.index("--max-results")
            max_results = int(sys.argv[idx + 1])
        except:
            print("... Invalid --max-results value, using default 1000")
>> *)
Definition max_results_of (argv : list string) : Z :=
  match index_of "--max-results" argv with
  | None => 1000%Z
  | Some idx =>
      match nth_error argv (idx + 1) with
      | None => 1000%Z
      | Some text =>
          match py_int text with
          | Some n => n
          | None => 1000%Z
          end
      end
  end.

End Options.

(** A keyword as the prompt asks for it: not empty, free of commas and of
    white space at its ends. *)
Definition clean (kw : string) : Prop :=
  kw <> EmptyString
  /\ strip kw = kw
  /\ ~ In comma (list_ascii_of_string kw).

End KeywordInput.

(** ** advanced_analyzer.py: the summaries *)

Module AdvancedSummary.

(** An entry of [category_stats] *)
Record CategoryStats : Type := mkCategoryStats {
  s_total : nat;
  s_high_sensitive : nat;
  s_medium_sensitive : nat;
  s_low_sensitive : nat;
  s_percentage : option Q
}.

(** The [category_stats] of [create_overall_summary]:
<<
    for category, matches in self.results["keywords"].items():
        if matches:
            ...
            category_stats[category] = { ... }
>> *)
Definition category_stats (res : KeywordAnalyzer.Results)
    : list (string * CategoryStats) :=
  let total_matches := List.length (KeywordAnalyzer.raw_data res) in
  fold_left
    (fun stats cl =>
       match snd cl with
       | [] => stats
       | _ :: _ =>
           assoc_set (fst cl)
             {| s_total := List.length (snd cl);
                s_high_sensitive := count_tier High (snd cl);
                s_medium_sensitive := count_tier Medium (snd cl);
                s_low_sensitive := count_tier Low (snd cl);
                s_percentage :=
                  Advanced.category_percentage (List.length (snd cl))
                    total_matches |}
             stats
       end)
    (KeywordAnalyzer.keywords res) [].

(** The [overall_statistics] of [create_overall_summary];
    [low_sensitive = total_matches - high_sensitive - medium_sensitive] is
    computed on Python's integers. *)
Record OverallStatistics : Type := mkOverallStatistics {
  o_total_matches : nat;
  o_high_sensitive : nat;
  o_medium_sensitive : nat;
  o_low_sensitive : Z;
  o_categories_with_data : nat;
  o_total_categories : nat
}.

Definition overall_statistics (tk : Taxonomy) (res : KeywordAnalyzer.Results)
    : OverallStatistics :=
  let total_matches := List.length (KeywordAnalyzer.raw_data res) in
  let high_sensitive := count_tier High (KeywordAnalyzer.raw_data res) in
  let medium_sensitive := count_tier Medium (KeywordAnalyzer.raw_data res) in
  {| o_total_matches := total_matches;
     o_high_sensitive := high_sensitive;
     o_medium_sensitive := medium_sensitive;
     o_low_sensitive :=
       (Z.of_nat total_matches - Z.of_nat high_sensitive
        - Z.of_nat medium_sensitive)%Z;
     o_categories_with_data := List.length (category_stats res);
     o_total_categories := List.length tk |}.

(** [keyword_counts[keyword] += 1] *)
Definition bump (keyword : string) (keyword_counts : list (string * nat))
    : list (string * nat) :=
  assoc_set keyword (count_of keyword keyword_counts + 1)%nat keyword_counts.

(** The [keyword_counts] of [_get_top_keywords]:
<<
    for match in self.results["raw_data"]:
        for keyword in match["matched_keywords"]:
            keyword_counts[keyword] += 1
>> *)
Definition keyword_counts (raw_data : list Match) : list (string * nat) :=
  fold_left
    (fun counts m => fold_left (fun counts k => bump k counts)
                               (m_matched_keywords m) counts)
    raw_data [].

(** [sorted(items, key=lambda x: x[1], reverse=True)]: by count, the
    larger first, items of equal count in their order. *)
Fixpoint insert_by_count (x : string * nat) (l : list (string * nat))
    : list (string * nat) :=
  match l with
  | [] => [x]
  | y :: l' =>
      if (snd y <=? snd x)%nat then x :: l else y :: insert_by_count x l'
  end.

Definition sorted_by_count (l : list (string * nat)) : list (string * nat) :=
  fold_right insert_by_count [] l.

(** [_get_top_keywords] *)
Definition get_top_keywords (raw_data : list Match) : list (string * nat) :=
  fold_left (fun d kn => assoc_set (fst kn) (snd kn) d)
            (firstn 10 (sorted_by_count (keyword_counts raw_data))) [].

(** The number of times [keyword] is listed among the matched keywords of
    the Matches of [raw_data] *)
Definition times_matched (keyword : string) (raw_data : list Match) : nat :=
  count_occ string_dec (flat_map m_matched_keywords raw_data) keyword.

End AdvancedSummary.

(** ** keyword_analyzer.py: the extraction of credentials *)

Module Credentials.

(** A decoded JSON document as the extraction looks at it: a dict with its
    members in order, or any other value, given by its [str()]. *)
#[warnings="-register-all"]
Inductive Json : Type :=
| JDict (items : list (string * Json))
| JOther (text : string).


(** The five lists of [credentials_info] *)
Inductive Kind : Type := Token | ApiKey | UserId | Subscription | Status.

(** What an entry holds of the value: a [value_preview], or the [value]
    itself (a decoded value or the text of a column). *)
Inductive Payload : Type :=
| Preview (value_preview : string)
| JsonValue (value : Json)
| TextValue (value : string).

Record Entry : Type := mkEntry {
  e_key : string;
  e_payload : Payload;
  e_table : string;
  e_type : string
}.

Record CredentialsInfo : Type := mkCredentialsInfo {
  tokens : list Entry;
  api_keys : list Entry;
  user_ids : list Entry;
  subscription_info : list Entry;
  account_status : list Entry
}.



(** [credentials_info[...].append(entry)] *)
Definition add (kind : Kind) (e : Entry) (info : CredentialsInfo)
    : CredentialsInfo :=
  match kind with
  | Token =>
      mkCredentialsInfo (tokens info ++ [e]) (api_keys info) (user_ids info)
        (subscription_info info) (account_status info)
  | ApiKey =>
      mkCredentialsInfo (tokens info) (api_keys info ++ [e]) (user_ids info)
        (subscription_info info) (account_status info)
  | UserId =>
      mkCredentialsInfo (tokens info) (api_keys info) (user_ids info ++ [e])
        (subscription_info info) (account_status info)
  | Subscription =>
      mkCredentialsInfo (tokens info) (api_keys info) (user_ids info)
        (subscription_info info ++ [e]) (account_status info)
  | Status =>
      mkCredentialsInfo (tokens info) (api_keys info) (user_ids info)
        (subscription_info info) (account_status info ++ [e])
  end.


(** [text[:50] + "..." if len(text) > 50 else text] *)
Definition preview (text : string) : string :=
  if (50 <? String.length text)%nat then (take 50 text ++ "...")%string
  else text.




Section Extract.

(** [json.loads(text)]; [None] stands for the exception it raises. *)
Variable json_loads : string -> option Json.

(** [str(value)] of a decoded dict *)
Variable dict_str : list (string * Json) -> string.










End Extract.



End Credentials.

(** ** keyword_analyzer_optimized.py: the export *)

Module OptimizedExporter.

Section Json.

Variable J : Type.
Variable json_loads : string -> option J.

(** What an exported Match holds of its data: the [data_summary]
    "[FILTERED - n sensitive fields]", or the [data]. *)
Inductive ExportedData : Type :=
| DataSummary (fields : nat)
| Data (data : list (string * Exporter.Exported J)).

(** The [match_data] of [export_comprehensive_results] *)
Record ExportedMatch : Type := mkExportedMatch {
  x_table : string;
  x_category : string;
  x_matched_keywords : list string;
  x_sensitivity : Sensitivity;
  x_data : ExportedData
}.

(** The body of [for i, match in enumerate(matches):] *)
Definition export_match (include_sensitive : bool) (m : Match)
    : ExportedMatch :=
  {| x_table := m_table m;
     x_category := m_category m;
     x_matched_keywords := m_matched_keywords m;
     x_sensitivity := m_sensitivity m;
     x_data :=
       if negb include_sensitive && Sensitivity_eqb (m_sensitivity m) High
       then DataSummary (List.length (m_data m))
       else
         Data
           (fold_left
              (fun data cv =>
                 assoc_set (fst cv)
                   (Exporter.export_value J json_loads (snd cv)) data)
              (m_data m) []) |}.

End Json.

End OptimizedExporter.

(** ** advanced_analyzer.py: the summary of a category *)

Module CategorySummary.

(** [sorted(set(words))]: the distinct words in ascending order. *)
Fixpoint insert_sorted (x : string) (l : list string) : list string :=
  match l with
  | [] => [x]
  | y :: l' => if String.leb x y then x :: l else y :: insert_sorted x l'
  end.

Definition sorted_set (words : list string) : list string :=
  fold_right insert_sorted [] (nodup string_dec words).

(** What [_create_category_summary] writes: the counts of its head, the
    line of every table involved and the line of every keyword found. *)
Record Summary : Type := mkSummary {
  total_matches : nat;
  high_sens : nat;
  medium_sens : nat;
  low_sens : nat;
  tables_involved : list (string * nat);
  keywords_found : list (string * nat)
}.

(** [_create_category_summary]
<<
    tables_involved = set([m["table"] for m in matches])
    all_keywords = set()
    for match in matches:
        all_keywords.update(match["matched_keywords"])
    ...
    for table in sorted(tables_involved):
        table_matches = len([m for m in matches if m["table"] == table])
    ...
    for keyword in sorted(all_keywords):
        keyword_count = len(
            [m for m in matches if keyword in m["matched_keywords"]])
>> *)
Definition create_category_summary (matches : list Match) : Summary :=
  {| total_matches := List.length matches;
     high_sens := count_tier High matches;
     medium_sens := count_tier Medium matches;
     low_sens := count_tier Low matches;
     tables_involved :=
       map (fun table =>
              (table,
               List.length
                 (filter (fun m => String.eqb (m_table m) table) matches)))
           (sorted_set (map m_table matches));
     keywords_found :=
       map (fun keyword =>
              (keyword,
               List.length
                 (filter (fun m => str_mem keyword (m_matched_keywords m))
                         matches)))
           (sorted_set (flat_map m_matched_keywords matches)) |}.

End CategorySummary.
(** * Properties *)

(** ** Substrings and lower case *)

Lemma prefix_app (n s : string) : String.prefix n (n ++ s)%string = true.
Proof.
  induction n as [|a n IH]; simpl.
  - destruct s; reflexivity.
  - destruct (ascii_dec a a) as [_|Hne]; [exact IH | now elim Hne].
Qed.

Lemma prefix_split (n h : string) :
  String.prefix n h = true -> exists s, h = (n ++ s)%string.
Proof.
  revert h; induction n as [|a n IH]; intros h H.
  - now exists h.
  - destruct h as [|b h]; simpl in H; [discriminate|].
    destruct (ascii_dec a b) as [->|_]; [|discriminate].
    destruct (IH h H) as [s ->]. now exists s.
Qed.

Lemma str_in_split (n h : string) :
  str_in n h = true <-> exists p s, h = (p ++ n ++ s)%string.
Proof.
  split.
  - induction h as [|b h IH]; cbn [str_in]; intros H.
    + rewrite orb_false_r in H. apply prefix_split in H as [s Hs].
      now exists EmptyString, s.
    + apply orb_true_iff in H as [H|H].
      * apply prefix_split in H as [s Hs]. now exists EmptyString, s.
      * destruct (IH H) as (p & s & ->). now exists (String b p), s.
  - intros (p & s & ->). induction p as [|b p IH].
    + assert (Hp := prefix_app n s). cbn [append].
      destruct (n ++ s)%string; cbn [str_in]; rewrite Hp; reflexivity.
    + cbn [append str_in]. rewrite IH. apply orb_true_r.
Qed.

Lemma append_assoc (a b c : string) :
  ((a ++ b) ++ c = a ++ (b ++ c))%string.
Proof. induction a as [|x a IH]; simpl; [reflexivity | now rewrite IH]. Qed.

Lemma append_nil_r (a : string) : (a ++ "")%string = a.
Proof. induction a as [|x a IH]; simpl; [reflexivity | now rewrite IH]. Qed.

Lemma str_in_app_l (n a b : string) :
  str_in n a = true -> str_in n (a ++ b)%string = true.
Proof.
  rewrite !str_in_split. intros (p & s & ->).
  exists p, (s ++ b)%string. now rewrite !append_assoc.
Qed.

Lemma str_in_app_r (n a b : string) :
  str_in n b = true -> str_in n (a ++ b)%string = true.
Proof.
  rewrite !str_in_split. intros (p & s & ->).
  exists (a ++ p)%string, s. now rewrite !append_assoc.
Qed.

Lemma str_in_trans (a b c : string) :
  str_in a b = true -> str_in b c = true -> str_in a c = true.
Proof.
  rewrite !str_in_split. intros (p & s & ->) (p' & s' & ->).
  exists (p' ++ p)%string, (s ++ s')%string. now rewrite !append_assoc.
Qed.

Lemma str_in_refl (a : string) : str_in a a = true.
Proof. apply str_in_split. exists EmptyString, EmptyString. simpl. now rewrite append_nil_r. Qed.

Lemma lower_app (a b : string) :
  lower (a ++ b)%string = (lower a ++ lower b)%string.
Proof. induction a as [|x a IH]; simpl; [reflexivity | now rewrite IH]. Qed.

Lemma str_in_lower_mono (a b : string) :
  str_in a b = true -> str_in (lower a) (lower b) = true.
Proof.
  rewrite !str_in_split. intros (p & s & ->).
  exists (lower p), (lower s). now rewrite !lower_app.
Qed.

Lemma str_mem_In (k : string) (l : list string) :
  str_mem k l = true <-> In k l.
Proof.
  unfold str_mem. rewrite existsb_exists. split.
  - intros (x & Hx & E). apply String.eqb_eq in E. now subst.
  - intros H. exists k. split; [assumption | apply String.eqb_refl].
Qed.

(** ** The matched keywords are the de-duplicated occurrences *)

Lemma add_keyword_filter (value_str : string) (keywords acc : list string) :
  fold_left (add_keyword value_str) keywords acc
  = fold_left keep_new
      (filter (fun k => str_in (lower k) value_str) keywords) acc.
Proof.
  revert acc; induction keywords as [|k ks IH]; intros acc; simpl.
  - reflexivity.
  - unfold add_keyword at 2.
    destruct (str_in (lower k) value_str); simpl; rewrite IH; reflexivity.
Qed.

Lemma scan_fields_keep_new (keywords : list string)
    (fields : list (string * Value)) (acc : list string) :
  scan_fields keywords fields acc
  = fold_left keep_new (occurrences keywords fields) acc.
Proof.
  unfold scan_fields, occurrences.
  revert acc; induction fields as [|[c v] fs IH]; intros acc; simpl.
  - reflexivity.
  - rewrite fold_left_app, IH. f_equal.
    unfold scan_value, occurs_in. simpl.
    destruct (truthy v); simpl.
    + apply add_keyword_filter.
    + clear IH. induction keywords as [|k ks IHk]; simpl; auto.
Qed.

Lemma filter_filter_comm {A : Type} (f g : A -> bool) (l : list A) :
  filter f (filter g l) = filter (fun x => g x && f x) l.
Proof.
  induction l as [|x l IH]; simpl; [reflexivity|].
  destruct (g x); simpl; [destruct (f x)|]; now rewrite IH.
Qed.

Lemma keep_new_dedup (l acc : list string) :
  fold_left keep_new l acc
  = acc ++ filter (fun k => negb (str_mem k acc)) (dedup_first l).
Proof.
  revert acc; induction l as [|x l IH]; intros acc; simpl.
  - now rewrite app_nil_r.
  - rewrite IH. unfold keep_new.
    destruct (str_mem x acc) eqn:Hx; simpl.
    + f_equal. rewrite filter_filter_comm. apply filter_ext_in.
      intros k _. destruct (String.eqb x k) eqn:E; simpl; [|reflexivity].
      apply String.eqb_eq in E. subst k. now rewrite Hx.
    + rewrite <- app_assoc. simpl. do 2 f_equal.
      rewrite filter_filter_comm. apply filter_ext_in.
      intros k _. unfold str_mem. rewrite existsb_app. simpl.
      rewrite orb_false_r, negb_orb, (String.eqb_sym k x).
      apply andb_comm.
Qed.

Lemma scan_fields_dedup (keywords : list string)
    (fields : list (string * Value)) :
  scan_fields keywords fields [] = dedup_first (occurrences keywords fields).
Proof.
  rewrite scan_fields_keep_new, keep_new_dedup. simpl.
  rewrite forallb_filter_id; [reflexivity|].
  now apply forallb_forall.
Qed.

Lemma dedup_first_In (l : list string) (k : string) :
  In k (dedup_first l) <-> In k l.
Proof.
  induction l as [|x l IH]; simpl; [tauto|].
  rewrite filter_In, IH.
  destruct (String.eqb x k) eqn:E.
  - apply String.eqb_eq in E. subst. simpl. intuition.
  - apply String.eqb_neq in E. simpl. intuition congruence.
Qed.

Lemma dedup_first_NoDup (l : list string) : NoDup (dedup_first l).
Proof.
  induction l as [|x l IH]; simpl; constructor.
  - rewrite filter_In. intros [_ H]. now rewrite String.eqb_refl in H.
  - now apply NoDup_filter.
Qed.

Lemma occurrences_In (keywords : list string)
    (fields : list (string * Value)) (k : string) :
  In k (occurrences keywords fields)
  <-> In k keywords /\ exists cv, In cv fields /\ occurs_in k (snd cv) = true.
Proof.
  unfold occurrences. rewrite in_flat_map. split.
  - intros (cv & Hcv & H). apply filter_In in H as [Hk Ho]. eauto.
  - intros (Hk & cv & Hcv & Ho). exists cv. split; [assumption|].
    apply filter_In. auto.
Qed.

(** ** Buckets *)

Lemma bucket_extend_keys (c : string) (ms : list Match) (b : Buckets) :
  map fst (bucket_extend c ms b) = map fst b.
Proof.
  induction b as [|[k l] b IH]; simpl; [reflexivity|].
  destruct (String.eqb k c); simpl; [reflexivity | now rewrite IH].
Qed.

Lemma bucket_extend_nil (c : string) (b : Buckets) :
  bucket_extend c [] b = b.
Proof.
  induction b as [|[k l] b IH]; simpl; [reflexivity|].
  destruct (String.eqb k c); [now rewrite app_nil_r | now rewrite IH].
Qed.

Lemma bucket_get_extend (c c' : string) (ms : list Match) (b : Buckets) :
  In c (map fst b) ->
  bucket_get c (bucket_extend c' ms b)
  = bucket_get c b ++ (if String.eqb c' c then ms else []).
Proof.
  induction b as [|[k l] b IH]; simpl; [tauto|]. intros Hin.
  destruct (String.eqb k c') eqn:Ekc'; simpl.
  - apply String.eqb_eq in Ekc'. subst c'.
    destruct (String.eqb k c); [reflexivity | now rewrite app_nil_r].
  - destruct (String.eqb k c) eqn:Ekc.
    + apply String.eqb_eq in Ekc. subst k.
      rewrite String.eqb_sym, Ekc'. now rewrite app_nil_r.
    + apply IH. destruct Hin as [E|H]; [|assumption].
      subst. now rewrite String.eqb_refl in Ekc.
Qed.

Lemma bucket_get_fold {A : Type} (key : A -> string) (g : A -> list Match)
    (l : list A) (cm : Buckets) (c : string) :
  In c (map fst cm) ->
  bucket_get c (fold_left (fun cm x => bucket_extend (key x) (g x) cm) l cm)
  = bucket_get c cm
    ++ flat_map (fun x => if String.eqb (key x) c then g x else []) l.
Proof.
  revert cm; induction l as [|x l IH]; intros cm Hin; simpl.
  - now rewrite app_nil_r.
  - rewrite IH by now rewrite bucket_extend_keys.
    rewrite bucket_get_extend by assumption. now rewrite <- app_assoc.
Qed.

Lemma flat_map_other {A : Type} (g : A * list string -> list Match)
    (l : list (A * list string)) (sel : A * list string -> bool) :
  (forall x, In x l -> sel x = false) ->
  flat_map (fun x => if sel x then g x else []) l = [].
Proof.
  induction l as [|x l IH]; simpl; intros H; [reflexivity|].
  rewrite (H x) by now left. simpl. apply IH. intros y Hy. apply H. now right.
Qed.

Lemma flat_map_unique (g : string * list string -> list Match)
    (tk : Taxonomy) (c : string) (ks : list string) :
  NoDup (map fst tk) -> In (c, ks) tk ->
  flat_map (fun x => if String.eqb (fst x) c then g x else []) tk = g (c, ks).
Proof.
  induction tk as [|x tk IH]; simpl; intros Hnd Hin; [tauto|].
  inversion Hnd as [|? ? Hx Hnd']; subst.
  destruct Hin as [->|Hin]; simpl.
  - rewrite String.eqb_refl, flat_map_other; [apply app_nil_r|].
    intros y Hy. apply String.eqb_neq. intros E. apply Hx.
    apply in_map_iff. now exists y.
  - assert (String.eqb (fst x) c = false) as ->.
    { apply String.eqb_neq. intros E. apply Hx.
      apply in_map_iff. now exists (c, ks). }
    simpl. now apply IH.
Qed.

Lemma bucket_get_empty (tk : Taxonomy) (c : string) :
  bucket_get c (empty_buckets tk) = [].
Proof.
  induction tk as [|[k ks] tk IH]; simpl; [reflexivity|].
  now destruct (String.eqb k c).
Qed.

Lemma empty_buckets_keys (tk : Taxonomy) :
  map fst (empty_buckets tk) = map fst tk.
Proof. unfold empty_buckets. rewrite map_map. reflexivity. Qed.

(** ** The classifiers as bucket extensions *)

Lemma process_row_extend (tk : Taxonomy) (table_name : string)
    (columns : list string) (cm : Buckets) (row : list Value) :
  Optimized.process_row tk table_name columns cm row
  = fold_left
      (fun cm c =>
         bucket_extend (fst c)
           (option_list
              (Optimized.classify table_name columns
                 (firstn (List.length columns) row) c)) cm)
      tk cm.
Proof.
  unfold Optimized.process_row.
  revert cm; induction tk as [|c tk IH]; intros cm; simpl; [reflexivity|].
  destruct (Optimized.classify _ _ _ c); simpl.
  - apply IH.
  - rewrite bucket_extend_nil. apply IH.
Qed.

Lemma raises_no_fault (t : Table) (stmt : nat) :
  tbl_fault t = None -> raises t stmt = false.
Proof. unfold raises. now intros ->. Qed.

Lemma where_any_no_conditions (keywords columns : list string)
    (row : list Value) :
  has_conditions keywords columns = false ->
  where_any keywords columns row = false.
Proof.
  unfold where_any. destruct keywords as [|k ks]; [reflexivity|].
  destruct columns as [|c cs]; [|discriminate]. intros _.
  simpl. induction ks as [|k' ks IH]; simpl; auto.
Qed.

Lemma filter_no_conditions (keywords columns : list string)
    (rows : list (list Value)) :
  has_conditions keywords columns = false ->
  filter (where_any keywords columns) rows = [].
Proof.
  intros Hc. induction rows as [|r rs IH]; simpl; [reflexivity|].
  now rewrite where_any_no_conditions.
Qed.

Lemma select_rows_no_conditions (tk : Taxonomy) (quick_mode : bool)
    (max_items : Z) (t : Table) (keywords : list string) :
  has_conditions keywords (tbl_columns t) = false ->
  KeywordAnalyzer.select_rows tk quick_mode max_items t keywords = [].
Proof.
  intros Hc. unfold KeywordAnalyzer.select_rows.
  rewrite filter_no_conditions by assumption.
  destruct quick_mode; [|reflexivity].
  unfold sql_limit. destruct (_ <? 0)%Z; [reflexivity | apply firstn_nil].
Qed.

Lemma search_categories_no_fault (tk : Taxonomy) (quick_mode : bool)
    (max_items : Z) (t : Table) (cats : Taxonomy) (stmt : nat) (cm : Buckets) :
  tbl_fault t = None ->
  KeywordAnalyzer.search_categories tk quick_mode max_items t cats stmt cm
  = (fold_left
       (fun cm c =>
          bucket_extend (fst c)
            (map (KeywordAnalyzer.make_match (tbl_name t) (fst c) (snd c)
                    (tbl_columns t))
                 (KeywordAnalyzer.select_rows tk quick_mode max_items t (snd c)))
            cm)
       cats cm,
     false).
Proof.
  intros Hf. revert stmt cm.
  induction cats as [|[c ks] cats IH]; intros stmt cm; simpl; [reflexivity|].
  destruct (has_conditions ks (tbl_columns t)) eqn:Hc.
  - rewrite raises_no_fault by assumption. apply IH.
  - rewrite IH. do 2 f_equal.
    rewrite select_rows_no_conditions by assumption.
    simpl. now rewrite bucket_extend_nil.
Qed.

Lemma distinct_NoDup (l : list string) : distinct l = true -> NoDup l.
Proof.
  induction l as [|x l IH]; simpl; intros H; constructor.
  - apply andb_true_iff in H as [H _]. intros Hin.
    apply str_mem_In in Hin. now rewrite Hin in H.
  - apply IH. now apply andb_true_iff in H as [_ H].
Defined.

Lemma lower_ascii_idempotent (c : ascii) :
  lower_ascii (lower_ascii c) = lower_ascii c.
Proof. destruct c as [[] [] [] [] [] [] [] []]; reflexivity. Qed.

Lemma lower_ascii_plain (c : ascii) :
  sql_plain_char c = true ->
  Ascii.eqb (lower_ascii c) "%" = false
  /\ Ascii.eqb (lower_ascii c) "_" = false.
Proof.
  destruct c as [[] [] [] [] [] [] [] []]; vm_compute; intros H;
    try discriminate H; split; reflexivity.
Qed.

Lemma like_percent (pattern text : string) :
  like_match (String "%" pattern) text
  = like_match pattern text
    || match text with
       | EmptyString => false
       | String _ text' => like_match (String "%" pattern) text'
       end.
Proof. destruct text; reflexivity. Qed.

Lemma like_any_tail (text : string) : like_match "%" text = true.
Proof.
  induction text as [|c text IH]; [reflexivity|].
  rewrite like_percent. rewrite IH. apply orb_true_r.
Qed.

Lemma like_plain_prefix (k : string) :
  sql_plain k = true ->
  forall s,
    like_match (lower k ++ "%") (lower s) = String.prefix (lower k) (lower s).
Proof.
  induction k as [|p k IH]; intros Hp s.
  - cbn [lower String.append]. rewrite like_any_tail.
    now destruct (lower s).
  - cbn [sql_plain] in Hp. apply andb_true_iff in Hp as [Hc Hk].
    destruct (lower_ascii_plain p Hc) as [Hpc Hus].
    cbn [lower String.append like_match]. rewrite Hpc.
    destruct s as [|c s]; [reflexivity|].
    cbn [lower String.prefix]. rewrite Hus, !lower_ascii_idempotent, (IH Hk).
    cbn [orb].
    destruct (Ascii.eqb_spec (lower_ascii p) (lower_ascii c)) as [E|E];
      destruct (ascii_dec (lower_ascii p) (lower_ascii c)) as [E'|E'];
      try reflexivity; contradiction.
Qed.

(** For a keyword without wildcards the pattern [%keyword%] matches the
    texts that contain the keyword. *)
Lemma like_plain_contains (k : string) :
  sql_plain k = true ->
  forall s,
    like_match ("%" ++ lower k ++ "%") (lower s) = str_in (lower k) (lower s).
Proof.
  intros Hp s. change ("%" ++ lower k ++ "%")%string
    with (String "%" (lower k ++ "%")).
  induction s as [|c s IH].
  - rewrite like_percent. rewrite (like_plain_prefix k Hp "").
    reflexivity.
  - rewrite like_percent. rewrite (like_plain_prefix k Hp (String c s)).
    cbn [lower str_in]. cbn [lower] in IH. now rewrite IH.
Qed.

Lemma sql_like_spec (k : string) (v : Value) :
  sql_plain k = true ->
  (sql_like k v = true
   <-> non_null v = true /\ str_in (lower k) (lower (py_str v)) = true).
Proof.
  intros Hp. unfold sql_like, non_null.
  destruct v; try rewrite (like_plain_contains k Hp); simpl;
    intuition discriminate.
Qed.


Lemma matched_keywords_spec (keywords columns : list string)
    (row : list Value) :
  let matched := matched_keywords_of keywords columns row in
  matched = dedup_first (occurrences keywords (combine columns row))
  /\ NoDup matched
  /\ (forall k, In k matched
        <-> In k keywords
            /\ exists cv, In cv (combine columns row)
                          /\ occurs_in k (snd cv) = true).
Proof.
  unfold matched_keywords_of. rewrite scan_fields_dedup. cbv zeta.
  split; [reflexivity|]. split; [apply dedup_first_NoDup|].
  intros k. rewrite dedup_first_In, occurrences_In. tauto.
Qed.


Lemma classify_fields (table_name : string) (columns : list string)
    (main_data : list Value) (c : string * list string) (m : Match) :
  Optimized.classify table_name columns main_data c = Some m ->
  m_category m = fst c
  /\ m_matched_keywords m = matched_keywords_of (snd c) columns main_data
  /\ m_data m = dict_of_pairs (combine columns main_data)
  /\ m_sensitivity m
     = Optimized.determine_sensitivity_fast (m_matched_keywords m) main_data.
Proof.
  unfold Optimized.classify.
  destruct (matched_keywords_of (snd c) columns main_data) as [|k ks];
    [discriminate|].
  intros H. injection H as <-. simpl. auto.
Qed.

(** The Matches of a table scan stem from rows that its query selects. *)

Lemma firstn_In {A : Type} (n : nat) (l : list A) (x : A) :
  In x (firstn n l) -> In x l.
Proof.
  revert l; induction n as [|n IH]; intros [|y l]; simpl; try tauto.
  intros [->|H]; [now left | right; now apply IH].
Qed.

Lemma select_rows_sound (tk : Taxonomy) (quick_mode : bool) (max_items : Z)
    (t : Table) (keywords : list string) (row : list Value) :
  In row (KeywordAnalyzer.select_rows tk quick_mode max_items t keywords) ->
  In row (tbl_rows t) /\ where_any keywords (tbl_columns t) row = true.
Proof.
  unfold KeywordAnalyzer.select_rows, sql_limit. intros H.
  apply filter_In.
  destruct quick_mode; [|exact H].
  destruct (_ <? 0)%Z; [exact H|]. now apply firstn_In in H.
Qed.

Lemma buckets_stem_extend (tk : Taxonomy) (tables : list Table)
    (c : string) (ms : list Match) (b : Buckets) :
  Forall (stems_from tk tables c) ms ->
  buckets_stem_from tk tables b ->
  buckets_stem_from tk tables (bucket_extend c ms b).
Proof.
  intros Hms. unfold buckets_stem_from.
  induction 1 as [|[k l] b Hl Hb IH]; cbn [bucket_extend]; [constructor|].
  destruct (String.eqb k c) eqn:E.
  - apply String.eqb_eq in E. subst k. constructor; [|assumption].
    cbn [fst snd] in *. apply Forall_app. now split.
  - constructor; assumption.
Qed.

Lemma buckets_stem_empty (tk tk' : Taxonomy) (tables : list Table) :
  buckets_stem_from tk tables (empty_buckets tk').
Proof.
  unfold buckets_stem_from, empty_buckets. apply Forall_forall.
  intros cl H. apply in_map_iff in H as (c & <- & _). constructor.
Qed.

Lemma search_categories_stem (tk : Taxonomy) (quick_mode : bool)
    (max_items : Z) (tables : list Table) (t : Table) (cats : Taxonomy)
    (stmt : nat) (cm : Buckets) :
  In t tables ->
  (forall c, In c cats -> In c tk) ->
  buckets_stem_from tk tables cm ->
  buckets_stem_from tk tables
    (fst (KeywordAnalyzer.search_categories tk quick_mode max_items t cats
            stmt cm)).
Proof.
  intros Ht. revert stmt cm; induction cats as [|[c ks] cats IH];
    intros stmt cm Hsub Hcm; cbn [KeywordAnalyzer.search_categories];
    [assumption|].
  assert (Hsub' : forall c', In c' cats -> In c' tk)
    by (intros c' Hc'; apply Hsub; now right).
  destruct (has_conditions ks (tbl_columns t)); [|now apply IH].
  destruct (raises t stmt); [assumption|].
  apply IH; [assumption|]. apply buckets_stem_extend; [|assumption].
  apply Forall_forall. intros m Hm.
  apply in_map_iff in Hm as (row & <- & Hrow).
  apply select_rows_sound in Hrow as [Hin Hw].
  exists t, ks, row. repeat split; try assumption. apply Hsub. now left.
Qed.

Lemma search_in_table_stem (tk : Taxonomy) (quick_mode : bool)
    (max_items : Z) (tables : list Table) (t : Table) :
  In t tables ->
  buckets_stem_from tk tables
    (fst (KeywordAnalyzer.search_in_table tk quick_mode max_items t)).
Proof.
  intros Ht. unfold KeywordAnalyzer.search_in_table.
  destruct (raises t 0); [apply buckets_stem_empty|].
  assert (H := search_categories_stem tk quick_mode max_items tables t tk 1
                 (empty_buckets tk) Ht (fun c Hc => Hc)
                 (buckets_stem_empty tk tk tables)).
  now destruct (KeywordAnalyzer.search_categories _ _ _ _ _ _ _).
Qed.






(** The condition on the keywords is needed as well: a keyword with a
    wildcard (here a_c, against the text abc) selects a row in which it
    does not occur, and the Match of that row lists no keyword. *)
Lemma wildcard_keyword_selects_more :
  str_in (lower "a_c") (lower "abc") = false
  /\ sql_plain "a_c" = false
  /\ map m_matched_keywords
         (bucket_get "letters"
            (fst (KeywordAnalyzer.search_in_table [("letters", ["a_c"])]
                    false 1000
                    (mkTable "notes" ["body"] [[VText "abc"]] None))))
     = [[]].
Proof. vm_compute. repeat split. Qed.

(** ** Sensitivity *)

Lemma any_exists {A : Type} (f : A -> bool) (l : list A) :
  any f l = true <-> exists x, In x l /\ f x = true.
Proof. apply existsb_exists. Qed.

(** The tiers of [_determine_sensitivity], tier by tier. *)
Lemma determine_sensitivity_tiers (data : Dict) :
  let text := KeywordAnalyzer.all_text data in
  let has := fun keywords => exists k, In k keywords /\ str_in k text = true in
  (KeywordAnalyzer.determine_sensitivity data = High
     <-> has KeywordAnalyzer.high_sensitive)
  /\ (KeywordAnalyzer.determine_sensitivity data = Medium
     <-> ~ has KeywordAnalyzer.high_sensitive
         /\ has KeywordAnalyzer.medium_sensitive)
  /\ (KeywordAnalyzer.determine_sensitivity data = Low
     <-> ~ has KeywordAnalyzer.high_sensitive
         /\ ~ has KeywordAnalyzer.medium_sensitive).
Proof.
  cbv zeta. unfold KeywordAnalyzer.determine_sensitivity.
  rewrite <- !any_exists.
  destruct (any _ KeywordAnalyzer.high_sensitive);
    destruct (any _ KeywordAnalyzer.medium_sensitive);
    intuition (try discriminate; try congruence).
Qed.

(** C2 (as amended).  When the text blob of a record -- the values Python
    treats as true (not null, not the empty text, not zero), each preceded
    by its column name, in lower case -- contains a high-sensitivity keyword,
    the tier is high, whichever medium-sensitivity keywords it contains as
    well; the tier is medium only when no high-sensitivity keyword occurs. *)
Theorem C2_high_keyword_gives_high_tier :
  forall (data : Dict) (keyword : string),
    In keyword KeywordAnalyzer.high_sensitive ->
    str_in keyword (KeywordAnalyzer.all_text data) = true ->
    KeywordAnalyzer.determine_sensitivity data = High
    /\ KeywordAnalyzer.determine_sensitivity data <> Medium
    /\ forall table_name category keywords columns row,
         data = dict_of_pairs (combine columns row) ->
         m_sensitivity
           (KeywordAnalyzer.make_match table_name category keywords columns row)
         = High.
Proof.
  intros data keyword Hk Hs.
  assert (H : KeywordAnalyzer.determine_sensitivity data = High).
  { apply (proj1 (determine_sensitivity_tiers data)). eauto. }
  split; [exact H|]. split; [congruence|].
  intros table_name category keywords columns row ->. exact H.
Qed.

Lemma C2_high_keyword_gives_high_tier_witness :
  let data := [("key", VText "api_token"); ("value", VText "user@email")] in
  In "token" KeywordAnalyzer.high_sensitive
  /\ str_in "token" (KeywordAnalyzer.all_text data) = true
  /\ str_in "email" (KeywordAnalyzer.all_text data) = true
  /\ KeywordAnalyzer.determine_sensitivity data = High.
Proof.
  cbv zeta.
  assert (Hk : In "token" KeywordAnalyzer.high_sensitive) by (simpl; tauto).
  split; [exact Hk|]. split; [reflexivity|]. split; [reflexivity|].
  exact (proj1 (C2_high_keyword_gives_high_tier
                  [("key", VText "api_token"); ("value", VText "user@email")]
                  "token" Hk eq_refl)).
Defined.

(** C2, as stated, fails on a non-null value that Python treats as false:
    the column "api_key" holds the integer 0 (respectively the column
    "token" holds the empty text), so the non-null values together with
    their column names contain the keyword "key" (respectively "token"),
    yet the Match of the row has tier low. *)
Lemma C2_falsy_value_counterexample :
  let tk := KeywordAnalyzer.target_keywords in
  let zero := fst (KeywordAnalyzer.search_in_table tk false 1000
                     Sample.zero_table) in
  let empty := fst (KeywordAnalyzer.search_in_table tk false 1000
                      Sample.empty_table) in
  In "key" KeywordAnalyzer.high_sensitive
  /\ str_in "key"
       (non_null_text (combine Sample.zero_columns Sample.zero_row)) = true
  /\ map m_data (bucket_get "subscription" zero)
     = [combine Sample.zero_columns Sample.zero_row]
  /\ map m_sensitivity (bucket_get "subscription" zero) = [Low]
  /\ In "token" KeywordAnalyzer.high_sensitive
  /\ str_in "token"
       (non_null_text (combine Sample.empty_columns Sample.empty_row)) = true
  /\ map m_data (bucket_get "subscription" empty)
     = [combine Sample.empty_columns Sample.empty_row]
  /\ map m_sensitivity (bucket_get "subscription" empty) = [Low].
Proof. vm_compute. intuition. Qed.

Lemma substring_all (n : nat) (s : string) :
  (String.length s <= n)%nat -> substring 0 n s = s.
Proof.
  revert n; induction s as [|a s IH]; intros n H.
  - now destruct n.
  - destruct n as [|n]; simpl in *; [lia|]. rewrite IH by lia. reflexivity.
Qed.

Lemma str_in_concat (sep x : string) (l : list string) :
  In x l -> str_in x (String.concat sep l) = true.
Proof.
  induction l as [|y l IH]; simpl; [tauto|]. intros [->|Hin].
  - destruct l; [apply str_in_refl|]. apply str_in_app_l, str_in_refl.
  - destruct l as [|z l]; [destruct Hin|].
    apply str_in_app_r, str_in_app_r, IH, Hin.
Qed.

(** Without the cut at 500 characters, the fast tier is a function of the
    row alone. *)
Lemma fast_tier_of_short_row (matched : list string) (data_row : list Value) :
  (String.length
     (String.concat " " (map py_str (filter truthy data_row))) <= 500)%nat ->
  (forall k, In k matched ->
     exists v, In v data_row /\ occurs_in k v = true) ->
  Optimized.determine_sensitivity_fast matched data_row
  = Optimized.determine_sensitivity_fast [] data_row.
Proof.
  intros Hlen Hocc. unfold Optimized.determine_sensitivity_fast.
  change (any _ []) with false. cbv iota.
  destruct (any _ matched) eqn:E; [|reflexivity].
  apply any_exists in E as (k & Hk & E).
  apply any_exists in E as (s & Hs & E).
  destruct (Hocc k Hk) as (v & Hv & Ho).
  apply andb_true_iff in Ho as [Ht Ho].
  assert (Hin : str_in s (Optimized.data_str data_row) = true).
  { unfold Optimized.data_str, take. rewrite substring_all by assumption.
    apply (str_in_trans _ _ _ E), (str_in_trans _ _ _ Ho).
    apply str_in_lower_mono, str_in_concat, in_map, filter_In. auto. }
  assert (Ha : any (fun sensitive =>
                      str_in sensitive (Optimized.data_str data_row))
                 Optimized.high_sensitive_keywords = true).
  { apply any_exists. eauto. }
  now rewrite Ha.
Qed.

(** C5 (as amended).  In the taxonomy analyzer the tier of a Match is a
    function of the record alone, so the Matches of one record in any two
    categories carry the same tier.  In the optimized analyzer the tier
    also looks at the matched keywords of the category and at no more than
    the first 500 characters of the row text; the Matches of one row in any
    two categories carry the same tier whenever the row text (the values
    Python treats as true, joined by blanks) is at most 500 characters
    long. *)
Theorem C5_tier_independent_of_category :
  forall (table_name : string) (columns : list string) (row : list Value)
         (c1 c2 : string * list string) (m1 m2 : Match),
    (String.length
       (String.concat " " (map py_str (filter truthy row))) <= 500)%nat ->
    Optimized.classify table_name columns row c1 = Some m1 ->
    Optimized.classify table_name columns row c2 = Some m2 ->
    m_sensitivity m1 = m_sensitivity m2
    /\ m_sensitivity m1 = Optimized.determine_sensitivity_fast [] row
    /\ m_sensitivity
         (KeywordAnalyzer.make_match table_name (fst c1) (snd c1) columns row)
       = m_sensitivity
           (KeywordAnalyzer.make_match table_name (fst c2) (snd c2) columns row)
    /\ m_sensitivity
         (KeywordAnalyzer.make_match table_name (fst c1) (snd c1) columns row)
       = KeywordAnalyzer.determine_sensitivity
           (dict_of_pairs (combine columns row)).
Proof.
  intros table_name columns row c1 c2 m1 m2 Hlen H1 H2.
  assert (Hfast : forall c m,
            Optimized.classify table_name columns row c = Some m ->
            m_sensitivity m = Optimized.determine_sensitivity_fast [] row).
  { intros c m H. apply classify_fields in H as (_ & Hk & _ & Hs).
    rewrite Hs. apply fast_tier_of_short_row; [assumption|].
    intros k Hin. rewrite Hk in Hin.
    apply (proj2 (proj2 (matched_keywords_spec (snd c) columns row))) in Hin
      as (_ & cv & Hcv & Ho).
    exists (snd cv). split; [|assumption].
    destruct cv as [col v]. now apply in_combine_r in Hcv. }
  rewrite (Hfast c1 m1 H1), (Hfast c2 m2 H2). repeat split.
Qed.

Lemma C5_tier_independent_of_category_witness :
  exists m1 m2,
    (String.length
       (String.concat " " (map py_str (filter truthy Sample.mixed_row)))
     <= 500)%nat
    /\ Optimized.classify "ItemTable" Sample.mixed_columns Sample.mixed_row
         ("authentication",
          ["token"; "auth"; "credential"; "password"; "session"; "login"])
       = Some m1
    /\ Optimized.classify "ItemTable" Sample.mixed_columns Sample.mixed_row
         ("subscription",
          ["pro"; "plan"; "subscription"; "trial"; "premium"; "billing"])
       = Some m2
    /\ m_sensitivity m1 = m_sensitivity m2.
Proof.
  assert (Hlen : (String.length
                    (String.concat " "
                       (map py_str (filter truthy Sample.mixed_row)))
                  <= 500)%nat) by (vm_compute; lia).
  destruct (Optimized.classify "ItemTable" Sample.mixed_columns
              Sample.mixed_row
              ("authentication",
               ["token"; "auth"; "credential"; "password"; "session"; "login"]))
    as [m1|] eqn:E1; [|vm_compute in E1; discriminate].
  destruct (Optimized.classify "ItemTable" Sample.mixed_columns
              Sample.mixed_row
              ("subscription",
               ["pro"; "plan"; "subscription"; "trial"; "premium"; "billing"]))
    as [m2|] eqn:E2; [|vm_compute in E2; discriminate].
  exists m1, m2.
  split; [exact Hlen|]. split; [reflexivity|]. split; [reflexivity|].
  exact (proj1 (C5_tier_independent_of_category
                  "ItemTable" Sample.mixed_columns Sample.mixed_row
                  _ _ m1 m2 Hlen E1 E2)).
Defined.

(** C5, as stated, fails in the optimized analyzer: one row whose value is
    "pro", 500 filler characters, then "token" matches authentication with
    tier high (the matched keyword "token" is sensitive) and subscription
    with tier low (the first 500 characters of the row text hold no
    sensitive keyword). *)
Lemma C5_category_dependent_tier_counterexample :
  map m_sensitivity
    (option_list
       (Optimized.classify "ItemTable" Sample.long_columns Sample.long_row
          ("authentication",
           ["token"; "auth"; "credential"; "password"; "session"; "login"])))
  = [High]
  /\ map m_sensitivity
       (option_list
          (Optimized.classify "ItemTable" Sample.long_columns Sample.long_row
             ("subscription",
              ["pro"; "plan"; "subscription"; "trial"; "premium"; "billing"])))
     = [Low]
  /\ map m_sensitivity
       (bucket_get "authentication"
          (Optimized.process_row Optimized.target_keywords "ItemTable"
             Sample.long_columns (empty_buckets Optimized.target_keywords)
             Sample.long_row))
     = [High]
  /\ map m_sensitivity
       (bucket_get "subscription"
          (Optimized.process_row Optimized.target_keywords "ItemTable"
             Sample.long_columns (empty_buckets Optimized.target_keywords)
             Sample.long_row))
     = [Low].
Proof. vm_compute. repeat split. Qed.

(** ** Dictionaries *)

Lemma dict_set_fresh (k : string) (v : Value) (d : Dict) :
  ~ In k (map fst d) -> dict_set k v d = d ++ [(k, v)].
Proof.
  induction d as [|[k' v'] d IH]; simpl; intros H; [reflexivity|].
  destruct (String.eqb k' k) eqn:E.
  - apply String.eqb_eq in E. tauto.
  - rewrite IH by tauto. reflexivity.
Qed.

Lemma dict_fold_fresh (f : string * Value -> Value)
    (l : list (string * Value)) (acc : Dict) :
  NoDup (map fst (acc ++ l)) ->
  fold_left (fun d kv => dict_set (fst kv) (f kv) d) l acc
  = acc ++ map (fun kv => (fst kv, f kv)) l.
Proof.
  revert acc; induction l as [|kv l IH]; intros acc Hnd; simpl.
  - now rewrite app_nil_r.
  - rewrite dict_set_fresh.
    + rewrite IH; [now rewrite <- app_assoc|].
      rewrite <- app_assoc. simpl. rewrite !map_app in *. exact Hnd.
    + rewrite map_app in Hnd. simpl in Hnd.
      apply NoDup_remove_2 in Hnd. intros Hin. apply Hnd.
      apply in_or_app. now left.
Qed.

Lemma dict_of_pairs_distinct (pairs : list (string * Value)) :
  NoDup (map fst pairs) -> dict_of_pairs pairs = pairs.
Proof.
  intros Hnd. unfold dict_of_pairs.
  rewrite (dict_fold_fresh snd pairs []) by exact Hnd. simpl.
  rewrite <- (map_id pairs) at 2. apply map_ext. now intros [k v].
Qed.

Lemma dict_get_In (k : string) (v : Value) (d : Dict) :
  NoDup (map fst d) -> In (k, v) d -> dict_get k d = Some v.
Proof.
  induction d as [|[k' v'] d IH]; simpl; intros Hnd Hin; [tauto|].
  inversion Hnd as [|? ? Hk Hnd']; subst.
  destruct Hin as [E|Hin].
  - injection E as -> ->. now rewrite String.eqb_refl.
  - destruct (String.eqb k' k) eqn:E; [|now apply IH].
    apply String.eqb_eq in E. subst k'. exfalso. apply Hk.
    apply in_map_iff. now exists (k, v).
Qed.

Lemma censor_sensitive_data_map (data : Dict) :
  NoDup (map fst data) ->
  Advanced.censor_sensitive_data data
  = map (fun kv => (fst kv, Advanced.censor_value (fst kv) (snd kv))) data.
Proof.
  intros Hnd. unfold Advanced.censor_sensitive_data.
  now rewrite (dict_fold_fresh
                 (fun kv => Advanced.censor_value (fst kv) (snd kv)) data []).
Qed.

(** ** Slices *)

Lemma string_length_app (a b : string) :
  String.length (a ++ b)%string = (String.length a + String.length b)%nat.
Proof. induction a as [|x a IH]; simpl; [reflexivity | now rewrite IH]. Qed.

Lemma take_prefix (n : nat) (s : string) :
  (n <= String.length s)%nat ->
  String.length (take n s) = n /\ exists rest, s = (take n s ++ rest)%string.
Proof.
  unfold take. revert n; induction s as [|a s IH]; intros n H.
  - simpl in H. assert (n = 0%nat) as -> by lia. split; [reflexivity|].
    now exists EmptyString.
  - destruct n as [|n]; simpl.
    + split; [reflexivity|]. now exists (String a s).
    + simpl in H. destruct (IH n) as (Hl & rest & Hr); [lia|].
      split; [now rewrite Hl|]. exists rest. now rewrite <- Hr.
Qed.

Lemma substring_suffix (s : string) (m n : nat) :
  (m + n = String.length s)%nat ->
  String.length (substring m n s) = n
  /\ exists front, s = (front ++ substring m n s)%string.
Proof.
  revert s; induction m as [|m IH]; intros s H.
  - simpl in H. rewrite substring_all by lia. split; [lia|].
    now exists EmptyString.
  - destruct s as [|a s]; simpl in H; [lia|].
    destruct (IH s) as (Hl & front & Hf); [lia|]. simpl.
    split; [exact Hl|]. exists (String a front). simpl. now rewrite <- Hf.
Qed.

Lemma take_last_suffix (n : nat) (s : string) :
  (n <= String.length s)%nat ->
  String.length (take_last n s) = n
  /\ exists front, s = (front ++ take_last n s)%string.
Proof. intros H. apply substring_suffix. lia. Qed.

(** ** Redaction *)

(** In the censored copy, a non-null value stored under a column whose
    name contains a high-sensitivity keyword is replaced according to the
    length of its text; a null value stays null, whatever its column. *)
Lemma censor_length_bands :
  forall (data : Dict) (key : string) (value : Value),
    NoDup (map fst data) ->
    In (key, value) data ->
    Advanced.sensitive_key key = true ->
    let text := py_str value in
    let censored := dict_get key (Advanced.censor_sensitive_data data) in
    (value = VNull -> censored = Some VNull)
    /\ (value <> VNull -> (20 < String.length text)%nat ->
          censored
          = Some (VText (take 10 text ++ "***[SENSITIVE DATA CENSORED]***"
                         ++ take_last 5 text)%string)
          /\ String.length (take 10 text) = 10%nat
          /\ String.length (take_last 5 text) = 5%nat
          /\ (exists rest, text = (take 10 text ++ rest)%string)
          /\ (exists front, text = (front ++ take_last 5 text)%string))
    /\ (value <> VNull ->
        (10 < String.length text)%nat -> (String.length text <= 20)%nat ->
          censored = Some (VText (take 5 text ++ "***[CENSORED]***")%string)
          /\ String.length (take 5 text) = 5%nat
          /\ (exists rest, text = (take 5 text ++ rest)%string))
    /\ (value <> VNull -> (String.length text <= 10)%nat ->
          censored = Some (VText "***[CENSORED]***"))
    /\ (forall k, In (k, VNull) data ->
          dict_get k (Advanced.censor_sensitive_data data) = Some VNull).
Proof.
  intros data key value Hnd Hin Hsens text censored.
  assert (Hget : forall k v, In (k, v) data ->
            dict_get k (Advanced.censor_sensitive_data data)
            = Some (Advanced.censor_value k v)).
  { intros k v Hkv. rewrite censor_sensitive_data_map by assumption.
    apply dict_get_In.
    - rewrite map_map. simpl. exact Hnd.
    - apply in_map_iff. now exists (k, v). }
  assert (Hc : censored = Some (Advanced.censor_value key value))
    by now apply Hget.
  assert (Hnn : value <> VNull -> is_none value = false)
    by (destruct value; [tauto | reflexivity | reflexivity]).
  unfold Advanced.censor_value in Hc. rewrite Hsens in Hc. fold text in Hc.
  split; [|split; [|split; [|split]]].
  - intros ->. exact Hc.
  - intros Hv Hlen. rewrite (Hnn Hv) in Hc.
    apply Nat.ltb_lt in Hlen as Hb. rewrite Hb in Hc.
    destruct (take_prefix 10 text) as (H10 & Hrest); [lia|].
    destruct (take_last_suffix 5 text) as (H5 & Hfront); [lia|].
    auto.
  - intros Hv Hlo Hhi. rewrite (Hnn Hv) in Hc.
    assert (Hb20 : (20 <? String.length text)%nat = false)
      by now apply Nat.ltb_ge.
    apply Nat.ltb_lt in Hlo as Hb10. rewrite Hb20, Hb10 in Hc.
    destruct (take_prefix 5 text) as (H5 & Hrest); [lia|].
    auto.
  - intros Hv Hlen. rewrite (Hnn Hv) in Hc.
    assert (Hb20 : (20 <? String.length text)%nat = false)
      by (apply Nat.ltb_ge; lia).
    assert (Hb10 : (10 <? String.length text)%nat = false)
      by now apply Nat.ltb_ge.
    now rewrite Hb20, Hb10 in Hc.
  - intros k Hk. now rewrite (Hget k VNull Hk).
Qed.

(** The console formatter [_format_value] of the taxonomy analyzer masks by
    the tier of the Match, not by column name; it shares the two upper
    bands, hands a text of up to 10 characters on unmasked, and prints a
    null value as the text "NULL". *)
Lemma format_value_high_bands (value : Value) :
  let text := py_str value in
  (value = VNull ->
     KeywordAnalyzer.format_value value High = KeywordAnalyzer.NullText)
  /\ (value <> VNull -> (20 < String.length text)%nat ->
        KeywordAnalyzer.format_value value High
        = KeywordAnalyzer.Masked
            (take 10 text ++ "***[DISENSOR]***" ++ take_last 5 text)%string)
  /\ (value <> VNull ->
      (10 < String.length text)%nat -> (String.length text <= 20)%nat ->
        KeywordAnalyzer.format_value value High
        = KeywordAnalyzer.Masked (take 5 text ++ "***[DISENSOR]***")%string)
  /\ (value <> VNull -> (String.length text <= 10)%nat ->
        KeywordAnalyzer.format_value value High
        = KeywordAnalyzer.Display text).
Proof.
  cbv zeta. unfold KeywordAnalyzer.format_value.
  split; [now intros ->|].
  assert (Hnn : value <> VNull -> is_none value = false)
    by (destruct value; [tauto | reflexivity | reflexivity]).
  split; [|split]; intros Hv; rewrite (Hnn Hv).
  - intros H. apply Nat.ltb_lt in H. now rewrite H.
  - intros Hlo Hhi. apply Nat.ltb_lt in Hlo. apply Nat.ltb_ge in Hhi.
    now rewrite Hhi, Hlo.
  - intros H.
    assert (H20 : (20 <? String.length (py_str value))%nat = false)
      by (apply Nat.ltb_ge; lia).
    apply Nat.ltb_ge in H. now rewrite H20, H.
Qed.

(** C3 (as amended).  The redactor of the advanced analyzer,
    [_censor_sensitive_data], replaces a non-null value stored under a
    column whose name contains a high-sensitivity keyword according to the
    length of its text: above 20 characters by its first 10 characters, the
    marker, and its last 5 characters; above 10 and up to 20 characters by
    its first 5 characters and the marker; up to 10 characters by the bare
    marker, which holds no character of the value; a null value stays
    null.  The console formatter of the taxonomy analyzer, [_format_value],
    masks by the tier of the Match and not by the column name: for tier
    high it has the same two upper bands, with its own marker, but a text
    of up to 10 characters goes unmasked to the plain display formatting,
    which prints it as it is unless it looks like JSON; for a lower tier
    nothing is masked; and a null value is printed as the text NULL. *)
Theorem C3_redaction_length_bands :
  forall (data : Dict) (key : string) (value : Value)
         (json_pretty : string -> option string),
    NoDup (map fst data) ->
    In (key, value) data ->
    Advanced.sensitive_key key = true ->
    let text := py_str value in
    let censored := dict_get key (Advanced.censor_sensitive_data data) in
    let shown := Formatting.format_value json_pretty value in
    (** the redactor *)
    (value = VNull -> censored = Some VNull)
    /\ (value <> VNull -> (20 < String.length text)%nat ->
          censored
          = Some (VText (take 10 text ++ "***[SENSITIVE DATA CENSORED]***"
                         ++ take_last 5 text)%string)
          /\ String.length (take 10 text) = 10%nat
          /\ String.length (take_last 5 text) = 5%nat
          /\ (exists rest, text = (take 10 text ++ rest)%string)
          /\ (exists front, text = (front ++ take_last 5 text)%string))
    /\ (value <> VNull ->
        (10 < String.length text)%nat -> (String.length text <= 20)%nat ->
          censored = Some (VText (take 5 text ++ "***[CENSORED]***")%string)
          /\ String.length (take 5 text) = 5%nat
          /\ (exists rest, text = (take 5 text ++ rest)%string))
    /\ (value <> VNull -> (String.length text <= 10)%nat ->
          censored = Some (VText "***[CENSORED]***"))
    /\ (forall k, In (k, VNull) data ->
          dict_get k (Advanced.censor_sensitive_data data) = Some VNull)
    (** the console formatter *)
    /\ (value = VNull -> forall tier, shown tier = "NULL")
    /\ (value <> VNull -> (20 < String.length text)%nat ->
          shown High
          = (take 10 text ++ "***[DISENSOR]***" ++ take_last 5 text)%string)
    /\ (value <> VNull ->
        (10 < String.length text)%nat -> (String.length text <= 20)%nat ->
          shown High = (take 5 text ++ "***[DISENSOR]***")%string)
    /\ (value <> VNull -> (String.length text <= 10)%nat ->
          shown High = Formatting.display_text json_pretty 200 text
          /\ (looks_like_json text = false -> shown High = text))
    /\ (value <> VNull -> forall tier, tier <> High ->
          shown tier = Formatting.display_text json_pretty 200 text).
Proof.
  intros data key value json_pretty Hnd Hin Hsens text censored shown.
  destruct (censor_length_bands data key value Hnd Hin Hsens)
    as (C1 & C2 & C3 & C4 & C5).
  destruct (format_value_high_bands value) as (F1 & F2 & F3 & F4).
  cbv zeta in F1, F2, F3, F4. fold text in F2, F3, F4.
  split; [exact C1|]. split; [exact C2|]. split; [exact C3|].
  split; [exact C4|]. split; [exact C5|].
  unfold shown, Formatting.format_value.
  split; [|split; [|split; [|split]]].
  - intros -> tier. reflexivity.
  - intros Hv Hlen. now rewrite (F2 Hv Hlen).
  - intros Hv Hlo Hhi. now rewrite (F3 Hv Hlo Hhi).
  - intros Hv Hlen. rewrite (F4 Hv Hlen). split; [reflexivity|].
    intros Hj. unfold Formatting.display_text. rewrite Hj.
    assert (Hb : (200 <? String.length text)%nat = false)
      by (apply Nat.ltb_ge; lia).
    now rewrite Hb.
  - intros Hv tier Htier. unfold KeywordAnalyzer.format_value.
    assert (Hnn : is_none value = false)
      by (destruct value; [contradiction | reflexivity | reflexivity]).
    rewrite Hnn. fold text. destruct tier; [contradiction| |]; reflexivity.
Qed.

Lemma C3_redaction_length_bands_witness :
  let data :=
    [("token", VText "abcdefghijklmnopqrstuvwxyz");
     ("api_key", VText "abcdefghijklmno");
     ("secret", VText "abc");
     ("password", VNull)] in
  NoDup (map fst data)
  /\ Advanced.sensitive_key "token" = true
  /\ dict_get "token" (Advanced.censor_sensitive_data data)
     = Some (VText "abcdefghij***[SENSITIVE DATA CENSORED]***vwxyz")
  /\ dict_get "api_key" (Advanced.censor_sensitive_data data)
     = Some (VText "abcde***[CENSORED]***")
  /\ dict_get "secret" (Advanced.censor_sensitive_data data)
     = Some (VText "***[CENSORED]***")
  /\ dict_get "password" (Advanced.censor_sensitive_data data) = Some VNull
  /\ Formatting.format_value (fun _ => None)
       (VText "abcdefghijklmnopqrstuvwxyz") High
     = "abcdefghij***[DISENSOR]***vwxyz"
  /\ Formatting.format_value (fun _ => None) (VText "abc") High = "abc".
Proof.
  cbv zeta.
  set (data := [("token", VText "abcdefghijklmnopqrstuvwxyz");
                ("api_key", VText "abcdefghijklmno");
                ("secret", VText "abc");
                ("password", VNull)]).
  assert (Hnd : NoDup (map fst data)) by (apply distinct_NoDup; reflexivity).
  split; [exact Hnd|]. split; [reflexivity|].
  split; [|split; [|split; [|split; [|split]]]].
  - destruct (C3_redaction_length_bands data "token"
                (VText "abcdefghijklmnopqrstuvwxyz") (fun _ => None) Hnd
                (or_introl eq_refl) eq_refl) as (_ & H & _).
    apply H; [discriminate | vm_compute; lia].
  - destruct (C3_redaction_length_bands data "api_key"
                (VText "abcdefghijklmno") (fun _ => None) Hnd
                (or_intror (or_introl eq_refl)) eq_refl) as (_ & _ & H & _).
    apply H; [discriminate | vm_compute; lia | vm_compute; lia].
  - destruct (C3_redaction_length_bands data "secret" (VText "abc")
                (fun _ => None) Hnd
                (or_intror (or_intror (or_introl eq_refl))) eq_refl)
      as (_ & _ & _ & H & _).
    apply H; [discriminate | vm_compute; lia].
  - destruct (C3_redaction_length_bands data "password" VNull (fun _ => None)
                Hnd
                (or_intror (or_intror (or_intror (or_introl eq_refl))))
                eq_refl) as (H & _).
    now apply H.
  - destruct (C3_redaction_length_bands data "token"
                (VText "abcdefghijklmnopqrstuvwxyz") (fun _ => None) Hnd
                (or_introl eq_refl) eq_refl)
      as (_ & _ & _ & _ & _ & _ & H & _).
    apply H; [discriminate | vm_compute; lia].
  - destruct (C3_redaction_length_bands data "secret" (VText "abc")
                (fun _ => None) Hnd
                (or_intror (or_intror (or_introl eq_refl))) eq_refl)
      as (_ & _ & _ & _ & _ & _ & _ & _ & H & _).
    apply H; [discriminate | vm_compute; lia | reflexivity].
Defined.

(** C3, as stated, fails for the console formatter of the taxonomy
    analyzer: the field secret = abc, whose column name holds a
    high-sensitivity keyword and whose Match has tier high, is printed in
    full, and a null value is printed as the text NULL; the redactor of the
    advanced analyzer replaces the same value by its marker. *)
Lemma C3_short_value_counterexample :
  Advanced.sensitive_key "secret" = true
  /\ KeywordAnalyzer.determine_sensitivity [("secret", VText "abc")] = High
  /\ KeywordAnalyzer.format_value (VText "abc") High
     = KeywordAnalyzer.Display "abc"
  /\ Formatting.format_value (fun _ => None) (VText "abc") High = "abc"
  /\ Formatting.format_value (fun _ => None) VNull High = "NULL"
  /\ dict_get "secret"
       (Advanced.censor_sensitive_data [("secret", VText "abc")])
     = Some (VText "***[CENSORED]***").
Proof. vm_compute. repeat split. Qed.

(** C6.  Censoring a field mapping none of whose column names contains a
    high-sensitivity keyword returns the mapping as it was: the same
    columns, in the same order, with the same values. *)
Theorem C6_redaction_identity_on_plain_columns :
  forall (data : Dict),
    NoDup (map fst data) ->
    (forall key value, In (key, value) data ->
       Advanced.sensitive_key key = false) ->
    Advanced.censor_sensitive_data data = data.
Proof.
  intros data Hnd Hplain. rewrite censor_sensitive_data_map by assumption.
  rewrite <- (map_id data) at 2. apply map_ext_in.
  intros [k v] Hin. simpl. f_equal. unfold Advanced.censor_value.
  rewrite (Hplain k v Hin). now destruct v.
Qed.

Lemma C6_redaction_identity_on_plain_columns_witness :
  let data :=
    [("name", VText "a rather long plain value of a plain column");
     ("plan", VText "pro_trial"); ("count", VInt 42); ("note", VNull)] in
  NoDup (map fst data)
  /\ (forall key value, In (key, value) data ->
        Advanced.sensitive_key key = false)
  /\ Advanced.censor_sensitive_data data = data.
Proof.
  cbv zeta.
  set (data := [("name", VText "a rather long plain value of a plain column");
                ("plan", VText "pro_trial"); ("count", VInt 42);
                ("note", VNull)]).
  assert (Hnd : NoDup (map fst data)) by (apply distinct_NoDup; reflexivity).
  assert (Hplain : forall key value, In (key, value) data ->
            Advanced.sensitive_key key = false).
  { intros key value Hin. simpl in Hin.
    destruct Hin as [E|[E|[E|[E|[]]]]]; injection E as <- <-; reflexivity. }
  split; [exact Hnd|]. split; [exact Hplain|].
  exact (C6_redaction_identity_on_plain_columns data Hnd Hplain).
Defined.

(** ** Batches *)

Lemma process_batch_app (tk : Taxonomy) (rows1 rows2 : list (list Value))
    (columns : list string) (cm : Buckets) (table_name : string) :
  Optimized.process_batch tk (rows1 ++ rows2) columns cm table_name
  = Optimized.process_batch tk rows2 columns
      (Optimized.process_batch tk rows1 columns cm table_name) table_name.
Proof. unfold Optimized.process_batch. apply fold_left_app. Qed.

Lemma sql_limit_positive (n : Z) (rows : list (list Value)) :
  (1 <= n)%Z -> sql_limit n rows = firstn (Z.to_nat n) rows.
Proof.
  intros H. unfold sql_limit.
  destruct (n <? 0)%Z eqn:E; [|reflexivity]. apply Z.ltb_lt in E. lia.
Qed.

Lemma firstn_then_skipn {A : Type} (n : nat) (l : list A) :
  firstn n l ++ skipn (List.length (firstn n l)) l = l.
Proof.
  rewrite length_firstn.
  destruct (Nat.le_ge_cases n (List.length l)) as [H|H].
  - rewrite Nat.min_l by assumption. apply firstn_skipn.
  - rewrite Nat.min_r by assumption.
    rewrite skipn_all, firstn_all2 by assumption. apply app_nil_r.
Qed.

(** With enough fuel the loop ends by itself, and what it has gathered by
    then is what one pass over the remaining rows gathers. *)
Lemma batch_loop_one_pass (tk : Taxonomy) (batch_size : Z) (t : Table)
    (rows : list (list Value)) :
  (1 <= batch_size)%Z ->
  tbl_fault t = None ->
  List.length rows = List.length (tbl_rows t) ->
  forall (fuel processed stmt : nat) (cm : Buckets),
    (processed <= List.length rows)%nat ->
    (List.length rows - processed < fuel)%nat ->
    Optimized.batch_loop tk batch_size fuel t rows processed stmt cm
    = Some (Optimized.process_batch tk (skipn processed rows) (tbl_columns t)
              cm (tbl_name t),
            false).
Proof.
  intros Hbs Hf Hlen. induction fuel as [|fuel IH];
    intros processed stmt cm Hle Hfuel; [lia|].
  cbn [Optimized.batch_loop]. rewrite <- Hlen.
  destruct (processed <? List.length rows)%nat eqn:Hlt.
  - apply Nat.ltb_lt in Hlt. rewrite raises_no_fault by assumption.
    rewrite sql_limit_positive by assumption.
    assert (Hsplit := firstn_then_skipn (Z.to_nat batch_size)
                        (skipn processed rows)).
    assert (Hb : (1 <= List.length (firstn (Z.to_nat batch_size)
                                      (skipn processed rows))
                  <= List.length rows - processed)%nat).
    { rewrite length_firstn, length_skipn. lia. }
    destruct (firstn (Z.to_nat batch_size) (skipn processed rows))
      as [|r batch] eqn:Eb; [simpl in Hb; lia|].
    rewrite IH by lia.
    rewrite <- process_batch_app.
    rewrite (Nat.add_comm processed), <- skipn_skipn, Hsplit. reflexivity.
  - apply Nat.ltb_ge in Hlt. rewrite skipn_all2 by lia. reflexivity.
Qed.

Lemma base_rows_length (prio : Taxonomy) (t : Table) :
  List.length (Optimized.base_rows prio t) = List.length (tbl_rows t).
Proof. unfold Optimized.base_rows. apply length_map. Qed.

Lemma search_table_one_pass (tk prio : Taxonomy) (batch_size : Z) (t : Table) :
  (1 <= batch_size)%Z ->
  tbl_fault t = None ->
  Optimized.search_table_optimized tk batch_size prio t
  = Some (Optimized.process_batch tk (Optimized.base_rows prio t)
            (tbl_columns t) (empty_buckets tk) (tbl_name t),
          []).
Proof.
  intros Hbs Hf. unfold Optimized.search_table_optimized.
  rewrite !raises_no_fault by assumption. simpl orb. cbv iota.
  rewrite (batch_loop_one_pass tk batch_size t (Optimized.base_rows prio t)
             Hbs Hf (base_rows_length prio t));
    rewrite ?base_rows_length; try lia.
  reflexivity.
Qed.

Lemma search_tables_batch_size (tk prio : Taxonomy) (n n' : Z)
    (tables : list Table) :
  (1 <= n)%Z -> (1 <= n')%Z ->
  Forall (fun t => tbl_fault t = None) tables ->
  forall res total log,
    Optimized.search_tables tk n prio tables res total log
    = Optimized.search_tables tk n' prio tables res total log.
Proof.
  intros Hn Hn' Hall. induction Hall as [|t tables Ht Hall IH];
    intros res total log; simpl; [reflexivity|].
  rewrite !search_table_one_pass by assumption. apply IH.
Qed.

(** C4 (as amended).  For every batch size N with 1 <= N < 2^63 (a bound
    that SQLite takes as a [LIMIT]), scanning a table whose reads succeed
    in consecutive N-row batches gathers, category by category, exactly the
    Matches that one pass over all its rows gathers; hence any two such
    batch sizes give the same results for a whole store whose reads
    succeed, with the same category counts and the same sensitivity
    counts. *)
Theorem C4_batch_invariance :
  forall (tk prio : Taxonomy) (batch_size batch_size' : Z) (t : Table)
         (tables : list Table),
    (1 <= batch_size < 2 ^ 63)%Z ->
    (1 <= batch_size' < 2 ^ 63)%Z ->
    tbl_fault t = None ->
    Forall (fun t => tbl_fault t = None) tables ->
    let one_pass :=
      Optimized.process_batch tk (Optimized.base_rows prio t) (tbl_columns t)
        (empty_buckets tk) (tbl_name t) in
    Optimized.search_table_optimized tk batch_size prio t
      = Some (one_pass, [])
    /\ Optimized.search_keywords_optimized tk batch_size prio tables
       = Optimized.search_keywords_optimized tk batch_size' prio tables
    /\ (forall res log res' log',
          Optimized.search_keywords_optimized tk batch_size prio tables
            = Some (res, log) ->
          Optimized.search_keywords_optimized tk batch_size' prio tables
            = Some (res', log') ->
          Optimized.keywords res = Optimized.keywords res'
          /\ Optimized.export_categories res = Optimized.export_categories res'
          /\ forall tier,
               count_tier tier (Optimized.raw_data res)
               = count_tier tier (Optimized.raw_data res')).
Proof.
  intros tk prio n n' t tables [Hn _] [Hn' _] Hf Hall one_pass.
  split; [now apply search_table_one_pass|].
  assert (E : Optimized.search_keywords_optimized tk n prio tables
              = Optimized.search_keywords_optimized tk n' prio tables)
    by now apply search_tables_batch_size.
  split; [exact E|].
  intros res log res' log' H H'. rewrite E, H' in H.
  injection H as <- <-. auto.
Qed.

Lemma C4_batch_invariance_witness :
  let tk := Optimized.target_keywords in
  let prio := Optimized.priority_keywords in
  (1 <= 1 < 2 ^ 63)%Z /\ (1 <= 500 < 2 ^ 63)%Z
  /\ tbl_fault Sample.item_table = None
  /\ Forall (fun t => tbl_fault t = None) [Sample.item_table; Sample.split_table]
  /\ Optimized.search_table_optimized tk 1 prio Sample.item_table
     = Some (Optimized.process_batch tk
               (Optimized.base_rows prio Sample.item_table)
               (tbl_columns Sample.item_table) (empty_buckets tk)
               (tbl_name Sample.item_table), [])
  /\ Optimized.search_keywords_optimized tk 1 prio
       [Sample.item_table; Sample.split_table]
     = Optimized.search_keywords_optimized tk 500 prio
         [Sample.item_table; Sample.split_table].
Proof.
  cbv zeta.
  assert (H1 : (1 <= 1 < 2 ^ 63)%Z) by (split; [lia|reflexivity]).
  assert (H500 : (1 <= 500 < 2 ^ 63)%Z) by (split; [lia|reflexivity]).
  assert (Hall : Forall (fun t => tbl_fault t = None)
                   [Sample.item_table; Sample.split_table])
    by (repeat constructor).
  split; [exact H1|]. split; [exact H500|]. split; [reflexivity|].
  split; [exact Hall|].
  destruct (C4_batch_invariance Optimized.target_keywords
              Optimized.priority_keywords 1 500 Sample.item_table
              [Sample.item_table; Sample.split_table] H1 H500 eq_refl Hall)
    as (Ht & Hs & _).
  split; [exact Ht | exact Hs].
Defined.

(** C4, as stated, fails when a read fails: the handler of
    [_search_table_optimized] keeps the Matches of the batches fetched
    before the failure.  On a table of two token rows whose fourth
    statement raises, batches of one row fetch the first row (statement 2)
    and fail on the second (statement 3), leaving one authentication Match
    and a warning, while one pass, and batches of two rows (a single
    fetch), gather both Matches. *)
Lemma C4_failing_batch_counterexample :
  let tk := Optimized.target_keywords in
  let prio := Optimized.priority_keywords in
  let t := mkTable "second" Sample.item_columns
             [Sample.token_row; Sample.token_row] (Some 3%nat) in
  let found := fun batch_size =>
    option_map
      (fun r => (List.length (bucket_get "authentication" (fst r)), snd r))
      (Optimized.search_table_optimized tk batch_size prio t) in
  found 1%Z = Some (1%nat, [TableError "second"])
  /\ found 2%Z = Some (2%nat, [])
  /\ List.length
       (bucket_get "authentication"
          (Optimized.process_batch tk (Optimized.base_rows prio t)
             (tbl_columns t) (empty_buckets tk) (tbl_name t))) = 2%nat.
Proof. vm_compute. repeat split. Qed.

(** ** Aggregation *)

Lemma flatten_length (b : Buckets) : List.length (flatten b) = total_len b.
Proof.
  unfold flatten, total_len. induction b as [|[c l] b IH]; simpl;
    [reflexivity|].
  now rewrite length_app, IH.
Qed.

Lemma flatten_extend (c : string) (ms : list Match) (b : Buckets) :
  In c (map fst b) ->
  Permutation (flatten (bucket_extend c ms b)) (flatten b ++ ms).
Proof.
  unfold flatten. induction b as [|[k l] b IH]; simpl; [tauto|]. intros Hin.
  destruct (String.eqb k c) eqn:E; simpl.
  - rewrite <- !app_assoc. apply Permutation_app_head, Permutation_app_comm.
  - rewrite <- app_assoc. apply Permutation_app_head, IH.
    destruct Hin as [->|H]; [|assumption].
    now rewrite String.eqb_refl in E.
Qed.

Lemma sum_counts_buckets (b : Buckets) :
  sum_counts (map (fun cl => (fst cl, List.length (snd cl))) b) = total_len b.
Proof.
  unfold sum_counts, total_len.
  induction b as [|[c l] b IH]; simpl; [reflexivity | now rewrite IH].
Qed.

Lemma fold_extend_keys {A : Type} (key : A -> string) (g : A -> list Match)
    (l : list A) (cm : Buckets) :
  map fst (fold_left (fun cm x => bucket_extend (key x) (g x) cm) l cm)
  = map fst cm.
Proof.
  revert cm; induction l as [|x l IH]; intros cm; simpl; [reflexivity|].
  now rewrite IH, bucket_extend_keys.
Qed.

(** *** The taxonomy analyzer *)

Lemma search_categories_keys (tk : Taxonomy) (quick_mode : bool)
    (max_items : Z) (t : Table) (cats : Taxonomy) (stmt : nat) (cm : Buckets) :
  map fst (fst (KeywordAnalyzer.search_categories tk quick_mode max_items t
                  cats stmt cm))
  = map fst cm.
Proof.
  revert stmt cm; induction cats as [|[c ks] cats IH]; intros stmt cm; simpl;
    [reflexivity|].
  destruct (has_conditions ks (tbl_columns t)); [|apply IH].
  destruct (raises t stmt); [reflexivity|].
  now rewrite IH, bucket_extend_keys.
Qed.

Lemma search_in_table_keys (tk : Taxonomy) (quick_mode : bool)
    (max_items : Z) (t : Table) :
  map fst (fst (KeywordAnalyzer.search_in_table tk quick_mode max_items t))
  = map fst tk.
Proof.
  unfold KeywordAnalyzer.search_in_table.
  destruct (raises t 0); simpl; [apply empty_buckets_keys|].
  assert (H := search_categories_keys tk quick_mode max_items t tk 1
                 (empty_buckets tk)).
  destruct (KeywordAnalyzer.search_categories _ _ _ _ _ _ _) as [cm raised].
  simpl in *. now rewrite H, empty_buckets_keys.
Qed.

Lemma ka_merge_category (tk : Taxonomy) (quick_mode : bool) (max_items : Z)
    (res : KeywordAnalyzer.Results) (cm : string * list Match) :
  In (fst cm) (map fst tk) ->
  ka_consistent tk res ->
  ka_consistent tk (KeywordAnalyzer.merge_category quick_mode max_items res cm).
Proof.
  intros Hin [Hk Hp]. unfold KeywordAnalyzer.merge_category.
  split; simpl.
  - now rewrite bucket_extend_keys.
  - rewrite flatten_extend by now rewrite Hk.
    now apply Permutation_app_tail.
Qed.

Lemma ka_merge_table (tk : Taxonomy) (quick_mode : bool) (max_items : Z)
    (res : KeywordAnalyzer.Results) (table_matches : Buckets) :
  map fst table_matches = map fst tk ->
  ka_consistent tk res ->
  ka_consistent tk
    (KeywordAnalyzer.merge_table quick_mode max_items res table_matches).
Proof.
  intros Hk Hc. unfold KeywordAnalyzer.merge_table.
  destruct (0 <? total_len table_matches)%nat; [|assumption].
  assert (Hall : Forall (fun cm => In (fst cm) (map fst tk)) table_matches).
  { apply Forall_forall. intros cm Hcm. rewrite <- Hk. now apply in_map. }
  clear Hk. revert res Hc.
  induction Hall as [|cm l Hcm Hall IH]; intros res Hc; simpl; [assumption|].
  apply IH. now apply ka_merge_category.
Qed.

Lemma ka_search_tables (tk : Taxonomy) (quick_mode : bool) (max_items : Z)
    (tables : list Table) (res : KeywordAnalyzer.Results) (log : list Event) :
  ka_consistent tk res ->
  ka_consistent tk
    (fst (KeywordAnalyzer.search_tables tk quick_mode max_items tables res log)).
Proof.
  revert res log; induction tables as [|t tables IH]; intros res log Hc; simpl;
    [assumption|].
  destruct (quick_mode && _); [assumption|].
  assert (Hk := search_in_table_keys tk quick_mode max_items t).
  destruct (KeywordAnalyzer.search_in_table tk quick_mode max_items t)
    as [table_matches events].
  apply IH. now apply ka_merge_table.
Qed.

Lemma ka_search_keywords (tk : Taxonomy) (quick_mode : bool) (max_items : Z)
    (tables : list Table) :
  ka_consistent tk
    (fst (KeywordAnalyzer.search_keywords tk quick_mode max_items tables)).
Proof.
  apply ka_search_tables. split; simpl.
  - apply empty_buckets_keys.
  - unfold flatten, empty_buckets. induction tk; simpl; [constructor | assumption].
Qed.

(** *** The optimized analyzer *)

Lemma process_batch_keys (tk : Taxonomy) (rows : list (list Value))
    (columns : list string) (cm : Buckets) (table_name : string) :
  map fst (Optimized.process_batch tk rows columns cm table_name) = map fst cm.
Proof.
  unfold Optimized.process_batch.
  revert cm; induction rows as [|r rows IH]; intros cm; simpl; [reflexivity|].
  now rewrite IH, process_row_extend, fold_extend_keys.
Qed.

Lemma sql_limit_length (n : Z) (rows : list (list Value)) :
  (List.length (sql_limit n rows) <= List.length rows)%nat.
Proof.
  unfold sql_limit. destruct (n <? 0)%Z; [lia|].
  rewrite length_firstn. lia.
Qed.

(** The batch loop ends within its fuel for every batch size and every
    fault, and keeps the buckets of the taxonomy. *)
Lemma batch_loop_total (tk : Taxonomy) (batch_size : Z) (t : Table)
    (rows : list (list Value)) :
  List.length rows = List.length (tbl_rows t) ->
  forall (fuel processed stmt : nat) (cm : Buckets),
    (processed <= List.length rows)%nat ->
    (List.length rows - processed < fuel)%nat ->
    exists cm' raised,
      Optimized.batch_loop tk batch_size fuel t rows processed stmt cm
      = Some (cm', raised)
      /\ map fst cm' = map fst cm.
Proof.
  intros Hlen. induction fuel as [|fuel IH];
    intros processed stmt cm Hle Hfuel; [lia|].
  cbn [Optimized.batch_loop]. rewrite <- Hlen.
  destruct (processed <? List.length rows)%nat eqn:Hlt; [|eauto].
  apply Nat.ltb_lt in Hlt.
  destruct (raises t stmt); [eauto|].
  assert (Hb := sql_limit_length batch_size (skipn processed rows)).
  rewrite length_skipn in Hb.
  destruct (sql_limit batch_size (skipn processed rows)) as [|r batch];
    [eauto|].
  simpl in Hb.
  destruct (IH (processed + List.length (r :: batch))%nat (S stmt)
              (Optimized.process_batch tk (r :: batch) (tbl_columns t) cm
                 (tbl_name t)))
    as (cm' & raised & E & Hk); [simpl; lia | simpl; lia |].
  exists cm', raised. split; [exact E|].
  now rewrite Hk, process_batch_keys.
Qed.

Lemma search_table_optimized_total (tk prio : Taxonomy) (batch_size : Z)
    (t : Table) :
  exists table_matches events,
    Optimized.search_table_optimized tk batch_size prio t
    = Some (table_matches, events)
    /\ map fst table_matches = map fst tk.
Proof.
  unfold Optimized.search_table_optimized.
  destruct (raises t 0 || raises t 1).
  - do 2 eexists. split; [reflexivity | apply empty_buckets_keys].
  - destruct (batch_loop_total tk batch_size t (Optimized.base_rows prio t)
                (base_rows_length prio t)
                (S (List.length (tbl_rows t))) 0 2 (empty_buckets tk))
      as (cm' & raised & E & Hk); rewrite ?base_rows_length; try lia.
    rewrite E. do 2 eexists. split; [reflexivity|].
    now rewrite Hk, empty_buckets_keys.
Qed.

Lemma opt_merge_fold (tk : Taxonomy) (table_matches : Buckets)
    (res : Optimized.Results) (total : nat) :
  Forall (fun cm => In (fst cm) (map fst tk)) table_matches ->
  opt_consistent tk res total ->
  opt_consistent tk (fold_left Optimized.merge_category table_matches res)
    (total + total_len table_matches).
Proof.
  intros Hall. revert res total.
  induction Hall as [|cm l Hcm Hall IH]; intros res total Hc; simpl.
  - now rewrite Nat.add_0_r.
  - replace (total + (List.length (snd cm) + total_len l))%nat
      with ((total + List.length (snd cm)) + total_len l)%nat by lia.
    apply IH. destruct Hc as (Hk & Hp & Ht).
    unfold Optimized.merge_category. split; [|split]; simpl.
    + now rewrite bucket_extend_keys.
    + rewrite flatten_extend by now rewrite Hk.
      now apply Permutation_app_tail.
    + rewrite length_app. lia.
Qed.

Lemma opt_merge_table (tk : Taxonomy) (table_matches : Buckets)
    (res : Optimized.Results) (total : nat) :
  map fst table_matches = map fst tk ->
  opt_consistent tk res total ->
  opt_consistent tk (Optimized.merge_table res table_matches)
    (total + total_len table_matches).
Proof.
  intros Hk Hc. unfold Optimized.merge_table.
  destruct (0 <? total_len table_matches)%nat eqn:E.
  - apply opt_merge_fold; [|assumption].
    apply Forall_forall. intros cm Hcm. rewrite <- Hk. now apply in_map.
  - apply Nat.ltb_ge in E.
    replace (total_len table_matches) with 0%nat by lia.
    now rewrite Nat.add_0_r.
Qed.

Lemma opt_search_tables (tk prio : Taxonomy) (batch_size : Z)
    (tables : list Table) (res : Optimized.Results) (total : nat)
    (log : list Event) :
  opt_consistent tk res total ->
  exists res' log',
    Optimized.search_tables tk batch_size prio tables res total log
    = Some (res', log')
    /\ opt_consistent tk res' (Optimized.total_processed res').
Proof.
  revert res total log; induction tables as [|t tables IH];
    intros res total log Hc; simpl.
  - do 2 eexists. split; [reflexivity|]. exact Hc.
  - destruct (search_table_optimized_total tk prio batch_size t)
      as (table_matches & events & E & Hk).
    rewrite E. apply IH. now apply opt_merge_table.
Qed.

Lemma opt_search_keywords (tk prio : Taxonomy) (batch_size : Z)
    (tables : list Table) :
  exists res log,
    Optimized.search_keywords_optimized tk batch_size prio tables
    = Some (res, log)
    /\ opt_consistent tk res (Optimized.total_processed res).
Proof.
  apply opt_search_tables. split; [|split]; simpl.
  - apply empty_buckets_keys.
  - unfold flatten, empty_buckets. induction tk; simpl; [constructor | assumption].
  - reflexivity.
Qed.

(** C10 (as amended).  After a complete scan -- in full mode, in quick mode,
    with or without failing tables -- the flat list of accepted Matches
    holds exactly the Matches of the per-category buckets, each as often as
    the buckets hold it (it lists them table by table, the buckets category
    by category); so the exported total equals the sum of the exported
    per-category counts.  The optimized scan always ends, and its printed
    total equals that sum as well. *)
Theorem C10_raw_data_matches_buckets :
  forall (tk prio : Taxonomy) (quick_mode : bool) (max_items batch_size : Z)
         (tables : list Table),
    (let res :=
       fst (KeywordAnalyzer.search_keywords tk quick_mode max_items tables) in
     Permutation (KeywordAnalyzer.raw_data res)
       (flatten (KeywordAnalyzer.keywords res))
     /\ KeywordAnalyzer.export_total res
        = sum_counts (KeywordAnalyzer.export_categories res))
    /\ exists res log,
         Optimized.search_keywords_optimized tk batch_size prio tables
         = Some (res, log)
         /\ Permutation (Optimized.raw_data res)
              (flatten (Optimized.keywords res))
         /\ Optimized.export_total res
            = sum_counts (Optimized.export_categories res)
         /\ Optimized.total_processed res = Optimized.export_total res.
Proof.
  intros tk prio quick_mode max_items batch_size tables. split.
  - destruct (ka_search_keywords tk quick_mode max_items tables) as [_ Hp].
    cbv zeta. split; [exact Hp|].
    unfold KeywordAnalyzer.export_total, KeywordAnalyzer.export_categories.
    rewrite sum_counts_buckets, <- flatten_length.
    now apply Permutation_length.
  - destruct (opt_search_keywords tk prio batch_size tables)
      as (res & log & E & _ & Hp & Ht).
    exists res, log. split; [exact E|]. split; [exact Hp|].
    unfold Optimized.export_total, Optimized.export_categories.
    rewrite sum_counts_buckets, <- flatten_length.
    split; [now apply Permutation_length | exact Ht].
Qed.

(** C10, as stated, fails on the order of the flat list: with
    authentication and subscription Matches in a first table and an
    authentication Match in a second, the flat list runs table by table,
    the concatenation of the buckets category by category. *)
Lemma C10_flat_list_order_counterexample :
  let tables := [Sample.item_table; Sample.token_table] in
  let origin := fun m => (m_table m, m_category m) in
  let res :=
    fst (KeywordAnalyzer.search_keywords KeywordAnalyzer.target_keywords
           false 1000 tables) in
  map origin (KeywordAnalyzer.raw_data res)
  = [("ItemTable", "authentication"); ("ItemTable", "subscription");
     ("cursorDiskKV", "authentication")]
  /\ map origin (flatten (KeywordAnalyzer.keywords res))
     = [("ItemTable", "authentication"); ("cursorDiskKV", "authentication");
        ("ItemTable", "subscription")]
  /\ option_map
       (fun rl => map origin (Optimized.raw_data (fst rl)))
       (Optimized.search_keywords_optimized Optimized.target_keywords 500
          Optimized.priority_keywords tables)
     = Some [("ItemTable", "authentication"); ("ItemTable", "subscription");
             ("cursorDiskKV", "authentication")]
  /\ option_map
       (fun rl => map origin (flatten (Optimized.keywords (fst rl))))
       (Optimized.search_keywords_optimized Optimized.target_keywords 500
          Optimized.priority_keywords tables)
     = Some [("ItemTable", "authentication"); ("cursorDiskKV", "authentication");
             ("ItemTable", "subscription")].
Proof. vm_compute. repeat split. Qed.

(** ** Percentages *)

Lemma guarded_percentage_defined (part total : nat) :
  exists q, guarded_percentage part total = Some q.
Proof.
  unfold guarded_percentage. destruct total as [|n]; simpl; eauto.
Qed.

Lemma sequence_defined {A : Type} (l : list (option A)) :
  (forall x, In x l -> exists a, x = Some a) ->
  exists r, sequence l = Some r.
Proof.
  induction l as [|x l IH]; intros H; simpl; [eauto|].
  destruct (H x (or_introl eq_refl)) as [a ->].
  destruct IH as [r ->]; [intros y Hy; apply H; now right|].
  simpl. eauto.
Qed.

Lemma total_len_zero_filter (b : Buckets) :
  total_len b = 0%nat ->
  filter (fun cl => negb (Nat.eqb (List.length (snd cl)) 0)) b = [].
Proof.
  unfold total_len. induction b as [|[c l] b IH]; simpl; [reflexivity|].
  intros H. destruct l; simpl in *; [apply IH; lia | lia].
Qed.

Lemma category_lines_defined (tk : Taxonomy) (res : Optimized.Results)
    (total : nat) :
  opt_consistent tk res total ->
  exists lines, Optimized.category_lines res = Some lines.
Proof.
  intros (_ & Hp & _). unfold Optimized.category_lines.
  apply Permutation_length in Hp. rewrite flatten_length in Hp.
  destruct (List.length (Optimized.raw_data res)) as [|n] eqn:E.
  - rewrite total_len_zero_filter by lia. simpl. eauto.
  - apply sequence_defined. intros x Hx.
    apply in_map_iff in Hx as (cl & <- & _). simpl. eauto.
Qed.

(** C9.  No report divides by zero.  The two tier percentages are guarded
    and are 0 when no Match was accepted; a category percentage is either
    guarded or computed only for a category that holds a Match, which after
    any scan means that the total is not zero; with no Match at all the
    report has no category line. *)
Theorem C9_percentages_never_divide_by_zero :
  forall (tk prio : Taxonomy) (batch_size : Z) (tables : list Table)
         (state : KeywordAnalyzer.Results) (buckets : Buckets)
         (matches total : nat),
    (exists report,
       KeywordAnalyzer.generate_security_report state = Some report)
    /\ KeywordAnalyzer.generate_security_report
         (KeywordAnalyzer.mkResults buckets [])
       = Some (mkReport 0%Q 0%Q [])
    /\ (exists res log report,
          Optimized.search_keywords_optimized tk batch_size prio tables
          = Some (res, log)
          /\ Optimized.generate_comprehensive_report res = Some report)
    /\ Optimized.generate_comprehensive_report
         (Optimized.mkResults (empty_buckets tk) [] 0)
       = Some (mkReport 0%Q 0%Q [])
    /\ (exists q, Advanced.category_percentage matches total = Some q)
    /\ Advanced.category_percentage matches 0 = Some 0%Q.
Proof.
  intros tk prio batch_size tables state buckets matches total.
  split; [|split; [|split; [|split; [|split]]]].
  - unfold KeywordAnalyzer.generate_security_report.
    destruct (guarded_percentage_defined
                (count_tier High (KeywordAnalyzer.raw_data state))
                (List.length (KeywordAnalyzer.raw_data state))) as [h ->].
    destruct (guarded_percentage_defined
                (count_tier Medium (KeywordAnalyzer.raw_data state))
                (List.length (KeywordAnalyzer.raw_data state))) as [m ->].
    simpl. eauto.
  - reflexivity.
  - destruct (opt_search_keywords tk prio batch_size tables)
      as (res & log & E & Hc).
    exists res, log.
    unfold Optimized.generate_comprehensive_report.
    destruct (guarded_percentage_defined
                (count_tier High (Optimized.raw_data res))
                (List.length (Optimized.raw_data res))) as [h ->].
    destruct (guarded_percentage_defined
                (count_tier Medium (Optimized.raw_data res))
                (List.length (Optimized.raw_data res))) as [m ->].
    destruct (category_lines_defined tk res _ Hc) as [lines ->].
    simpl. eauto.
  - unfold Optimized.generate_comprehensive_report, Optimized.category_lines.
    simpl. rewrite total_len_zero_filter; [reflexivity|].
    unfold total_len, empty_buckets. induction tk; simpl; auto.
  - apply guarded_percentage_defined.
  - reflexivity.
Qed.

(** ** Failing tables *)

Lemma total_len_empty (tk : Taxonomy) : total_len (empty_buckets tk) = 0%nat.
Proof. unfold total_len, empty_buckets. induction tk; simpl; auto. Qed.

Lemma ka_search_tables_log (tk : Taxonomy) (quick_mode : bool) (max_items : Z)
    (tables : list Table) (res : KeywordAnalyzer.Results) (log : list Event) :
  KeywordAnalyzer.search_tables tk quick_mode max_items tables res log
  = (fst (KeywordAnalyzer.search_tables tk quick_mode max_items tables res []),
     log ++ snd (KeywordAnalyzer.search_tables tk quick_mode max_items tables
                   res [])).
Proof.
  revert res log; induction tables as [|t tables IH]; intros res log; simpl.
  - now rewrite app_nil_r.
  - destruct (quick_mode && _); [reflexivity|].
    destruct (KeywordAnalyzer.search_in_table tk quick_mode max_items t)
      as [table_matches events].
    rewrite IH. rewrite (IH _ ([] ++ events)). simpl.
    now rewrite app_assoc.
Qed.

Lemma ka_search_in_table_unreadable (tk : Taxonomy) (quick_mode : bool)
    (max_items : Z) (t : Table) :
  tbl_fault t = Some 0%nat ->
  KeywordAnalyzer.search_in_table tk quick_mode max_items t
  = (empty_buckets tk, [TableError (tbl_name t)]).
Proof.
  intros Hf. unfold KeywordAnalyzer.search_in_table, raises.
  now rewrite Hf.
Qed.

Lemma ka_skip_unreadable (tk : Taxonomy) (quick_mode : bool) (max_items : Z)
    (pre post : list Table) (t : Table) (res : KeywordAnalyzer.Results)
    (log : list Event) :
  tbl_fault t = Some 0%nat ->
  fst (KeywordAnalyzer.search_tables tk quick_mode max_items
         (pre ++ t :: post) res log)
  = fst (KeywordAnalyzer.search_tables tk quick_mode max_items
           (pre ++ post) res log).
Proof.
  intros Hf. revert res log; induction pre as [|p pre IH]; intros res log.
  - cbn [app KeywordAnalyzer.search_tables].
    rewrite ka_search_in_table_unreadable by assumption.
    unfold KeywordAnalyzer.merge_table. rewrite total_len_empty. simpl.
    destruct (quick_mode && _) eqn:E.
    + destruct post as [|p post]; simpl; [reflexivity | now rewrite E].
    + rewrite ka_search_tables_log.
      now rewrite (ka_search_tables_log tk quick_mode max_items post res log).
  - cbn [app KeywordAnalyzer.search_tables].
    destruct (quick_mode && _); [reflexivity|].
    destruct (KeywordAnalyzer.search_in_table tk quick_mode max_items p)
      as [table_matches events].
    apply IH.
Qed.

Lemma ka_full_scan_logs_error (tk : Taxonomy) (max_items : Z)
    (pre post : list Table) (t : Table) (res : KeywordAnalyzer.Results)
    (log : list Event) :
  tbl_fault t = Some 0%nat ->
  In (TableError (tbl_name t))
     (snd (KeywordAnalyzer.search_tables tk false max_items
             (pre ++ t :: post) res log)).
Proof.
  intros Hf. revert res log; induction pre as [|p pre IH]; intros res log.
  - cbn [app KeywordAnalyzer.search_tables andb].
    rewrite ka_search_in_table_unreadable by assumption.
    rewrite ka_search_tables_log. simpl.
    apply in_or_app. left. apply in_or_app. right. now left.
  - cbn [app KeywordAnalyzer.search_tables andb].
    destruct (KeywordAnalyzer.search_in_table tk false max_items p)
      as [table_matches events].
    apply IH.
Qed.

(** A failure at the query of the category of index [j] leaves what the
    categories before it gathered. *)
Lemma search_categories_fault (tk : Taxonomy) (quick_mode : bool)
    (max_items : Z) (t : Table) (cats : Taxonomy) :
  (forall c, In c cats -> has_conditions (snd c) (tbl_columns t) = true) ->
  forall (j stmt : nat) (cm : Buckets),
    tbl_fault t = Some (stmt + j)%nat ->
    (j < List.length cats)%nat ->
    KeywordAnalyzer.search_categories tk quick_mode max_items t cats stmt cm
    = (fold_left
         (fun cm c =>
            bucket_extend (fst c) (category_scan tk quick_mode max_items t c) cm)
         (firstn j cats) cm,
       true).
Proof.
  induction cats as [|[c ks] cats IH]; intros Hc j stmt cm Hf Hj;
    [simpl in Hj; lia|].
  cbn [KeywordAnalyzer.search_categories].
  assert (Hks : has_conditions ks (tbl_columns t) = true)
    by (apply (Hc (c, ks)); now left).
  rewrite Hks. unfold raises. rewrite Hf.
  destruct j as [|j].
  - rewrite Nat.add_0_r, Nat.eqb_refl. reflexivity.
  - assert (E : Nat.eqb (stmt + S j) stmt = false)
      by (apply Nat.eqb_neq; lia).
    rewrite E. cbn [firstn fold_left].
    apply IH.
    + intros c' Hc'. apply Hc. now right.
    + rewrite Hf. f_equal. lia.
    + simpl in Hj. lia.
Qed.

Lemma flexible_error_means_no_match (keywords : list string)
    (max_results : Z) (t : Table) :
  snd (Flexible.search_in_table keywords max_results t) = []
  \/ Flexible.search_in_table keywords max_results t
     = ([], [TableError (tbl_name t)]).
Proof.
  unfold Flexible.search_in_table.
  destruct (raises t 0); [now right|].
  destruct (has_conditions keywords (tbl_columns t)); [|now left].
  destruct (raises t 1); [now right | now left].
Qed.

Lemma flexible_search_tables_log (keywords : list string) (max_results : Z)
    (tables : list Table) (res : Flexible.Results) (log : list Event) :
  fst (Flexible.search_tables keywords max_results tables res log)
  = fst (Flexible.search_tables keywords max_results tables res []).
Proof.
  revert res log; induction tables as [|t tables IH]; intros res log; simpl;
    [reflexivity|].
  destruct (Flexible.search_in_table keywords max_results t)
    as [table_matches events].
  destruct (max_results <=? _)%Z; [reflexivity|].
  rewrite IH. symmetry. apply IH.
Qed.

Lemma flexible_skip_failed (keywords : list string) (max_results : Z)
    (pre post : list Table) (t : Table) (res : Flexible.Results)
    (log : list Event) :
  Flexible.search_in_table keywords max_results t
    = ([], [TableError (tbl_name t)]) ->
  (Z.of_nat (Flexible.total_matches res) < max_results)%Z ->
  fst (Flexible.search_tables keywords max_results (pre ++ t :: post) res log)
  = fst (Flexible.search_tables keywords max_results (pre ++ post) res log).
Proof.
  intros Ht. revert res log; induction pre as [|p pre IH]; intros res log Hlt.
  - cbn [app Flexible.search_tables]. rewrite Ht.
    assert (E : (max_results <=? Z.of_nat (Flexible.total_matches res))%Z
                = false) by (apply Z.leb_gt; lia).
    rewrite E. rewrite flexible_search_tables_log. symmetry.
    apply flexible_search_tables_log.
  - cbn [app Flexible.search_tables].
    destruct (Flexible.search_in_table keywords max_results p)
      as [table_matches events].
    destruct (max_results <=? _)%Z eqn:E; [reflexivity|].
    apply IH. apply Z.leb_gt in E. lia.
Qed.

(** C7 (as amended).  An error raised while a table is scanned is caught in
    the scan of that table and logged; the scan of the store goes on with
    the remaining tables and returns its results, never the error.  A table
    whose column introspection fails contributes no Matches, and the scan
    yields what it yields without that table.  In the taxonomy analyzer a
    table that fails at the query of a later category keeps the Matches of
    the categories queried before it; in the flexible analyzer, with its
    single query per table, a table that logs an error contributes no
    Matches. *)
Theorem C7_table_errors_are_contained :
  forall (tk : Taxonomy) (quick_mode : bool) (max_items : Z)
         (keywords : list string) (max_results : Z)
         (pre post : list Table) (t t' : Table) (j : nat),
    tbl_fault t = Some 0%nat ->
    tbl_fault t' = Some (S j) ->
    (j < List.length tk)%nat ->
    (forall c, In c tk -> has_conditions (snd c) (tbl_columns t') = true) ->
    (1 <= max_results)%Z ->
    KeywordAnalyzer.search_in_table tk quick_mode max_items t
      = (empty_buckets tk, [TableError (tbl_name t)])
    /\ fst (KeywordAnalyzer.search_keywords tk quick_mode max_items
              (pre ++ t :: post))
       = fst (KeywordAnalyzer.search_keywords tk quick_mode max_items
                (pre ++ post))
    /\ In (TableError (tbl_name t))
          (snd (KeywordAnalyzer.search_keywords tk false max_items
                  (pre ++ t :: post)))
    /\ Flexible.search_in_table keywords max_results t
       = ([], [TableError (tbl_name t)])
    /\ fst (Flexible.search_keywords keywords max_results (pre ++ t :: post))
       = fst (Flexible.search_keywords keywords max_results (pre ++ post))
    /\ KeywordAnalyzer.search_in_table tk quick_mode max_items t'
       = (fold_left
            (fun cm c =>
               bucket_extend (fst c)
                 (category_scan tk quick_mode max_items t' c) cm)
            (firstn j tk) (empty_buckets tk),
          [TableError (tbl_name t')])
    /\ (snd (Flexible.search_in_table keywords max_results t') = []
        \/ Flexible.search_in_table keywords max_results t'
           = ([], [TableError (tbl_name t')])).
Proof.
  intros tk quick_mode max_items keywords max_results pre post t t' j
         Hf Hf' Hj Hc Hmax.
  assert (Hflex : Flexible.search_in_table keywords max_results t
                  = ([], [TableError (tbl_name t)])).
  { unfold Flexible.search_in_table, raises. now rewrite Hf. }
  split; [now apply ka_search_in_table_unreadable|].
  split; [now apply ka_skip_unreadable|].
  split; [now apply ka_full_scan_logs_error|].
  split; [exact Hflex|].
  split; [apply flexible_skip_failed; [exact Hflex | simpl; lia]|].
  split; [|apply flexible_error_means_no_match].
  unfold KeywordAnalyzer.search_in_table, raises. rewrite Hf'. simpl Nat.eqb.
  cbv iota.
  now rewrite (search_categories_fault tk quick_mode max_items t' tk Hc j 1).
Qed.

Lemma C7_table_errors_are_contained_witness :
  let tk := KeywordAnalyzer.target_keywords in
  let t := Sample.unreadable_table in
  let t' := Sample.failing_table in
  tbl_fault t = Some 0%nat
  /\ tbl_fault t' = Some 2%nat
  /\ (1 < List.length tk)%nat
  /\ (forall c, In c tk -> has_conditions (snd c) (tbl_columns t') = true)
  /\ (1 <= 1000)%Z
  /\ KeywordAnalyzer.search_in_table tk false 1000 t
     = (empty_buckets tk, [TableError "broken"])
  /\ fst (KeywordAnalyzer.search_keywords tk false 1000
            ([Sample.item_table] ++ t :: [Sample.token_table]))
     = fst (KeywordAnalyzer.search_keywords tk false 1000
              ([Sample.item_table] ++ [Sample.token_table]))
  /\ fst (Flexible.search_keywords ["token"] 1000
            ([Sample.item_table] ++ t :: [Sample.token_table]))
     = fst (Flexible.search_keywords ["token"] 1000
              ([Sample.item_table] ++ [Sample.token_table])).
Proof.
  cbv zeta.
  assert (Hj : (1 < List.length KeywordAnalyzer.target_keywords)%nat)
    by (simpl; lia).
  assert (Hc : forall c, In c KeywordAnalyzer.target_keywords ->
                 has_conditions (snd c) (tbl_columns Sample.failing_table)
                 = true).
  { apply forallb_forall. reflexivity. }
  assert (Hmax : (1 <= 1000)%Z) by lia.
  destruct (C7_table_errors_are_contained KeywordAnalyzer.target_keywords
              false 1000 ["token"] 1000 [Sample.item_table]
              [Sample.token_table] Sample.unreadable_table
              Sample.failing_table 1 eq_refl eq_refl Hj Hc Hmax)
    as (H1 & H2 & _ & _ & H5 & _).
  repeat (split; [first [reflexivity | assumption]|]).
  exact H5.
Defined.

(** C7, as stated, fails on "contributes no Matches": the second query of
    the taxonomy analyzer fails on a table whose first query found a row;
    the error is logged, and the authentication Match found before it is
    kept and reaches the results, while the subscription Match that a clean
    scan finds is lost. *)
Lemma C7_partial_matches_counterexample :
  let tk := KeywordAnalyzer.target_keywords in
  let scanned :=
    KeywordAnalyzer.search_in_table tk false 1000 Sample.failing_table in
  let res :=
    fst (KeywordAnalyzer.search_keywords tk false 1000
           [Sample.failing_table]) in
  snd scanned = [TableError "ItemTable"]
  /\ map m_matched_keywords (bucket_get "authentication" (fst scanned))
     = [["token"; "auth"]]
  /\ map m_category (KeywordAnalyzer.raw_data res) = ["authentication"]
  /\ map m_category
       (KeywordAnalyzer.raw_data
          (fst (KeywordAnalyzer.search_keywords tk false 1000
                  [healthy Sample.failing_table])))
     = ["authentication"; "subscription"].
Proof. vm_compute. repeat split. Qed.

(** ** The result cap *)

(** *** The flexible analyzer *)

Lemma collect_rows_bound (keywords : list string) (max_results : Z)
    (t : Table) (rows : list (list Value)) (matches : list Flexible.FlexMatch) :
  (Z.of_nat (List.length matches) < max_results)%Z ->
  (Z.of_nat (List.length
               (Flexible.collect_rows keywords max_results t rows matches))
   <= max_results)%Z.
Proof.
  revert matches; induction rows as [|r rows IH]; intros matches H; simpl;
    [lia|].
  assert (Hlen : List.length (matches ++ [Flexible.make_match keywords t r])
                 = S (List.length matches))
    by (rewrite length_app; simpl; lia).
  destruct (max_results <=? _)%Z eqn:E.
  - rewrite Hlen. lia.
  - apply IH. apply Z.leb_gt in E. exact E.
Qed.

Lemma flexible_table_bound (keywords : list string) (max_results : Z)
    (t : Table) :
  (1 <= max_results)%Z ->
  (Z.of_nat (List.length
               (fst (Flexible.search_in_table keywords max_results t)))
   <= max_results)%Z.
Proof.
  intros H. unfold Flexible.search_in_table.
  destruct (raises t 0); [simpl; lia|].
  destruct (has_conditions keywords (tbl_columns t)); [|simpl; lia].
  destruct (raises t 1); [simpl; lia|]. simpl.
  apply collect_rows_bound. simpl. lia.
Qed.

Lemma flexible_step_counted (res : Flexible.Results) (name : string)
    (table_matches : list Flexible.FlexMatch) :
  flexible_counted res ->
  flexible_counted
    match table_matches with
    | [] => res
    | _ :: _ =>
        {| Flexible.total_matches :=
             Flexible.total_matches res + List.length table_matches;
           Flexible.matches_by_table :=
             Flexible.matches_by_table res
             ++ [(name, List.length table_matches)];
           Flexible.detailed_matches :=
             Flexible.detailed_matches res ++ table_matches |}
    end.
Proof.
  unfold flexible_counted. intros H. destruct table_matches; [exact H|].
  simpl. rewrite length_app. simpl. lia.
Qed.

Lemma flexible_step_total (res : Flexible.Results) (name : string)
    (table_matches : list Flexible.FlexMatch) :
  Flexible.total_matches
    match table_matches with
    | [] => res
    | _ :: _ =>
        {| Flexible.total_matches :=
             Flexible.total_matches res + List.length table_matches;
           Flexible.matches_by_table :=
             Flexible.matches_by_table res
             ++ [(name, List.length table_matches)];
           Flexible.detailed_matches :=
             Flexible.detailed_matches res ++ table_matches |}
    end
  = (Flexible.total_matches res + List.length table_matches)%nat.
Proof. destruct table_matches; simpl; lia. Qed.

Lemma flexible_search_tables_bound (keywords : list string) (max_results : Z)
    (tables : list Table) (res : Flexible.Results) (log : list Event) :
  (1 <= max_results)%Z ->
  flexible_counted res ->
  (Z.of_nat (Flexible.total_matches res) < max_results)%Z ->
  flexible_counted
    (fst (Flexible.search_tables keywords max_results tables res log))
  /\ (Z.of_nat
        (Flexible.total_matches
           (fst (Flexible.search_tables keywords max_results tables res log)))
      <= 2 * max_results - 1)%Z.
Proof.
  intros Hmax. revert res log; induction tables as [|t tables IH];
    intros res log Hc Hlt; cbn [Flexible.search_tables fst].
  - split; [exact Hc | lia].
  - assert (Hb := flexible_table_bound keywords max_results t Hmax).
    destruct (Flexible.search_in_table keywords max_results t)
      as [table_matches events]. cbn [fst] in Hb.
    assert (Hc' := flexible_step_counted res (tbl_name t) table_matches Hc).
    assert (Ht := flexible_step_total res (tbl_name t) table_matches).
    destruct (max_results <=? _)%Z eqn:E.
    + cbn [fst]. split; [exact Hc'|]. rewrite Ht. lia.
    + apply IH; [exact Hc'|]. apply Z.leb_gt in E. exact E.
Qed.

Lemma flexible_stops_at_bound (keywords : list string) (max_results : Z)
    (pre post : list Table) (res : Flexible.Results) (log : list Event) :
  (Z.of_nat (Flexible.total_matches res) < max_results)%Z ->
  (max_results
   <= Z.of_nat (Flexible.total_matches
                  (fst (Flexible.search_tables keywords max_results pre res
                          log))))%Z ->
  Flexible.search_tables keywords max_results (pre ++ post) res log
  = Flexible.search_tables keywords max_results pre res log.
Proof.
  revert res log; induction pre as [|t pre IH]; intros res log Hlt Hge.
  - simpl in Hge. lia.
  - cbn [app Flexible.search_tables] in *.
    destruct (Flexible.search_in_table keywords max_results t)
      as [table_matches events].
    destruct (max_results <=? _)%Z eqn:E; [reflexivity|].
    apply IH; [|exact Hge]. apply Z.leb_gt in E. exact E.
Qed.

(** *** The taxonomy analyzer in quick mode *)

Lemma total_len_extend (c : string) (ms : list Match) (b : Buckets) :
  (total_len (bucket_extend c ms b) <= total_len b + List.length ms)%nat.
Proof.
  unfold total_len. induction b as [|[k l] b IH]; simpl; [lia|].
  destruct (String.eqb k c); simpl; [rewrite length_app|]; lia.
Qed.

Lemma select_rows_limit (tk : Taxonomy) (max_items : Z) (t : Table)
    (keywords : list string) :
  (0 <= max_items)%Z ->
  (List.length (KeywordAnalyzer.select_rows tk true max_items t keywords)
   <= Z.to_nat (max_items / Z.of_nat (List.length tk)))%nat.
Proof.
  intros H. unfold KeywordAnalyzer.select_rows, sql_limit.
  assert (Hq : (0 <= max_items / Z.of_nat (List.length tk))%Z).
  { destruct (List.length tk) as [|n].
    - simpl. rewrite Z.div_0_r. lia.
    - apply Z.div_pos; lia. }
  destruct (_ <? 0)%Z eqn:E; [apply Z.ltb_lt in E; lia|].
  rewrite length_firstn. lia.
Qed.

Lemma search_categories_total (tk : Taxonomy) (max_items : Z) (t : Table)
    (cats : Taxonomy) (stmt : nat) (cm : Buckets) :
  (0 <= max_items)%Z ->
  (total_len (fst (KeywordAnalyzer.search_categories tk true max_items t cats
                     stmt cm))
   <= total_len cm
      + List.length cats * Z.to_nat (max_items / Z.of_nat (List.length tk)))%nat.
Proof.
  intros H. revert stmt cm; induction cats as [|[c ks] cats IH];
    intros stmt cm; cbn [KeywordAnalyzer.search_categories List.length].
  - simpl. lia.
  - destruct (has_conditions ks (tbl_columns t)).
    + destruct (raises t stmt); [simpl; lia|].
      etransitivity; [apply IH|].
      assert (Hs := select_rows_limit tk max_items t ks H).
      assert (He := total_len_extend c
                      (map (KeywordAnalyzer.make_match (tbl_name t) c ks
                              (tbl_columns t))
                           (KeywordAnalyzer.select_rows tk true max_items t ks))
                      cm).
      rewrite length_map in He. lia.
    + etransitivity; [apply IH|]. lia.
Qed.

Lemma quick_table_bound (tk : Taxonomy) (max_items : Z) (t : Table) :
  (0 <= max_items)%Z ->
  (Z.of_nat (total_len (fst (KeywordAnalyzer.search_in_table tk true max_items
                               t)))
   <= max_items)%Z.
Proof.
  intros H. unfold KeywordAnalyzer.search_in_table.
  destruct (raises t 0); [simpl; rewrite total_len_empty; lia|].
  assert (Hs := search_categories_total tk max_items t tk 1 (empty_buckets tk) H).
  destruct (KeywordAnalyzer.search_categories _ _ _ _ _ _ _) as [cm raised].
  cbn [fst] in *. rewrite total_len_empty in Hs.
  destruct (List.length tk) as [|n] eqn:En.
  - simpl in Hs. lia.
  - assert (Hn : (0 < Z.of_nat (S n))%Z) by lia.
    assert (Hm := Z.mul_div_le max_items (Z.of_nat (S n)) Hn).
    assert (Hq : (0 <= max_items / Z.of_nat (S n))%Z)
      by (apply Z.div_pos; lia).
    nia.
Qed.

Lemma ka_merge_fold_length (quick_mode : bool) (max_items : Z)
    (table_matches : Buckets) (res : KeywordAnalyzer.Results) :
  (List.length
     (KeywordAnalyzer.raw_data
        (fold_left (KeywordAnalyzer.merge_category quick_mode max_items)
           table_matches res))
   <= List.length (KeywordAnalyzer.raw_data res) + total_len table_matches)%nat.
Proof.
  revert res; induction table_matches as [|cm l IH]; intros res; simpl;
    [lia|].
  etransitivity; [apply IH|].
  unfold KeywordAnalyzer.merge_category. simpl. rewrite length_app.
  destruct quick_mode; [rewrite length_firstn|]; lia.
Qed.

Lemma ka_merge_table_length (quick_mode : bool) (max_items : Z)
    (table_matches : Buckets) (res : KeywordAnalyzer.Results) :
  (List.length
     (KeywordAnalyzer.raw_data
        (KeywordAnalyzer.merge_table quick_mode max_items res table_matches))
   <= List.length (KeywordAnalyzer.raw_data res) + total_len table_matches)%nat.
Proof.
  unfold KeywordAnalyzer.merge_table.
  destruct (0 <? total_len table_matches)%nat; [|lia].
  apply ka_merge_fold_length.
Qed.

Lemma quick_search_tables_bound (tk : Taxonomy) (max_items : Z)
    (tables : list Table) (res : KeywordAnalyzer.Results) (log : list Event) :
  (1 <= max_items)%Z ->
  (Z.of_nat
     (List.length
        (KeywordAnalyzer.raw_data
           (fst (KeywordAnalyzer.search_tables tk true max_items tables res
                   log))))
   <= Z.max (Z.of_nat (List.length (KeywordAnalyzer.raw_data res)))
            (2 * max_items - 1))%Z.
Proof.
  intros Hmax. revert res log; induction tables as [|t tables IH];
    intros res log; cbn [KeywordAnalyzer.search_tables fst andb].
  - lia.
  - destruct (max_items <=? _)%Z eqn:E; [cbn [fst]; lia|].
    apply Z.leb_gt in E.
    assert (Hb := quick_table_bound tk max_items t ltac:(lia)).
    destruct (KeywordAnalyzer.search_in_table tk true max_items t)
      as [table_matches events]. cbn [fst] in Hb.
    etransitivity; [apply IH|].
    assert (Hl := ka_merge_table_length true max_items table_matches res).
    lia.
Qed.

Lemma quick_stops_at_bound (tk : Taxonomy) (max_items : Z)
    (pre post : list Table) (res : KeywordAnalyzer.Results) (log : list Event) :
  (max_items
   <= Z.of_nat
        (List.length
           (KeywordAnalyzer.raw_data
              (fst (KeywordAnalyzer.search_tables tk true max_items pre res
                      log)))))%Z ->
  fst (KeywordAnalyzer.search_tables tk true max_items (pre ++ post) res log)
  = fst (KeywordAnalyzer.search_tables tk true max_items pre res log).
Proof.
  revert res log; induction pre as [|t pre IH]; intros res log Hge.
  - cbn [app KeywordAnalyzer.search_tables fst] in *.
    destruct post as [|p post]; [reflexivity|].
    cbn [KeywordAnalyzer.search_tables andb].
    assert (E : (max_items
                 <=? Z.of_nat (List.length (KeywordAnalyzer.raw_data res)))%Z
                = true) by now apply Z.leb_le.
    now rewrite E.
  - cbn [app KeywordAnalyzer.search_tables andb] in *.
    destruct (max_items <=? _)%Z; [reflexivity|].
    destruct (KeywordAnalyzer.search_in_table tk true max_items t)
      as [table_matches events].
    now apply IH.
Qed.

Lemma bucket_cap_extend (max_items : Z) (c : string) (ms : list Match)
    (b : Buckets) :
  Forall (fun cl => (Z.of_nat (List.length (snd cl)) <= max_items)%Z) b ->
  Forall (fun cl => (Z.of_nat (List.length (snd cl)) <= max_items)%Z)
    (bucket_extend c
       (firstn
          (Z.to_nat
             (Z.max 0 (max_items - Z.of_nat (List.length (bucket_get c b)))))
          ms)
       b).
Proof.
  induction 1 as [|[k l] b Hl Hb IH]; cbn [bucket_extend bucket_get];
    [constructor|].
  destruct (String.eqb k c).
  - constructor; [|assumption]. cbn [snd] in *.
    rewrite length_app, length_firstn. lia.
  - constructor; [assumption | apply IH].
Qed.

Lemma quick_buckets_capped (tk : Taxonomy) (max_items : Z)
    (tables : list Table) (res : KeywordAnalyzer.Results) (log : list Event) :
  Forall (fun cl => (Z.of_nat (List.length (snd cl)) <= max_items)%Z)
    (KeywordAnalyzer.keywords res) ->
  Forall (fun cl => (Z.of_nat (List.length (snd cl)) <= max_items)%Z)
    (KeywordAnalyzer.keywords
       (fst (KeywordAnalyzer.search_tables tk true max_items tables res log))).
Proof.
  revert res log; induction tables as [|t tables IH]; intros res log Hc;
    cbn [KeywordAnalyzer.search_tables fst andb]; [assumption|].
  destruct (max_items <=? _)%Z; [assumption|].
  destruct (KeywordAnalyzer.search_in_table tk true max_items t)
    as [table_matches events].
  apply IH. unfold KeywordAnalyzer.merge_table.
  destruct (0 <? total_len table_matches)%nat; [|assumption].
  clear IH. revert res Hc.
  induction table_matches as [|cm l IHl]; intros res Hc; simpl; [assumption|].
  apply IHl. unfold KeywordAnalyzer.merge_category. simpl.
  now apply bucket_cap_extend.
Qed.

(** C8 (as amended).  Under a bound N >= 1 no table is begun once N Matches
    have been accepted, and the tables left are skipped without an error;
    the table being scanned when the bound is met is still merged with up to
    N Matches of its own, so the total accepted stays below 2N, and can
    exceed N.  In the flexible analyzer one table yields at most N Matches;
    in the quick mode of the taxonomy analyzer each category bucket holds at
    most N Matches. *)
Theorem C8_result_cap :
  forall (keywords : list string) (tk : Taxonomy) (bound : Z)
         (pre post : list Table) (t : Table),
    (1 <= bound)%Z ->
    let flexible := fst (Flexible.search_keywords keywords bound pre) in
    let quick := fst (KeywordAnalyzer.search_keywords tk true bound pre) in
    (Z.of_nat (List.length (Flexible.detailed_matches flexible))
       <= 2 * bound - 1)%Z
    /\ Flexible.total_matches flexible
       = List.length (Flexible.detailed_matches flexible)
    /\ (Z.of_nat (List.length (fst (Flexible.search_in_table keywords bound t)))
        <= bound)%Z
    /\ ((bound <= Z.of_nat (Flexible.total_matches flexible))%Z ->
        Flexible.search_keywords keywords bound (pre ++ post)
        = Flexible.search_keywords keywords bound pre)
    /\ (Z.of_nat (List.length (KeywordAnalyzer.raw_data quick))
        <= 2 * bound - 1)%Z
    /\ Forall (fun cl => (Z.of_nat (List.length (snd cl)) <= bound)%Z)
         (KeywordAnalyzer.keywords quick)
    /\ ((bound <= Z.of_nat (List.length (KeywordAnalyzer.raw_data quick)))%Z ->
        fst (KeywordAnalyzer.search_keywords tk true bound (pre ++ post))
        = quick).
Proof.
  intros keywords tk bound pre post t Hb flexible quick.
  destruct (flexible_search_tables_bound keywords bound pre
              (Flexible.mkResults 0 [] []) [] Hb eq_refl)
    as [Hc Ht]; [simpl; lia|].
  fold (Flexible.search_keywords keywords bound pre) in Hc, Ht.
  fold flexible in Hc, Ht. unfold flexible_counted in Hc.
  split; [rewrite <- Hc; exact Ht|]. split; [exact Hc|].
  split; [now apply flexible_table_bound|].
  split; [intros Hge; apply flexible_stops_at_bound; [simpl; lia | exact Hge]|].
  split.
  - assert (H := quick_search_tables_bound tk bound pre
                   (KeywordAnalyzer.mkResults (empty_buckets tk) []) [] Hb).
    fold (KeywordAnalyzer.search_keywords tk true bound pre) in H.
    fold quick in H. cbn [KeywordAnalyzer.raw_data List.length] in H. lia.
  - split.
    + apply quick_buckets_capped. cbn [KeywordAnalyzer.keywords].
      unfold empty_buckets. apply Forall_forall. intros cl Hcl.
      apply in_map_iff in Hcl as (c & <- & _). simpl. lia.
    + intros Hge. now apply quick_stops_at_bound.
Qed.

Lemma C8_result_cap_witness :
  let tables := [Sample.one_token; Sample.two_tokens] in
  (1 <= 2)%Z
  /\ (Z.of_nat
        (List.length
           (Flexible.detailed_matches
              (fst (Flexible.search_keywords ["token"] 2 tables))))
      <= 2 * 2 - 1)%Z
  /\ Flexible.search_keywords ["token"] 2 (tables ++ [Sample.item_table])
     = Flexible.search_keywords ["token"] 2 tables.
Proof.
  cbv zeta.
  assert (Hb : (1 <= 2)%Z) by lia.
  destruct (C8_result_cap ["token"] KeywordAnalyzer.target_keywords 2
              [Sample.one_token; Sample.two_tokens] [Sample.item_table]
              Sample.item_table Hb)
    as (H1 & _ & _ & H4 & _).
  split; [exact Hb|]. split; [exact H1|].
  apply H4. vm_compute. discriminate.
Defined.

(** C8, as stated, fails on the total: with the bound 2 the flexible
    analyzer accepts one Match from a first table and two from a second,
    three in all; with the bound 6 the quick mode of the taxonomy analyzer
    accepts five Matches from each of two tables, ten in all. *)
Lemma C8_total_exceeds_bound_counterexample :
  let flexible :=
    fst (Flexible.search_keywords ["token"] 2
           [Sample.one_token; Sample.two_tokens]) in
  let quick :=
    fst (KeywordAnalyzer.search_keywords KeywordAnalyzer.target_keywords true 6
           [Sample.busy_table "first"; Sample.busy_table "second"]) in
  Flexible.total_matches flexible = 3%nat
  /\ List.length (Flexible.detailed_matches flexible) = 3%nat
  /\ Flexible.matches_by_table flexible = [("first", 1%nat); ("second", 2%nat)]
  /\ List.length (KeywordAnalyzer.raw_data quick) = 10%nat
  /\ KeywordAnalyzer.export_categories quick
     = [("authentication", 2%nat); ("subscription", 2%nat);
        ("ai_features", 2%nat); ("account_status", 2%nat);
        ("blackbox_specific", 0%nat); ("usage_limits", 2%nat)].
Proof. vm_compute. repeat split. Qed.

(** * Further properties *)

(** ** Where accepted Matches come from *)

Lemma merge_table_stem (tk : Taxonomy) (quick_mode : bool) (max_items : Z)
    (tables : list Table) (res : KeywordAnalyzer.Results)
    (table_matches : Buckets) :
  buckets_stem_from tk tables table_matches ->
  buckets_stem_from tk tables (KeywordAnalyzer.keywords res) ->
  buckets_stem_from tk tables
    (KeywordAnalyzer.keywords
       (KeywordAnalyzer.merge_table quick_mode max_items res table_matches)).
Proof.
  unfold KeywordAnalyzer.merge_table.
  destruct (0 <? total_len table_matches)%nat; [|tauto].
  intros Htm. revert res.
  induction Htm as [|cm l Hcm Hl IH]; intros res Hres; simpl; [assumption|].
  apply IH. unfold KeywordAnalyzer.merge_category. simpl.
  apply buckets_stem_extend; [|assumption].
  destruct quick_mode; [|assumption].
  apply Forall_forall. intros m Hm. apply firstn_In in Hm.
  now apply (proj1 (Forall_forall _ _) Hcm).
Qed.

Lemma search_tables_stem (tk : Taxonomy) (quick_mode : bool) (max_items : Z)
    (all : list Table) (tables : list Table) (res : KeywordAnalyzer.Results)
    (log : list Event) :
  (forall t, In t tables -> In t all) ->
  buckets_stem_from tk all (KeywordAnalyzer.keywords res) ->
  buckets_stem_from tk all
    (KeywordAnalyzer.keywords
       (fst (KeywordAnalyzer.search_tables tk quick_mode max_items tables res
               log))).
Proof.
  revert res log; induction tables as [|t tables IH]; intros res log Hsub Hres;
    cbn [KeywordAnalyzer.search_tables]; [assumption|].
  destruct (quick_mode && _); [assumption|].
  assert (Ht := search_in_table_stem tk quick_mode max_items all t
                  (Hsub t (or_introl eq_refl))).
  destruct (KeywordAnalyzer.search_in_table tk quick_mode max_items t)
    as [table_matches events].
  apply IH; [intros t' Ht'; apply Hsub; now right|].
  now apply merge_table_stem.
Qed.

Lemma flatten_In (b : Buckets) (m : Match) :
  In m (flatten b) <-> exists cl, In cl b /\ In m (snd cl).
Proof. unfold flatten. apply in_flat_map. Qed.

Lemma ka_bucket_stems (tk : Taxonomy) (quick_mode : bool) (max_items : Z)
    (tables : list Table) (cl : string * list Match) (m : Match) :
  In cl (KeywordAnalyzer.keywords
           (fst (KeywordAnalyzer.search_keywords tk quick_mode max_items
                   tables))) ->
  In m (snd cl) ->
  stems_from tk tables (fst cl) m.
Proof.
  intros Hcl Hm.
  assert (Hs : buckets_stem_from tk tables
                 (KeywordAnalyzer.keywords
                    (fst (KeywordAnalyzer.search_keywords tk quick_mode
                            max_items tables)))).
  { apply search_tables_stem; [auto | apply buckets_stem_empty]. }
  unfold buckets_stem_from in Hs.
  apply (proj1 (Forall_forall _ _) (proj1 (Forall_forall _ _) Hs cl Hcl)).
  exact Hm.
Qed.

Lemma ka_raw_data_In (tk : Taxonomy) (quick_mode : bool) (max_items : Z)
    (tables : list Table) (m : Match) :
  In m (KeywordAnalyzer.raw_data
          (fst (KeywordAnalyzer.search_keywords tk quick_mode max_items
                  tables)))
  <-> exists cl,
        In cl (KeywordAnalyzer.keywords
                 (fst (KeywordAnalyzer.search_keywords tk quick_mode max_items
                         tables)))
        /\ In m (snd cl).
Proof.
  rewrite <- flatten_In.
  destruct (ka_search_keywords tk quick_mode max_items tables) as [_ Hp].
  split; intros H.
  - now apply (Permutation_in _ Hp).
  - now apply (Permutation_in _ (Permutation_sym Hp)).
Qed.

(** X1.  Whatever the mode and whatever fails, every Match the taxonomy
    analyzer accepts was made by [_search_in_table] from a row of a scanned
    table that satisfies the conditions of a category of the taxonomy; a
    Match in the bucket of a category names that category and its table,
    holds the tier of its own data, and lists keywords of that category
    without repetition.  The flat list holds the Matches of the buckets and
    no others. *)
Theorem X1_accepted_matches_stem_from_rows :
  forall (tk : Taxonomy) (quick_mode : bool) (max_items : Z)
         (tables : list Table),
    let res :=
      fst (KeywordAnalyzer.search_keywords tk quick_mode max_items tables) in
    (forall cl m,
       In cl (KeywordAnalyzer.keywords res) -> In m (snd cl) ->
       stems_from tk tables (fst cl) m
       /\ m_category m = fst cl
       /\ (exists t, In t tables /\ m_table m = tbl_name t)
       /\ m_sensitivity m = KeywordAnalyzer.determine_sensitivity (m_data m)
       /\ NoDup (m_matched_keywords m)
       /\ exists keywords,
            In (fst cl, keywords) tk
            /\ forall k, In k (m_matched_keywords m) -> In k keywords)
    /\ (forall m, In m (KeywordAnalyzer.raw_data res)
          <-> exists cl, In cl (KeywordAnalyzer.keywords res) /\ In m (snd cl)).
Proof.
  intros tk quick_mode max_items tables res. split.
  - intros cl m Hcl Hm.
    assert (Hst : stems_from tk tables (fst cl) m)
      by now apply (ka_bucket_stems tk quick_mode max_items tables).
    split; [exact Hst|].
    destruct Hst as (t & ks & row & Ht & Hks & Hrow & Hw & ->).
    cbn [m_category m_table m_sensitivity m_data m_matched_keywords
         KeywordAnalyzer.make_match].
    split; [reflexivity|]. split; [eauto|]. split; [reflexivity|].
    destruct (matched_keywords_spec ks (tbl_columns t) row) as (_ & Hnd & Hin).
    split; [exact Hnd|]. exists ks. split; [exact Hks|].
    intros k Hk. now apply Hin in Hk.
  - intros m. apply ka_raw_data_In.
Qed.

Lemma plain_sql_like_occurs (k : string) (v : Value) :
  plain_keyword k = true -> sql_like k v = true -> occurs_in k v = true.
Proof.
  unfold plain_keyword, occurs_in. intros Hp Hs.
  apply andb_true_iff in Hp as [Hp Hz].
  apply andb_true_iff in Hp as [Hp He].
  apply negb_true_iff in He. apply negb_true_iff in Hz.
  apply (sql_like_spec k v Hp) in Hs as [Hn Hs].
  destruct v as [|s|z]; [discriminate Hn| |].
  - cbn [truthy py_str] in *. destruct (String.eqb s "") eqn:E.
    + apply String.eqb_eq in E. subst s. cbn [lower] in Hs. congruence.
    + now rewrite Hs.
  - cbn [truthy] in *. destruct (Z.eqb z 0) eqn:E.
    + apply Z.eqb_eq in E. subst z.
      change (lower (py_str (VInt 0))) with "0" in Hs. congruence.
    + now rewrite Hs.
Qed.

Lemma where_any_gives_evidence (keywords columns : list string)
    (row : list Value) :
  (forall k, In k keywords -> plain_keyword k = true) ->
  where_any keywords columns row = true ->
  matched_keywords_of keywords columns row <> [].
Proof.
  intros Hp Hw. unfold where_any in Hw.
  apply existsb_exists in Hw as (k & Hk & Hw).
  apply existsb_exists in Hw as (cv & Hcv & Hs).
  apply plain_sql_like_occurs in Hs; [|now apply Hp].
  destruct (matched_keywords_spec keywords columns row) as (_ & _ & Hin).
  intros E. assert (H : In k (matched_keywords_of keywords columns row)).
  { apply Hin. eauto. }
  rewrite E in H. destruct H.
Qed.

Lemma collect_rows_In (keywords : list string) (max_results : Z) (t : Table)
    (rows : list (list Value)) (matches : list Flexible.FlexMatch)
    (m : Flexible.FlexMatch) :
  In m (Flexible.collect_rows keywords max_results t rows matches) ->
  In m matches
  \/ exists row, In row rows /\ m = Flexible.make_match keywords t row.
Proof.
  revert matches; induction rows as [|r rows IH]; intros matches H;
    cbn [Flexible.collect_rows] in H; [now left|].
  assert (Hstep : In m (matches ++ [Flexible.make_match keywords t r]) ->
            In m matches
            \/ exists row, In row (r :: rows)
                           /\ m = Flexible.make_match keywords t row).
  { intros Hin. apply in_app_or in Hin as [Hin|[<-|[]]]; [now left|].
    right. exists r. split; [now left | reflexivity]. }
  destruct (max_results <=? _)%Z; [now apply Hstep|].
  apply IH in H as [H|(row & Hrow & ->)]; [now apply Hstep|].
  right. exists row. split; [now right | reflexivity].
Qed.

Lemma flexible_search_in_table_In (keywords : list string) (max_results : Z)
    (t : Table) (m : Flexible.FlexMatch) :
  In m (fst (Flexible.search_in_table keywords max_results t)) ->
  exists row, In row (tbl_rows t)
              /\ where_any keywords (tbl_columns t) row = true
              /\ m = Flexible.make_match keywords t row.
Proof.
  unfold Flexible.search_in_table.
  destruct (raises t 0); [intros []|].
  destruct (has_conditions keywords (tbl_columns t)); [|intros []].
  destruct (raises t 1); [intros []|]. cbn [fst]. intros H.
  apply collect_rows_In in H as [[]|(row & Hrow & ->)].
  apply filter_In in Hrow as [Hin Hw]. eauto.
Qed.

Lemma flexible_search_tables_In (keywords : list string) (max_results : Z)
    (tables : list Table) (res : Flexible.Results) (log : list Event)
    (m : Flexible.FlexMatch) :
  In m (Flexible.detailed_matches
          (fst (Flexible.search_tables keywords max_results tables res log))) ->
  In m (Flexible.detailed_matches res)
  \/ exists t, In t tables
               /\ In m (fst (Flexible.search_in_table keywords max_results t)).
Proof.
  revert res log; induction tables as [|t tables IH]; intros res log H;
    cbn [Flexible.search_tables] in H; [now left|].
  destruct (Flexible.search_in_table keywords max_results t)
    as [table_matches events] eqn:Et.
  assert (Hstep :
    In m (Flexible.detailed_matches
            match table_matches with
            | [] => res
            | _ :: _ =>
                {| Flexible.total_matches :=
                     Flexible.total_matches res + List.length table_matches;
                   Flexible.matches_by_table :=
                     Flexible.matches_by_table res
                     ++ [(tbl_name t, List.length table_matches)];
                   Flexible.detailed_matches :=
                     Flexible.detailed_matches res ++ table_matches |}
            end) ->
    In m (Flexible.detailed_matches res)
    \/ exists t', In t' (t :: tables)
                  /\ In m (fst (Flexible.search_in_table keywords max_results
                                  t'))).
  { intros Hin. destruct table_matches as [|x l]; [now left|].
    cbn [Flexible.detailed_matches] in Hin.
    apply in_app_or in Hin as [Hin|Hin]; [now left|].
    right. exists t. split; [now left|]. now rewrite Et. }
  destruct (max_results <=? _)%Z; [now apply Hstep|].
  apply IH in H as [H|(t' & Ht' & H)]; [now apply Hstep|].
  right. exists t'. split; [now right | exact H].
Qed.

(** X2.  On a store of NULL, text and integer values, when no keyword
    holds a LIKE wildcard (percent sign or underscore) or a quote, and none
    is the empty text or the text "0", every Match accepted by the taxonomy
    analyzer and every Match accepted by the flexible analyzer carries at
    least one matched keyword: the row that the [LIKE] conditions selected
    is a row in which the Python test finds a keyword. *)
Theorem X2_accepted_matches_carry_evidence :
  forall (tk : Taxonomy) (quick_mode : bool) (max_items : Z)
         (keywords : list string) (max_results : Z) (tables : list Table),
    (forall c k, In c tk -> In k (snd c) -> plain_keyword k = true) ->
    (forall k, In k keywords -> plain_keyword k = true) ->
    (forall m,
       In m (KeywordAnalyzer.raw_data
               (fst (KeywordAnalyzer.search_keywords tk quick_mode max_items
                       tables))) ->
       m_matched_keywords m <> [])
    /\ (forall m,
          In m (Flexible.detailed_matches
                  (fst (Flexible.search_keywords keywords max_results
                          tables))) ->
          Flexible.f_matched_keywords m <> []).
Proof.
  intros tk quick_mode max_items keywords max_results tables Htk Hkw. split.
  - intros m Hm.
    apply ka_raw_data_In in Hm as (cl & Hcl & Hm).
    destruct (ka_bucket_stems tk quick_mode max_items tables cl m Hcl Hm)
      as (t & ks & row & _ & Hks & _ & Hw & ->).
    cbn [m_matched_keywords KeywordAnalyzer.make_match].
    apply where_any_gives_evidence; [|exact Hw].
    intros k Hk. now apply (Htk (fst cl, ks)).
  - intros m Hm. unfold Flexible.search_keywords in Hm.
    apply flexible_search_tables_In in Hm as [[]|(t & _ & Hm)].
    apply flexible_search_in_table_In in Hm as (row & _ & Hw & ->).
    cbn [Flexible.f_matched_keywords Flexible.make_match].
    now apply where_any_gives_evidence.
Qed.

Lemma X2_accepted_matches_carry_evidence_witness :
  let tk := KeywordAnalyzer.target_keywords in
  let tables := [Sample.item_table; Sample.zero_table] in
  (forall c k, In c tk -> In k (snd c) -> plain_keyword k = true)
  /\ (forall k, In k ["token"; "plan"] -> plain_keyword k = true)
  /\ (forall m,
        In m (KeywordAnalyzer.raw_data
                (fst (KeywordAnalyzer.search_keywords tk true 1000 tables))) ->
        m_matched_keywords m <> [])
  /\ (forall m,
        In m (Flexible.detailed_matches
                (fst (Flexible.search_keywords ["token"; "plan"] 1000
                        tables))) ->
        Flexible.f_matched_keywords m <> []).
Proof.
  cbv zeta.
  assert (Htk : forall c k, In c KeywordAnalyzer.target_keywords ->
                  In k (snd c) -> plain_keyword k = true).
  { intros c k Hc Hk.
    assert (H : forallb (fun c => forallb plain_keyword (snd c))
                  KeywordAnalyzer.target_keywords = true) by reflexivity.
    rewrite forallb_forall in H. specialize (H c Hc).
    rewrite forallb_forall in H. now apply H. }
  assert (Hkw : forall k, In k ["token"; "plan"] -> plain_keyword k = true).
  { intros k [<-|[<-|[]]]; reflexivity. }
  split; [exact Htk|]. split; [exact Hkw|].
  exact (X2_accepted_matches_carry_evidence KeywordAnalyzer.target_keywords
           true 1000 ["token"; "plan"] 1000
           [Sample.item_table; Sample.zero_table] Htk Hkw).
Defined.

(** ** The full scan of a readable store *)

Lemma buckets_ext (b1 b2 : Buckets) :
  map fst b1 = map fst b2 ->
  NoDup (map fst b1) ->
  (forall c, In c (map fst b1) -> bucket_get c b1 = bucket_get c b2) ->
  b1 = b2.
Proof.
  revert b2; induction b1 as [|[k l1] b1 IH]; intros [|[k2 l2] b2] Hk Hnd Hg;
    try discriminate; [reflexivity|].
  cbn [map fst] in Hk. injection Hk as <- Hk.
  inversion Hnd as [|? ? Hnot Hnd']; subst.
  assert (Hl := Hg k (or_introl eq_refl)). cbn [bucket_get] in Hl.
  rewrite String.eqb_refl in Hl. subst l2. f_equal.
  apply IH; [assumption | assumption|].
  intros c Hc. assert (H := Hg c (or_intror Hc)). cbn [bucket_get] in H.
  assert (E : String.eqb k c = false).
  { apply String.eqb_neq. intros ->. now apply Hnot. }
  now rewrite E in H.
Qed.

Lemma bucket_get_map (f : string * list string -> list Match) (tk : Taxonomy)
    (c : string) (ks : list string) :
  NoDup (map fst tk) -> In (c, ks) tk ->
  bucket_get c (map (fun x => (fst x, f x)) tk) = f (c, ks).
Proof.
  induction tk as [|x tk IH]; intros Hnd Hin; [destruct Hin|].
  inversion Hnd as [|? ? Hnot Hnd']; subst. cbn [map bucket_get fst].
  destruct Hin as [->|Hin].
  - cbn [fst]. now rewrite String.eqb_refl.
  - assert (E : String.eqb (fst x) c = false).
    { apply String.eqb_neq. intros E. apply Hnot. rewrite E.
      apply in_map_iff. now exists (c, ks). }
    rewrite E. now apply IH.
Qed.

Lemma flat_map_none {A B : Type} (g : A -> list B) (sel : A -> bool)
    (l : list A) :
  (forall x, In x l -> sel x = false) ->
  flat_map (fun x => if sel x then g x else []) l = [].
Proof.
  induction l as [|x l IH]; simpl; intros H; [reflexivity|].
  rewrite (H x) by now left. simpl. apply IH. intros y Hy. apply H. now right.
Qed.

Lemma flat_map_select_bucket (c : string) (b : Buckets) :
  NoDup (map fst b) ->
  flat_map (fun cm => if String.eqb (fst cm) c then snd cm else []) b
  = bucket_get c b.
Proof.
  induction b as [|[k l] b IH]; intros Hnd; [reflexivity|].
  inversion Hnd as [|? ? Hnot Hnd']; subst. cbn [flat_map bucket_get fst snd].
  destruct (String.eqb k c) eqn:E.
  - apply String.eqb_eq in E. subst k.
    rewrite flat_map_none; [apply app_nil_r|].
    intros y Hy. apply String.eqb_neq. intros Ey. apply Hnot.
    rewrite <- Ey. now apply in_map.
  - now apply IH.
Qed.

Lemma merge_full_keywords (max_items : Z) (tm : Buckets)
    (res : KeywordAnalyzer.Results) :
  KeywordAnalyzer.keywords
    (fold_left (KeywordAnalyzer.merge_category false max_items) tm res)
  = fold_left (fun b cm => bucket_extend (fst cm) (snd cm) b) tm
      (KeywordAnalyzer.keywords res)
  /\ KeywordAnalyzer.raw_data
       (fold_left (KeywordAnalyzer.merge_category false max_items) tm res)
     = KeywordAnalyzer.raw_data res ++ flatten tm.
Proof.
  revert res; induction tm as [|cm tm IH]; intros res; cbn [fold_left].
  - split; [reflexivity | now rewrite app_nil_r].
  - destruct (IH (KeywordAnalyzer.merge_category false max_items res cm))
      as [Hk Hr].
    split; [exact Hk|]. rewrite Hr. unfold flatten. cbn [flat_map].
    unfold KeywordAnalyzer.merge_category. cbn [KeywordAnalyzer.raw_data].
    now rewrite app_assoc.
Qed.

Lemma total_len_zero_flatten (b : Buckets) :
  total_len b = 0%nat -> flatten b = [].
Proof.
  rewrite <- flatten_length. now destruct (flatten b).
Qed.

Lemma total_len_zero_fold (b tm : Buckets) :
  total_len tm = 0%nat ->
  fold_left (fun b cm => bucket_extend (fst cm) (snd cm) b) tm b = b.
Proof.
  revert b; induction tm as [|[c l] tm IH]; intros b H; [reflexivity|].
  unfold total_len in H. cbn [fold_right snd] in H. fold (total_len tm) in H.
  destruct l; [|simpl in H; lia].
  cbn [fold_left fst snd]. rewrite bucket_extend_nil. apply IH. simpl in H. lia.
Qed.

Lemma merge_table_full (max_items : Z) (tm : Buckets)
    (res : KeywordAnalyzer.Results) :
  KeywordAnalyzer.keywords (KeywordAnalyzer.merge_table false max_items res tm)
  = fold_left (fun b cm => bucket_extend (fst cm) (snd cm) b) tm
      (KeywordAnalyzer.keywords res)
  /\ KeywordAnalyzer.raw_data
       (KeywordAnalyzer.merge_table false max_items res tm)
     = KeywordAnalyzer.raw_data res ++ flatten tm.
Proof.
  unfold KeywordAnalyzer.merge_table.
  destruct (0 <? total_len tm)%nat eqn:E; [apply merge_full_keywords|].
  apply Nat.ltb_ge in E. assert (H0 : total_len tm = 0%nat) by lia.
  now rewrite total_len_zero_fold, total_len_zero_flatten, app_nil_r.
Qed.

Lemma ka_table_buckets (tk : Taxonomy) (quick_mode : bool) (max_items : Z)
    (t : Table) :
  NoDup (map fst tk) ->
  tbl_fault t = None ->
  KeywordAnalyzer.search_in_table tk quick_mode max_items t
  = (map (fun c => (fst c, category_scan tk quick_mode max_items t c)) tk, []).
Proof.
  intros Hnd Hf. unfold KeywordAnalyzer.search_in_table.
  rewrite raises_no_fault by assumption.
  rewrite search_categories_no_fault by assumption. f_equal.
  apply buckets_ext.
  - rewrite fold_extend_keys, empty_buckets_keys, map_map. reflexivity.
  - now rewrite fold_extend_keys, empty_buckets_keys.
  - intros c Hc. rewrite fold_extend_keys, empty_buckets_keys in Hc.
    apply in_map_iff in Hc as ([c' ks] & <- & Hin). cbn [fst].
    rewrite bucket_get_fold
      by (rewrite empty_buckets_keys; apply in_map_iff; now exists (c', ks)).
    rewrite bucket_get_empty. cbn [app].
    rewrite (flat_map_unique _ tk c' ks) by assumption.
    now rewrite (bucket_get_map _ tk c' ks).
Qed.

Lemma flatten_map (f : string * list string -> list Match) (tk : Taxonomy) :
  flatten (map (fun c => (fst c, f c)) tk) = flat_map f tk.
Proof.
  unfold flatten. induction tk as [|c tk IH]; simpl; [reflexivity|].
  now rewrite IH.
Qed.

Lemma ka_full_scan_from (tk : Taxonomy) (max_items : Z) (tables : list Table)
    (res : KeywordAnalyzer.Results) (log : list Event) :
  NoDup (map fst tk) ->
  Forall (fun t => tbl_fault t = None) tables ->
  map fst (KeywordAnalyzer.keywords res) = map fst tk ->
  let out := KeywordAnalyzer.search_tables tk false max_items tables res log in
  (forall c ks, In (c, ks) tk ->
     bucket_get c (KeywordAnalyzer.keywords (fst out))
     = bucket_get c (KeywordAnalyzer.keywords res)
       ++ flat_map (fun t => category_scan tk false max_items t (c, ks)) tables)
  /\ KeywordAnalyzer.raw_data (fst out)
     = KeywordAnalyzer.raw_data res
       ++ flat_map
            (fun t => flat_map (category_scan tk false max_items t) tk) tables
  /\ snd out = log.
Proof.
  intros Hnd Hall. revert res log.
  induction Hall as [|t tables Ht Hall IH]; intros res log Hk;
    cbn [KeywordAnalyzer.search_tables andb flat_map].
  - cbv zeta. cbn [fst snd]. split; [|split]; try reflexivity.
    + intros c ks _. now rewrite app_nil_r.
    + now rewrite app_nil_r.
  - rewrite ka_table_buckets by assumption.
    set (tm := map (fun c => (fst c, category_scan tk false max_items t c)) tk).
    destruct (merge_table_full max_items tm res) as [Hmk Hmr].
    assert (Hk' : map fst (KeywordAnalyzer.keywords
                             (KeywordAnalyzer.merge_table false max_items res
                                tm))
                  = map fst tk)
      by now rewrite Hmk, fold_extend_keys.
    destruct (IH (KeywordAnalyzer.merge_table false max_items res tm)
                 (log ++ []) Hk') as (Hb & Hr & Hl).
    cbv zeta in *. split; [|split].
    + intros c ks Hin. rewrite (Hb c ks Hin), Hmk.
      rewrite bucket_get_fold
        by (rewrite Hk; apply in_map_iff; now exists (c, ks)).
      rewrite flat_map_select_bucket
        by (unfold tm; rewrite map_map; exact Hnd).
      unfold tm. rewrite (bucket_get_map _ tk c ks) by assumption.
      now rewrite <- app_assoc.
    + rewrite Hr, Hmr. unfold tm. rewrite flatten_map.
      now rewrite <- app_assoc.
    + rewrite Hl. apply app_nil_r.
Qed.

(** X3.  In full mode, on a store all of whose reads succeed, the scan of
    the taxonomy analyzer loses and repeats nothing: the bucket of a
    category holds, table after table and row after row, one Match for
    every row that the conditions of the category select; the flat list
    holds the same Matches table by table and, within a table, category by
    category; and no warning is logged. *)
Theorem X3_full_scan_of_a_readable_store :
  forall (tk : Taxonomy) (max_items : Z) (tables : list Table),
    NoDup (map fst tk) ->
    Forall (fun t => tbl_fault t = None) tables ->
    let out := KeywordAnalyzer.search_keywords tk false max_items tables in
    let rows_of := fun (t : Table) (c : string * list string) =>
      map (KeywordAnalyzer.make_match (tbl_name t) (fst c) (snd c)
             (tbl_columns t))
          (filter (where_any (snd c) (tbl_columns t)) (tbl_rows t)) in
    KeywordAnalyzer.keywords (fst out)
      = map (fun c => (fst c, flat_map (fun t => rows_of t c) tables)) tk
    /\ KeywordAnalyzer.raw_data (fst out)
       = flat_map (fun t => flat_map (rows_of t) tk) tables
    /\ snd out = [].
Proof.
  intros tk max_items tables Hnd Hall out rows_of.
  destruct (ka_full_scan_from tk max_items tables
              (KeywordAnalyzer.mkResults (empty_buckets tk) []) [] Hnd Hall
              (empty_buckets_keys tk)) as (Hb & Hr & Hl).
  fold (KeywordAnalyzer.search_keywords tk false max_items tables) in Hb, Hr, Hl.
  fold out in Hb, Hr, Hl. split; [|split; [exact Hr | exact Hl]].
  apply buckets_ext.
  - destruct (ka_search_keywords tk false max_items tables) as [Hk _].
    fold out in Hk. rewrite Hk, map_map. reflexivity.
  - destruct (ka_search_keywords tk false max_items tables) as [Hk _].
    fold out in Hk. now rewrite Hk.
  - intros c Hc.
    destruct (ka_search_keywords tk false max_items tables) as [Hk _].
    fold out in Hk. rewrite Hk in Hc.
    apply in_map_iff in Hc as ([c' ks] & <- & Hin). cbn [fst].
    rewrite (Hb c' ks Hin). cbn [KeywordAnalyzer.keywords].
    rewrite bucket_get_empty. cbn [app].
    now rewrite (bucket_get_map
                   (fun c => flat_map (fun t => rows_of t c) tables) tk c' ks).
Qed.

Lemma X3_full_scan_of_a_readable_store_witness :
  let tk := KeywordAnalyzer.target_keywords in
  let tables := [Sample.item_table; Sample.token_table] in
  NoDup (map fst tk)
  /\ Forall (fun t => tbl_fault t = None) tables
  /\ map (fun cl => (fst cl, map m_table (snd cl)))
       (KeywordAnalyzer.keywords
          (fst (KeywordAnalyzer.search_keywords tk false 1000 tables)))
     = [("authentication", ["ItemTable"; "cursorDiskKV"]);
        ("subscription", ["ItemTable"]); ("ai_features", []);
        ("account_status", []); ("blackbox_specific", []);
        ("usage_limits", [])]
  /\ snd (KeywordAnalyzer.search_keywords tk false 1000 tables) = [].
Proof.
  cbv zeta.
  assert (Hnd : NoDup (map fst KeywordAnalyzer.target_keywords))
    by (apply distinct_NoDup; reflexivity).
  assert (Hall : Forall (fun t => tbl_fault t = None)
                   [Sample.item_table; Sample.token_table])
    by (repeat constructor).
  destruct (X3_full_scan_of_a_readable_store KeywordAnalyzer.target_keywords
              1000 [Sample.item_table; Sample.token_table] Hnd Hall)
    as (Hk & _ & Hl).
  split; [exact Hnd|]. split; [exact Hall|]. split; [|exact Hl].
  rewrite Hk. reflexivity.
Defined.

(** ** The optimized scan of a readable store *)









(** ** What a Match below the high tier cannot hold *)

Lemma dict_set_keys (k : string) (v : Value) (d : Dict) :
  map fst (dict_set k v d)
  = if str_mem k (map fst d) then map fst d else map fst d ++ [k].
Proof.
  induction d as [|[k' v'] d IH]; [reflexivity|].
  cbn [dict_set map fst str_mem existsb]. rewrite (String.eqb_sym k k').
  destruct (String.eqb k' k) eqn:E; cbn [orb map fst]; [reflexivity|].
  rewrite IH. unfold str_mem. now destruct (existsb (String.eqb k) (map fst d)).
Qed.

Lemma dict_set_NoDup (k : string) (v : Value) (d : Dict) :
  NoDup (map fst d) -> NoDup (map fst (dict_set k v d)).
Proof.
  intros H. rewrite dict_set_keys.
  destruct (str_mem k (map fst d)) eqn:E; [assumption|].
  apply NoDup_app; [assumption | repeat constructor; intros [] |].
  intros x Hx [<-|[]]. apply str_mem_In in Hx. congruence.
Qed.

Lemma dict_of_pairs_NoDup (pairs : list (string * Value)) :
  NoDup (map fst (dict_of_pairs pairs)).
Proof.
  unfold dict_of_pairs.
  assert (H : forall d, NoDup (map fst d) ->
            NoDup (map fst (fold_left
                              (fun d kv => dict_set (fst kv) (snd kv) d)
                              pairs d))).
  { induction pairs as [|kv pairs IH]; intros d Hd; [assumption|].
    apply IH. now apply dict_set_NoDup. }
  apply H. constructor.
Qed.

Lemma assoc_set_fresh {A : Type} (k : string) (a : A)
    (d : list (string * A)) :
  ~ In k (map fst d) -> assoc_set k a d = d ++ [(k, a)].
Proof.
  induction d as [|[k' a'] d IH]; simpl; intros H; [reflexivity|].
  destruct (String.eqb k' k) eqn:E.
  - apply String.eqb_eq in E. tauto.
  - rewrite IH by tauto. reflexivity.
Qed.

Lemma assoc_fold_fresh {A B : Type} (key : B -> string) (f : B -> A)
    (l : list B) (acc : list (string * A)) :
  NoDup (map fst acc ++ map key l) ->
  fold_left (fun d x => assoc_set (key x) (f x) d) l acc
  = acc ++ map (fun x => (key x, f x)) l.
Proof.
  revert acc; induction l as [|x l IH]; intros acc Hnd; simpl.
  - now rewrite app_nil_r.
  - simpl in Hnd. rewrite assoc_set_fresh.
    + rewrite IH; [now rewrite <- app_assoc|].
      rewrite map_app, <- app_assoc. exact Hnd.
    + apply NoDup_remove_2 in Hnd. intros Hin. apply Hnd.
      apply in_or_app. now left.
Qed.

Lemma text_fold_grows (data : Dict) (acc x : string) :
  str_in x acc = true ->
  str_in x
    (fold_left
       (fun acc cv =>
          if truthy (snd cv)
          then (acc ++ " " ++ fst cv ++ " " ++ py_str (snd cv))%string
          else acc)
       data acc) = true.
Proof.
  revert acc; induction data as [|[c v] data IH]; intros acc H; [exact H|].
  cbn [fold_left fst snd]. apply IH.
  destruct (truthy v); [now apply str_in_app_l | exact H].
Qed.

Lemma text_fold_contains (data : Dict) (acc col : string) (v : Value) :
  In (col, v) data -> truthy v = true ->
  let text :=
    fold_left
      (fun acc cv =>
         if truthy (snd cv)
         then (acc ++ " " ++ fst cv ++ " " ++ py_str (snd cv))%string
         else acc)
      data acc in
  str_in col text = true /\ str_in (py_str v) text = true.
Proof.
  revert acc; induction data as [|[c w] data IH]; intros acc Hin Ht;
    [destruct Hin|].
  destruct Hin as [E|Hin]; [|now apply IH].
  injection E as -> ->. cbv zeta. cbn [fold_left fst snd]. rewrite Ht.
  split; apply text_fold_grows, str_in_app_r, str_in_app_r.
  - apply str_in_app_l, str_in_refl.
  - apply str_in_app_r, str_in_app_r, str_in_refl.
Qed.

Lemma below_high_has_no_sensitive_field (data : Dict) (col k : string)
    (v : Value) :
  KeywordAnalyzer.determine_sensitivity data <> High ->
  In (col, v) data -> truthy v = true ->
  In k KeywordAnalyzer.high_sensitive ->
  str_in k (lower col) = false /\ str_in k (lower (py_str v)) = false.
Proof.
  intros Hs Hin Ht Hk.
  destruct (text_fold_contains data "" col v Hin Ht) as [Hc Hv].
  apply str_in_lower_mono in Hc. apply str_in_lower_mono in Hv.
  fold (KeywordAnalyzer.all_text data) in Hc, Hv.
  assert (Hno : str_in k (KeywordAnalyzer.all_text data) = false).
  { apply not_true_iff_false. intros E. apply Hs.
    apply (proj1 (determine_sensitivity_tiers data)). eauto. }
  split; apply not_true_iff_false; intros E;
    apply not_true_iff_false in Hno; apply Hno.
  - exact (str_in_trans _ _ _ E Hc).
  - exact (str_in_trans _ _ _ E Hv).
Qed.

Lemma Sensitivity_eqb_eq (a b : Sensitivity) :
  Sensitivity_eqb a b = true <-> a = b.
Proof. destruct a, b; simpl; split; intros H; congruence. Qed.

(** ** The export *)

(** X5.  In the default export (sensitive data not included) of the
    taxonomy analyzer, after any scan and whatever [json.loads] does: a
    Match of tier high is written with its table, category, keywords and
    tier but with the fixed placeholder for data; a Match of a lower tier is
    written with every field, in column order, a text that looks like JSON
    decoded when it parses and kept otherwise; and no field so written has,
    under a value Python treats as true, a high-sensitivity keyword in its
    column name or in its text. *)
Theorem X5_default_export_withholds_sensitive_fields :
  forall (J : Type) (json_loads : string -> option J) (tk : Taxonomy)
         (quick_mode : bool) (max_items : Z) (tables : list Table)
         (cl : string * list Match) (m : Match),
    In cl (KeywordAnalyzer.keywords
             (fst (KeywordAnalyzer.search_keywords tk quick_mode max_items
                     tables))) ->
    In m (snd cl) ->
    let x := Exporter.export_match J json_loads false m in
    Exporter.x_table J x = m_table m
    /\ Exporter.x_category J x = fst cl
    /\ Exporter.x_matched_keywords J x = m_matched_keywords m
    /\ Exporter.x_sensitivity J x = m_sensitivity m
    /\ (m_sensitivity m = High ->
        Exporter.x_data J x = Exporter.filtered_data J)
    /\ (m_sensitivity m <> High ->
        Exporter.x_data J x
        = map (fun cv => (fst cv, Exporter.export_value J json_loads (snd cv)))
              (m_data m)
        /\ forall col v k,
             In (col, v) (m_data m) -> truthy v = true ->
             In k KeywordAnalyzer.high_sensitive ->
             str_in k (lower col) = false
             /\ str_in k (lower (py_str v)) = false).
Proof.
  intros J json_loads tk quick_mode max_items tables cl m Hcl Hm x.
  destruct (ka_bucket_stems tk quick_mode max_items tables cl m Hcl Hm)
    as (t & ks & row & _ & _ & _ & _ & E).
  assert (Hcat : m_category m = fst cl) by now rewrite E.
  assert (Hsens : m_sensitivity m
                  = KeywordAnalyzer.determine_sensitivity (m_data m))
    by now rewrite E.
  assert (Hnd : NoDup (map fst (m_data m)))
    by (rewrite E; apply dict_of_pairs_NoDup).
  split; [reflexivity|]. split; [exact Hcat|]. split; [reflexivity|].
  split; [reflexivity|]. split.
  - intros Hh. unfold x. cbn [Exporter.x_data Exporter.export_match negb andb].
    now rewrite Hh.
  - intros Hh. split.
    + unfold x. cbn [Exporter.x_data Exporter.export_match negb andb].
      assert (Eb : Sensitivity_eqb (m_sensitivity m) High = false).
      { apply not_true_iff_false. now rewrite Sensitivity_eqb_eq. }
      rewrite Eb.
      now rewrite (assoc_fold_fresh fst
                     (fun cv => Exporter.export_value J json_loads (snd cv))
                     (m_data m) []).
    + intros col v k Hin Ht Hk.
      apply (below_high_has_no_sensitive_field (m_data m)); try assumption.
      now rewrite <- Hsens.
Qed.

Lemma X5_default_export_withholds_sensitive_fields_witness :
  let tk := KeywordAnalyzer.target_keywords in
  let res := fst (KeywordAnalyzer.search_keywords tk false 1000
                    [Sample.mixed_table]) in
  let cl := ("subscription",
             bucket_get "subscription" (KeywordAnalyzer.keywords res)) in
  let m := KeywordAnalyzer.make_match "prefs" "subscription"
             ["pro"; "plan"; "subscription"; "trial"; "premium"; "paid";
              "billing"]
             Sample.mixed_columns Sample.mixed_row in
  let x := Exporter.export_match unit (fun _ => None) false m in
  In cl (KeywordAnalyzer.keywords res)
  /\ In m (snd cl)
  /\ m_sensitivity m = Low
  /\ Exporter.x_category unit x = "subscription"
  /\ Exporter.x_data unit x
     = [("name", Exporter.Kept unit (VText "session_plan"));
        ("state", Exporter.Kept unit (VText "active chat"))].
Proof.
  cbv zeta.
  set (res := fst (KeywordAnalyzer.search_keywords
                     KeywordAnalyzer.target_keywords false 1000
                     [Sample.mixed_table])).
  set (cl := ("subscription",
              bucket_get "subscription" (KeywordAnalyzer.keywords res))).
  set (m := KeywordAnalyzer.make_match "prefs" "subscription"
              ["pro"; "plan"; "subscription"; "trial"; "premium"; "paid";
               "billing"]
              Sample.mixed_columns Sample.mixed_row).
  assert (Hcl : In cl (KeywordAnalyzer.keywords res))
    by (vm_compute; right; left; reflexivity).
  assert (Hm : In m (snd cl)) by (vm_compute; left; reflexivity).
  destruct (X5_default_export_withholds_sensitive_fields unit (fun _ => None)
              KeywordAnalyzer.target_keywords false 1000 [Sample.mixed_table]
              cl m Hcl Hm) as (_ & Hc & _ & _ & _ & Hd).
  split; [exact Hcl|]. split; [exact Hm|]. split; [reflexivity|].
  split; [exact Hc|].
  destruct Hd as [Hd _]; [vm_compute; discriminate|].
  rewrite Hd. reflexivity.
Defined.

Lemma detailed_results_fold {J : Type} (json_loads : string -> option J)
    (include_sensitive : bool) (b : Buckets)
    (acc : list (string * list (Exporter.ExportedMatch J))) :
  NoDup (map fst acc ++ map fst b) ->
  fold_left
    (fun detailed cl =>
       match snd cl with
       | [] => detailed
       | _ :: _ =>
           assoc_set (fst cl)
             (map (Exporter.export_match J json_loads include_sensitive)
                  (snd cl))
             detailed
       end)
    b acc
  = acc
    ++ map (fun cl =>
              (fst cl,
               map (Exporter.export_match J json_loads include_sensitive)
                   (snd cl)))
           (filter (fun cl => negb (Nat.eqb (List.length (snd cl)) 0)) b).
Proof.
  revert acc; induction b as [|[c l] b IH]; intros acc Hnd;
    cbn [fold_left filter map fst snd].
  - now rewrite app_nil_r.
  - cbn [map fst] in Hnd. destruct l as [|m l]; cbn [List.length Nat.eqb negb].
    + apply IH. now apply NoDup_remove_1 in Hnd.
    + rewrite assoc_set_fresh.
      * rewrite IH; [cbn [map fst snd]; now rewrite <- app_assoc|].
        rewrite map_app, <- app_assoc. exact Hnd.
      * apply NoDup_remove_2 in Hnd. intros Hin. apply Hnd.
        apply in_or_app. now left.
Qed.

Lemma sum_counts_nonempty {A : Type} (f : Match -> A) (b : Buckets) :
  sum_counts
    (map (fun cx => (fst cx, List.length (snd cx)))
         (map (fun cl => (fst cl, map f (snd cl)))
              (filter (fun cl => negb (Nat.eqb (List.length (snd cl)) 0)) b)))
  = total_len b.
Proof.
  unfold sum_counts, total_len.
  induction b as [|[c l] b IH]; [reflexivity|].
  cbn [filter snd List.length]. destruct l as [|m l].
  - cbn [List.length Nat.eqb negb fold_right snd]. exact IH.
  - cbn [List.length Nat.eqb negb map fold_right fst snd].
    rewrite length_map. cbn [List.length]. now rewrite IH.
Qed.

(** X6.  Over a taxonomy with distinct category names, the export of the
    taxonomy analyzer lists under [detailed_results] every category that
    has Matches, once and in taxonomy order, with one entry per Match of its
    bucket in bucket order, and leaves out the categories without Matches;
    the entries add up to the [total_matches] written in the same file. *)
Theorem X6_export_lists_every_accepted_match :
  forall (J : Type) (json_loads : string -> option J) (tk : Taxonomy)
         (quick_mode : bool) (max_items : Z) (tables : list Table)
         (include_sensitive : bool),
    NoDup (map fst tk) ->
    let res :=
      fst (KeywordAnalyzer.search_keywords tk quick_mode max_items tables) in
    let detailed :=
      Exporter.detailed_results J json_loads include_sensitive res in
    detailed
      = map (fun cl =>
               (fst cl,
                map (Exporter.export_match J json_loads include_sensitive)
                    (snd cl)))
            (filter (fun cl => negb (Nat.eqb (List.length (snd cl)) 0))
                    (KeywordAnalyzer.keywords res))
    /\ sum_counts (map (fun cx => (fst cx, List.length (snd cx))) detailed)
       = KeywordAnalyzer.export_total res.
Proof.
  intros J json_loads tk quick_mode max_items tables include_sensitive Hnd
         res detailed.
  destruct (ka_search_keywords tk quick_mode max_items tables) as [Hk Hp].
  fold res in Hk, Hp.
  assert (E : detailed
              = map (fun cl =>
                       (fst cl,
                        map (Exporter.export_match J json_loads
                               include_sensitive) (snd cl)))
                    (filter (fun cl => negb (Nat.eqb (List.length (snd cl)) 0))
                            (KeywordAnalyzer.keywords res))).
  { unfold detailed, Exporter.detailed_results.
    rewrite detailed_results_fold; [reflexivity|]. cbn [map app].
    now rewrite Hk. }
  split; [exact E|]. rewrite E.
  unfold KeywordAnalyzer.export_total.
  rewrite (Permutation_length Hp), flatten_length.
  apply sum_counts_nonempty.
Qed.

Lemma X6_export_lists_every_accepted_match_witness :
  let tk := KeywordAnalyzer.target_keywords in
  let res := fst (KeywordAnalyzer.search_keywords tk false 1000
                    [Sample.item_table; Sample.token_table]) in
  let detailed := Exporter.detailed_results unit (fun _ => None) false res in
  NoDup (map fst tk)
  /\ map (fun cx => (fst cx, List.length (snd cx))) detailed
     = [("authentication", 2%nat); ("subscription", 1%nat)]
  /\ sum_counts (map (fun cx => (fst cx, List.length (snd cx))) detailed)
     = KeywordAnalyzer.export_total res.
Proof.
  cbv zeta.
  assert (Hnd : NoDup (map fst KeywordAnalyzer.target_keywords))
    by (apply distinct_NoDup; reflexivity).
  destruct (X6_export_lists_every_accepted_match unit (fun _ => None)
              KeywordAnalyzer.target_keywords false 1000
              [Sample.item_table; Sample.token_table] false Hnd)
    as [Hd Hs].
  split; [exact Hnd|]. split; [|exact Hs].
  rewrite Hd. reflexivity.
Defined.

(** ** The category files of the advanced analyzer *)




(** ** The console display *)

Lemma filter_none {A : Type} (f : A -> bool) (l : list A) :
  (forall x, In x l -> f x = false) -> filter f l = [].
Proof.
  induction l as [|x l IH]; intros H; [reflexivity|]. cbn [filter].
  rewrite (H x) by now left. apply IH. intros y Hy. apply H. now right.
Qed.

Lemma count_tier_app (tier : Sensitivity) (l1 l2 : list Match) :
  count_tier tier (l1 ++ l2)
  = (count_tier tier l1 + count_tier tier l2)%nat.
Proof. unfold count_tier. now rewrite filter_app, length_app. Qed.

Lemma count_with_tier (tier tier' : Sensitivity) (ms : list Match) (k : nat) :
  count_tier tier (firstn k (Display.with_tier tier' ms))
  = if Sensitivity_eqb tier' tier
    then Nat.min k (count_tier tier' ms)
    else 0%nat.
Proof.
  unfold count_tier, Display.with_tier.
  destruct (Sensitivity_eqb tier' tier) eqn:E.
  - apply Sensitivity_eqb_eq in E. subst tier'.
    rewrite forallb_filter_id; [apply length_firstn|].
    apply forallb_forall. intros m Hm. apply firstn_In in Hm.
    now apply filter_In in Hm.
  - rewrite filter_none; [reflexivity|].
    intros m Hm. apply firstn_In in Hm. apply filter_In in Hm as [_ Hm].
    apply Sensitivity_eqb_eq in Hm. rewrite Hm. exact E.
Qed.

Lemma tier_partition (ms : list Match) :
  List.length ms
  = (count_tier High ms + count_tier Medium ms + count_tier Low ms)%nat.
Proof.
  unfold count_tier. induction ms as [|m ms IH]; [reflexivity|].
  cbn [filter List.length]. destruct (m_sensitivity m); simpl; lia.
Qed.

(** X8.  The console display of a category picks its items by tier: as
    many Matches of tier high as the limit allows, then Matches of tier
    medium while room is left, then Matches of tier low; each tier in bucket
    order, min(limit, number of Matches) items in all, and the line that
    announces further items appears exactly when some are left out. *)
Theorem X8_display_picks_items_by_tier :
  forall (limit : nat) (matches : list Match),
    let shown := Display.priority_items limit matches in
    let high := count_tier High shown in
    let medium := count_tier Medium shown in
    let low := count_tier Low shown in
    high = Nat.min limit (count_tier High matches)
    /\ medium = Nat.min (limit - high) (count_tier Medium matches)
    /\ low = Nat.min (limit - high - medium) (count_tier Low matches)
    /\ List.length shown = Nat.min limit (List.length matches)
    /\ shown
       = firstn high (Display.with_tier High matches)
         ++ firstn medium (Display.with_tier Medium matches)
         ++ firstn low (Display.with_tier Low matches)
    /\ Display.more_items limit matches
       = if (List.length shown <? List.length matches)%nat
         then Some (List.length matches - List.length shown)%nat
         else None.
Proof.
  intros limit matches shown high medium low.
  set (cH := count_tier High matches).
  set (cM := count_tier Medium matches).
  set (cL := count_tier Low matches).
  assert (Hlen : forall tier k,
            List.length (firstn k (Display.with_tier tier matches))
            = Nat.min k (count_tier tier matches)).
  { intros tier k. rewrite length_firstn. reflexivity. }
  assert (Hshown : shown
            = firstn (Nat.min limit cH) (Display.with_tier High matches)
              ++ firstn (Nat.min (limit - Nat.min limit cH) cM)
                   (Display.with_tier Medium matches)
              ++ firstn (Nat.min (limit - Nat.min limit cH
                                  - Nat.min (limit - Nat.min limit cH) cM) cL)
                   (Display.with_tier Low matches)).
  { unfold shown, Display.priority_items. cbv zeta.
    rewrite length_app, !Hlen. fold cH cM cL.
    assert (Hf : forall tier k,
              firstn (Nat.min k (count_tier tier matches))
                (Display.with_tier tier matches)
              = firstn k (Display.with_tier tier matches)).
    { intros tier k.
      destruct (Nat.le_ge_cases k (count_tier tier matches)) as [H|H].
      - now rewrite Nat.min_l.
      - rewrite Nat.min_r by assumption.
        unfold count_tier, Display.with_tier in *.
        now rewrite firstn_all, firstn_all2. }
    fold cH cM cL in Hf.
    assert (HfH := Hf High). assert (HfM := Hf Medium). assert (HfL := Hf Low).
    fold cH in HfH. fold cM in HfM. fold cL in HfL.
    rewrite HfH, HfM, HfL.
    destruct (Nat.min limit cH + Nat.min (limit - Nat.min limit cH) cM
              <? limit)%nat eqn:E.
    - rewrite <- app_assoc. do 3 f_equal. lia.
    - apply Nat.ltb_ge in E.
      replace (limit - Nat.min limit cH
               - Nat.min (limit - Nat.min limit cH) cM)%nat with 0%nat by lia.
      cbn [firstn]. now rewrite app_nil_r. }
  assert (Hh : high = Nat.min limit cH).
  { unfold high. rewrite Hshown, !count_tier_app, !count_with_tier.
    cbn [Sensitivity_eqb]. fold cH. lia. }
  assert (Hm : medium = Nat.min (limit - high) cM).
  { unfold medium. rewrite Hh, Hshown, !count_tier_app, !count_with_tier.
    cbn [Sensitivity_eqb]. fold cM. lia. }
  assert (Hl : low = Nat.min (limit - high - medium) cL).
  { unfold low. rewrite Hm, Hh, Hshown, !count_tier_app, !count_with_tier.
    cbn [Sensitivity_eqb]. fold cL. lia. }
  assert (Hn : List.length shown = Nat.min limit (List.length matches)).
  { rewrite (tier_partition shown), (tier_partition matches).
    fold high medium low cH cM cL. lia. }
  split; [exact Hh|]. split; [exact Hm|]. split; [exact Hl|].
  split; [exact Hn|]. split.
  - rewrite Hl, Hm, Hh. exact Hshown.
  - unfold Display.more_items. rewrite Hn.
    destruct (limit <? List.length matches)%nat eqn:E.
    + apply Nat.ltb_lt in E.
      assert (E' : (Nat.min limit (List.length matches)
                    <? List.length matches)%nat = true)
        by (apply Nat.ltb_lt; lia).
      rewrite E'. f_equal. lia.
    + apply Nat.ltb_ge in E.
      assert (E' : (Nat.min limit (List.length matches)
                    <? List.length matches)%nat = false)
        by (apply Nat.ltb_ge; lia).
      now rewrite E'.
Qed.

Lemma dict_set_In (k : string) (v : Value) (d : Dict) (k' : string)
    (v' : Value) :
  In (k', v') (dict_set k v d) -> (k', v') = (k, v) \/ In (k', v') d.
Proof.
  induction d as [|[k0 v0] d IH]; cbn [dict_set]; [intros [H|[]]; auto|].
  destruct (String.eqb k0 k) eqn:E.
  - apply String.eqb_eq in E. subst k0. intros [H|H]; [now left|].
    right. now right.
  - intros [H|H]; [right; now left|].
    apply IH in H as [H|H]; [now left | right; now right].
Qed.

Lemma dict_of_pairs_In (pairs : list (string * Value)) (k : string)
    (v : Value) :
  In (k, v) (dict_of_pairs pairs) -> In (k, v) pairs.
Proof.
  unfold dict_of_pairs.
  assert (H : forall d,
            In (k, v) (fold_left (fun d kv => dict_set (fst kv) (snd kv) d)
                         pairs d) ->
            In (k, v) d \/ In (k, v) pairs).
  { induction pairs as [|[k0 v0] pairs IH]; intros d Hin; [now left|].
    cbn [fold_left fst snd] in Hin. apply IH in Hin as [Hin|Hin].
    - apply dict_set_In in Hin as [Hin|Hin]; [right; left; now symmetry|].
      now left.
    - right. now right. }
  intros Hin. apply H in Hin as [[]|Hin]. exact Hin.
Qed.

Lemma any_ext_iff {A B : Type} (f : A -> bool) (g : B -> bool)
    (l : list A) (l' : list B) :
  ((exists x, In x l /\ f x = true) <-> (exists y, In y l' /\ g y = true)) ->
  any f l = any g l'.
Proof.
  intros H. apply eq_true_iff_eq. rewrite !any_exists. exact H.
Qed.

(** X9.  For a Match accepted by the taxonomy analyzer, the console shows
    exactly the fields whose value Python treats as true and holds a
    keyword of the category of the Match, in column order; when the tier of
    the Match is high, a shown text longer than 10 characters is masked and
    a shown text of up to 10 characters is handed to the display
    formatting unmasked. *)
Theorem X9_display_shows_the_fields_with_a_keyword :
  forall (tk : Taxonomy) (quick_mode : bool) (max_items : Z)
         (tables : list Table) (cl : string * list Match) (m : Match),
    In cl (KeywordAnalyzer.keywords
             (fst (KeywordAnalyzer.search_keywords tk quick_mode max_items
                     tables))) ->
    In m (snd cl) ->
    exists keywords,
      In (fst cl, keywords) tk
      /\ Display.shown_fields m
         = map (fun cv =>
                  (fst cv,
                   KeywordAnalyzer.format_value (snd cv) (m_sensitivity m)))
               (filter (fun cv => any (fun k => occurs_in k (snd cv)) keywords)
                       (m_data m))
      /\ (m_sensitivity m = High ->
          forall col shown,
            In (col, shown) (Display.shown_fields m) ->
            exists v,
              In (col, v) (m_data m)
              /\ (((10 < String.length (py_str v))%nat
                   /\ exists text, shown = KeywordAnalyzer.Masked text)
                  \/ ((String.length (py_str v) <= 10)%nat
                      /\ shown = KeywordAnalyzer.Display (py_str v)))).
Proof.
  intros tk quick_mode max_items tables cl m Hcl Hm.
  destruct (ka_bucket_stems tk quick_mode max_items tables cl m Hcl Hm)
    as (t & ks & row & _ & Hks & _ & _ & ->).
  exists ks. split; [exact Hks|].
  destruct (matched_keywords_spec ks (tbl_columns t) row) as (_ & _ & Hin).
  split.
  - unfold Display.shown_fields.
    cbn [m_data m_matched_keywords m_sensitivity KeywordAnalyzer.make_match].
    f_equal. apply filter_ext_in. intros [col v] Hcv. cbn [snd].
    apply dict_of_pairs_In in Hcv.
    destruct (truthy v) eqn:Et; cbn [andb].
    + apply any_ext_iff. split.
      * intros (k & Hk & Hs). apply Hin in Hk as [Hk _].
        exists k. split; [exact Hk|]. unfold occurs_in. now rewrite Et.
      * intros (k & Hk & Ho). exists k. split.
        -- apply (proj2 (Hin k)). split; [exact Hk|]. now exists (col, v).
        -- unfold occurs_in in Ho. now rewrite Et in Ho.
    + symmetry. apply not_true_iff_false. rewrite any_exists.
      intros (k & _ & Ho). unfold occurs_in in Ho. now rewrite Et in Ho.
  - cbn [m_sensitivity KeywordAnalyzer.make_match]. intros Hh col shown Hs.
    unfold Display.shown_fields in Hs.
    cbn [m_data m_matched_keywords m_sensitivity KeywordAnalyzer.make_match]
      in Hs.
    apply in_map_iff in Hs as ([c v] & E & Hf). cbn [fst snd] in E.
    injection E as -> <-. apply filter_In in Hf as [Hcv Hf]. cbn [snd] in Hf.
    apply andb_true_iff in Hf as [Ht _].
    exists v. split; [exact Hcv|]. rewrite Hh.
    assert (Hv : v <> VNull) by (intros ->; discriminate).
    destruct (format_value_high_bands v) as (_ & H20 & H10 & H0).
    destruct (Nat.le_gt_cases (String.length (py_str v)) 10) as [Hle|Hgt].
    + right. split; [exact Hle | now apply H0].
    + left. split; [exact Hgt|].
      destruct (Nat.le_gt_cases (String.length (py_str v)) 20) as [Hle|Hgt'].
      * eexists. now apply H10.
      * eexists. now apply H20.
Qed.

Lemma X9_display_shows_the_fields_with_a_keyword_witness :
  let tk := KeywordAnalyzer.target_keywords in
  let res := fst (KeywordAnalyzer.search_keywords tk false 1000
                    [Sample.item_table]) in
  let cl := ("authentication",
             bucket_get "authentication" (KeywordAnalyzer.keywords res)) in
  let m := KeywordAnalyzer.make_match "ItemTable" "authentication"
             ["token"; "auth"; "login"; "logout"; "credential"; "password";
              "session"]
             Sample.item_columns Sample.token_row in
  In cl (KeywordAnalyzer.keywords res)
  /\ In m (snd cl)
  /\ Display.shown_fields m
     = [("key", KeywordAnalyzer.Display "auth_token")]
  /\ exists keywords,
       In ("authentication", keywords) tk
       /\ Display.shown_fields m
          = map (fun cv =>
                   (fst cv,
                    KeywordAnalyzer.format_value (snd cv) (m_sensitivity m)))
                (filter (fun cv => any (fun k => occurs_in k (snd cv)) keywords)
                        (m_data m)).
Proof.
  cbv zeta.
  set (res := fst (KeywordAnalyzer.search_keywords
                     KeywordAnalyzer.target_keywords false 1000
                     [Sample.item_table])).
  set (cl := ("authentication",
              bucket_get "authentication" (KeywordAnalyzer.keywords res))).
  set (m := KeywordAnalyzer.make_match "ItemTable" "authentication"
              ["token"; "auth"; "login"; "logout"; "credential"; "password";
               "session"]
              Sample.item_columns Sample.token_row).
  assert (Hcl : In cl (KeywordAnalyzer.keywords res))
    by (vm_compute; left; reflexivity).
  assert (Hm : In m (snd cl)) by (vm_compute; left; reflexivity).
  destruct (X9_display_shows_the_fields_with_a_keyword
              KeywordAnalyzer.target_keywords false 1000 [Sample.item_table]
              cl m Hcl Hm) as (keywords & Hk & Hs & _).
  split; [exact Hcl|]. split; [exact Hm|]. split; [reflexivity|].
  exists keywords. split; [exact Hk | exact Hs].
Defined.

(** ** The length of what is displayed *)

Lemma take_length (n : nat) (s : string) :
  String.length (take n s) = Nat.min n (String.length s).
Proof.
  unfold take. revert n; induction s as [|a s IH]; intros [|n]; simpl;
    try reflexivity.
  now rewrite IH.
Qed.

Lemma display_text_bound (json_pretty : string -> option string)
    (max_length : nat) (value_str : string) :
  (String.length (Formatting.display_text json_pretty max_length value_str)
   <= max_length * 3 + 29)%nat.
Proof.
  unfold Formatting.display_text.
  assert (Hplain :
    (String.length
       (if (max_length <? String.length value_str)%nat
        then (take max_length value_str ++ Formatting.cut_marker)%string
        else value_str)
     <= max_length * 3 + 29)%nat).
  { destruct (max_length <? String.length value_str)%nat eqn:E.
    - rewrite string_length_app, take_length.
      change (String.length Formatting.cut_marker) with 15%nat. lia.
    - apply Nat.ltb_ge in E. lia. }
  destruct (looks_like_json value_str); [|exact Hplain].
  destruct (json_pretty value_str) as [formatted|]; [|exact Hplain].
  destruct (max_length * 3 <? String.length formatted)%nat eqn:E.
  - rewrite string_length_app, take_length.
    change (String.length Formatting.json_cut_marker) with 29%nat. lia.
  - apply Nat.ltb_ge in E. lia.
Qed.

(** X10.  Whatever the value, its tier and the behaviour of the [json]
    module, the text that [_format_value] returns for the console is
    bounded: at most 629 characters in the taxonomy analyzer and at most
    3 * max_length + 29 in the flexible analyzer.  A text of at most
    max_length characters that does not look like JSON is returned as it
    is, and a longer one is cut to its first max_length characters followed
    by the cut marker. *)
Theorem X10_displayed_values_are_bounded :
  forall (json_pretty : string -> option string) (value : Value)
         (sensitivity : Sensitivity) (max_length : nat),
    (String.length (Formatting.format_value json_pretty value sensitivity)
     <= 629)%nat
    /\ (String.length
          (Formatting.flexible_format_value json_pretty value max_length)
        <= max_length * 3 + 29)%nat
    /\ (forall text,
          looks_like_json text = false ->
          Formatting.flexible_format_value json_pretty (VText text) max_length
          = if (max_length <? String.length text)%nat
            then (take max_length text ++ " ... [DIPOTONG]")%string
            else text).
Proof.
  intros json_pretty value sensitivity max_length. split; [|split].
  - unfold Formatting.format_value, KeywordAnalyzer.format_value.
    destruct (is_none value); [simpl; lia|].
    assert (Hd := display_text_bound json_pretty 200 (py_str value)).
    destruct sensitivity; try (simpl in Hd |- *; lia).
    destruct (20 <? _)%nat.
    + rewrite !string_length_app, take_length. unfold take_last.
      assert (H5 : (String.length
                      (substring (String.length (py_str value) - 5) 5
                         (py_str value)) <= 5)%nat).
      { clear. generalize (String.length (py_str value) - 5)%nat.
        induction (py_str value) as [|a s IH]; intros [|n]; simpl; try lia.
        - assert (H := take_length 4 s). unfold take in H. rewrite H. lia.
        - apply IH. }
      simpl String.length at 2. lia.
    + destruct (10 <? _)%nat.
      * rewrite string_length_app, take_length. simpl String.length at 2. lia.
      * simpl in Hd |- *. lia.
  - unfold Formatting.flexible_format_value.
    destruct (is_none value); [simpl; lia|]. apply display_text_bound.
  - intros text Hj. unfold Formatting.flexible_format_value.
    cbn [is_none py_str]. unfold Formatting.display_text. now rewrite Hj.
Qed.

(** ** The flexible analyzer: its counts *)

Lemma table_count_app (name : string) (a b : list Flexible.FlexMatch) :
  table_count name (a ++ b) = (table_count name a + table_count name b)%nat.
Proof.
  unfold table_count. now rewrite filter_app, length_app.
Qed.

Lemma table_count_all (name : string) (ms : list Flexible.FlexMatch) :
  (forall m, In m ms -> Flexible.f_table m = name) ->
  table_count name ms = List.length ms.
Proof.
  unfold table_count. induction ms as [|m ms IH]; intros H; [reflexivity|].
  cbn [filter]. rewrite (H m (or_introl eq_refl)), String.eqb_refl.
  cbn [List.length]. f_equal. apply IH. intros m' Hm'. apply H. now right.
Qed.

Lemma table_count_none (name : string) (ms : list Flexible.FlexMatch) :
  (forall m, In m ms -> Flexible.f_table m <> name) ->
  table_count name ms = 0%nat.
Proof.
  unfold table_count. induction ms as [|m ms IH]; intros H; [reflexivity|].
  cbn [filter]. destruct (String.eqb_spec (Flexible.f_table m) name) as [E|_].
  - exfalso. exact (H m (or_introl eq_refl) E).
  - apply IH. intros m' Hm'. apply H. now right.
Qed.

Lemma list_sum_snd_app (a b : list (string * nat)) :
  list_sum (map snd (a ++ b))
  = (list_sum (map snd a) + list_sum (map snd b))%nat.
Proof.
  now rewrite map_app, list_sum_app.
Qed.

Lemma counts_agree_more (res : Flexible.Results) (seen more : list string) :
  counts_agree res seen -> counts_agree res (seen ++ more).
Proof.
  intros (H1 & H2 & H3 & H4 & H5). repeat (split; [assumption|]).
  split; [|assumption]. intros name n Hin.
  destruct (H4 name n Hin) as (Hn & Hs & Hc). split; [exact Hn|].
  split; [|exact Hc]. apply in_or_app. now left.
Qed.

Lemma counts_agree_step (keywords : list string) (max_results : Z)
    (t : Table) (res : Flexible.Results) (seen : list string) :
  counts_agree res seen ->
  ~ In (tbl_name t) seen ->
  counts_agree
    (match fst (Flexible.search_in_table keywords max_results t) with
     | [] => res
     | _ :: _ =>
         {| Flexible.total_matches :=
              Flexible.total_matches res
              + List.length
                  (fst (Flexible.search_in_table keywords max_results t));
            Flexible.matches_by_table :=
              Flexible.matches_by_table res
              ++ [(tbl_name t,
                   List.length
                     (fst (Flexible.search_in_table keywords max_results t)))];
            Flexible.detailed_matches :=
              Flexible.detailed_matches res
              ++ fst (Flexible.search_in_table keywords max_results t) |}
     end)
    (seen ++ [tbl_name t]).
Proof.
  intros Hinv Hfresh.
  assert (Hname : forall m,
            In m (fst (Flexible.search_in_table keywords max_results t)) ->
            Flexible.f_table m = tbl_name t).
  { intros m Hm.
    apply flexible_search_in_table_In in Hm as (row & _ & _ & ->).
    reflexivity. }
  destruct (fst (Flexible.search_in_table keywords max_results t))
    as [|m0 ms] eqn:E; [now apply counts_agree_more|].
  destruct Hinv as (H1 & H2 & H3 & H4 & H5).
  assert (Hold : forall m, In m (Flexible.detailed_matches res) ->
                           Flexible.f_table m <> tbl_name t).
  { intros m Hm Heq. apply H5 in Hm. apply in_map_iff in Hm as ([k n] & Hk & Hin).
    cbn [fst] in Hk. subst k. destruct (H4 _ _ Hin) as (_ & Hs & _).
    rewrite Heq in Hs. exact (Hfresh Hs). }
  unfold counts_agree.
  cbn [Flexible.total_matches Flexible.matches_by_table
       Flexible.detailed_matches].
  split; [rewrite length_app; lia|].
  split.
  { rewrite list_sum_snd_app.
    change (list_sum (map snd [(tbl_name t, List.length (m0 :: ms))]))
      with (List.length (m0 :: ms) + 0)%nat. lia. }
  split.
  { rewrite map_app. cbn [map fst]. apply NoDup_app; [exact H3| |].
    - constructor; [intros []|constructor].
    - intros name Hin [<-|[]].
      apply in_map_iff in Hin as ([k n] & Hk & Hin). cbn [fst] in Hk. subst k.
      destruct (H4 _ _ Hin) as (_ & Hs & _). exact (Hfresh Hs). }
  split.
  - intros name n Hin. apply in_app_or in Hin as [Hin|[Heq|[]]].
    + destruct (H4 _ _ Hin) as (Hn & Hs & Hc). split; [exact Hn|].
      split; [apply in_or_app; now left|].
      rewrite table_count_app, <- Hc.
      rewrite (table_count_none name (m0 :: ms)); [lia|].
      intros m Hm Heq. rewrite (Hname m Hm) in Heq. subst name.
      exact (Hfresh Hs).
    + injection Heq as <- <-. split; [cbn [List.length]; lia|].
      split; [apply in_or_app; right; now left|].
      rewrite table_count_app, (table_count_none _ _ Hold).
      now rewrite (table_count_all _ _ Hname).
  - intros m Hm. rewrite map_app. apply in_or_app.
    apply in_app_or in Hm as [Hm|Hm]; [left; now apply H5|].
    right. cbn [map fst]. left. symmetry. now apply Hname.
Qed.

Lemma flexible_scan_counts (keywords : list string) (max_results : Z)
    (tables : list Table) :
  forall (res : Flexible.Results) (log : list Event) (seen : list string),
    counts_agree res seen ->
    NoDup (seen ++ map tbl_name tables) ->
    counts_agree
      (fst (Flexible.search_tables keywords max_results tables res log))
      (seen ++ map tbl_name tables).
Proof.
  induction tables as [|t rest IH]; intros res log seen Hinv Hnd.
  - cbn [Flexible.search_tables fst map]. now apply counts_agree_more.
  - cbn [Flexible.search_tables].
    assert (Hfresh : ~ In (tbl_name t) seen).
    { cbn [map] in Hnd. apply NoDup_remove_2 in Hnd. intros Hs. apply Hnd.
      apply in_or_app. now left. }
    assert (Hstep := counts_agree_step keywords max_results t res seen
                       Hinv Hfresh).
    destruct (Flexible.search_in_table keywords max_results t)
      as [table_matches events] eqn:E. cbn [fst] in Hstep.
    set (res' := match table_matches with [] => res | _ :: _ => _ end) in *.
    replace (seen ++ map tbl_name (t :: rest))
      with ((seen ++ [tbl_name t]) ++ map tbl_name rest)
      by (cbn [map]; now rewrite <- app_assoc).
    destruct (max_results <=? Z.of_nat (Flexible.total_matches res'))%Z.
    + cbn [fst]. now apply counts_agree_more.
    + apply IH; [exact Hstep|]. rewrite <- app_assoc. exact Hnd.
Qed.

(** X11.  After a scan of tables with distinct names by the flexible
    analyzer, the entries of its results agree: [total_matches] is the
    length of [detailed_matches] and the sum of the counts in
    [matches_by_table]; every table listed there is one of the scanned
    tables, is listed once, with a count of at least one that is the number
    of its Matches in [detailed_matches]; and the table of every Match is
    listed. *)
Theorem X11_flexible_counts_agree :
  forall (keywords : list string) (max_results : Z) (tables : list Table),
    NoDup (map tbl_name tables) ->
    counts_agree
      (fst (Flexible.search_keywords keywords max_results tables))
      (map tbl_name tables).
Proof.
  intros keywords max_results tables Hnd. unfold Flexible.search_keywords.
  apply (flexible_scan_counts keywords max_results tables _ [] []);
    [|exact Hnd].
  unfold counts_agree.
  cbn [Flexible.total_matches Flexible.matches_by_table
       Flexible.detailed_matches map List.length list_sum].
  repeat split; try constructor; intros; contradiction.
Qed.

Lemma X11_flexible_counts_agree_witness :
  NoDup (map tbl_name [Sample.one_token; Sample.two_tokens])
  /\ counts_agree
       (fst (Flexible.search_keywords ["token"] 1000
               [Sample.one_token; Sample.two_tokens]))
       ["first"; "second"]
  /\ Flexible.matches_by_table
       (fst (Flexible.search_keywords ["token"] 1000
               [Sample.one_token; Sample.two_tokens]))
     = [("first", 1%nat); ("second", 2%nat)].
Proof.
  assert (Hnd : NoDup (map tbl_name [Sample.one_token; Sample.two_tokens])).
  { cbn [map tbl_name Sample.one_token Sample.two_tokens].
    constructor; [intros [H|[]]; discriminate H|].
    constructor; [intros []|constructor]. }
  split; [exact Hnd|]. split; [|reflexivity].
  exact (X11_flexible_counts_agree ["token"] 1000
           [Sample.one_token; Sample.two_tokens] Hnd).
Defined.

(** ** The flexible analyzer: what it displays *)

Lemma count_of_assoc_set (table name : string) (n : nat)
    (counts : list (string * nat)) :
  count_of name (assoc_set table n counts)
  = if String.eqb table name then n else count_of name counts.
Proof.
  induction counts as [|[k c] counts IH].
  - cbn [assoc_set count_of].
    now destruct (String.eqb table name).
  - cbn [assoc_set]. destruct (String.eqb_spec k table) as [->|Hk].
    + cbn [count_of]. now destruct (String.eqb table name).
    + cbn [count_of]. rewrite IH.
      destruct (String.eqb_spec k name) as [->|Hn]; [|reflexivity].
      destruct (String.eqb_spec table name) as [->|_]; [|reflexivity].
      now contradiction Hk.
Qed.

Lemma sum_assoc_set (table : string) (n : nat)
    (counts : list (string * nat)) :
  (list_sum (map snd (assoc_set table n counts))
   + count_of table counts
   = list_sum (map snd counts) + n)%nat.
Proof.
  induction counts as [|[k c] counts IH].
  - cbn [assoc_set count_of map snd list_sum fold_right]. lia.
  - cbn [assoc_set count_of].
    destruct (String.eqb k table).
    + change (list_sum (map snd ((k, n) :: counts)))
        with (n + list_sum (map snd counts))%nat.
      change (list_sum (map snd ((k, c) :: counts)))
        with (c + list_sum (map snd counts))%nat. lia.
    + change (list_sum (map snd ((k, c) :: assoc_set table n counts)))
        with (c + list_sum (map snd (assoc_set table n counts)))%nat.
      change (list_sum (map snd ((k, c) :: counts)))
        with (c + list_sum (map snd counts))%nat. lia.
Qed.

Lemma table_count_cons (name : string) (m : Flexible.FlexMatch)
    (ms : list Flexible.FlexMatch) :
  table_count name (m :: ms)
  = ((if String.eqb (Flexible.f_table m) name then 1 else 0)
     + table_count name ms)%nat.
Proof.
  unfold table_count. cbn [filter].
  now destruct (String.eqb (Flexible.f_table m) name).
Qed.

Lemma display_loop_spec (matches : list Flexible.FlexMatch) :
  forall counts : list (string * nat),
    (forall m, In m (fst (FlexibleDisplay.display_loop matches counts)) ->
               In m matches)
    /\ (forall name,
          table_count name (fst (FlexibleDisplay.display_loop matches counts))
          = Nat.min (5 - count_of name counts)
                    (table_count name matches))
    /\ list_sum (map snd (snd (FlexibleDisplay.display_loop matches counts)))
       = (list_sum (map snd counts)
          + List.length (fst (FlexibleDisplay.display_loop matches counts)))%nat.
Proof.
  induction matches as [|m rest IH]; intros counts.
  - cbn [FlexibleDisplay.display_loop fst snd List.length].
    split; [intros m []|]. split; [|lia].
    intros name. unfold table_count. cbn [filter List.length]. lia.
  - cbn [FlexibleDisplay.display_loop].
    destruct (5 <=? count_of (Flexible.f_table m) counts)%nat
      eqn:E5.
    + apply Nat.leb_le in E5. destruct (IH counts) as (Hin & Hcount & Hsum).
      split; [intros m' Hm'; right; now apply Hin|]. split; [|exact Hsum].
      intros name. rewrite Hcount, table_count_cons.
      destruct (String.eqb_spec (Flexible.f_table m) name) as [<-|_]; lia.
    + apply Nat.leb_gt in E5.
      set (counts' := assoc_set (Flexible.f_table m)
                        (count_of (Flexible.f_table m) counts
                         + 1)%nat counts).
      destruct (IH counts') as (Hin & Hcount & Hsum).
      destruct (FlexibleDisplay.display_loop rest counts')
        as [shown final] eqn:E. cbn [fst snd] in *.
      split; [intros m' [<-|Hm']; [now left|right; now apply Hin]|].
      split.
      * intros name. rewrite !table_count_cons, Hcount. unfold counts'.
        rewrite count_of_assoc_set.
        destruct (String.eqb_spec (Flexible.f_table m) name) as [<-|_]; lia.
      * rewrite Hsum. cbn [List.length].
        assert (Hs := sum_assoc_set (Flexible.f_table m)
                        (count_of (Flexible.f_table m) counts
                         + 1)%nat counts).
        fold counts' in Hs. lia.
Qed.

Lemma length_by_table (names : list string) :
  NoDup names ->
  forall ms : list Flexible.FlexMatch,
    (forall m, In m ms -> In (Flexible.f_table m) names) ->
    List.length ms = list_sum (map (fun name => table_count name ms) names).
Proof.
  induction 1 as [|name names Hfresh Hnd IH]; intros ms Hall.
  - destruct ms as [|m ms]; [reflexivity|].
    destruct (Hall m (or_introl eq_refl)).
  - cbn [map].
    change (list_sum (table_count name ms
                      :: map (fun name0 => table_count name0 ms) names))
      with (table_count name ms
            + list_sum (map (fun name0 => table_count name0 ms) names))%nat.
    assert (Hrest :
      list_sum (map (fun name0 => table_count name0 ms) names)
      = list_sum
          (map (fun name0 =>
                  table_count name0
                    (filter (fun m => negb (String.eqb (Flexible.f_table m)
                                                       name)) ms))
               names)).
    { f_equal. apply map_ext_in. intros name0 Hin0. unfold table_count.
      f_equal. clear - Hin0 Hfresh. induction ms as [|m ms IHm];
        [reflexivity|]. cbn [filter].
      destruct (String.eqb_spec (Flexible.f_table m) name) as [E|E];
        cbn [negb].
      - destruct (String.eqb_spec (Flexible.f_table m) name0) as [E0|_];
          [|exact IHm]. exfalso. apply Hfresh. now rewrite <- E, E0.
      - cbn [filter]. destruct (String.eqb (Flexible.f_table m) name0);
          [now f_equal|exact IHm]. }
    rewrite Hrest, <- IH.
    + unfold table_count. clear. induction ms as [|m ms IHm]; [reflexivity|].
      cbn [filter List.length].
      destruct (String.eqb (Flexible.f_table m) name); cbn [negb List.length];
        lia.
    + intros m Hm. apply filter_In in Hm as [Hm Hneq].
      destruct (Hall m Hm) as [Heq|Hin]; [|exact Hin].
      rewrite Heq, String.eqb_refl in Hneq. discriminate Hneq.
Qed.

Lemma sum_min_five (counts : list (string * nat)) :
  (list_sum (map (fun e => Nat.min 5 (snd e)) counts)
   <= list_sum (map snd counts))%nat
  /\ (list_sum (map snd counts)
      <= list_sum (map (fun e => Nat.min 5 (snd e)) counts)
      <-> forall name n, In (name, n) counts -> n <= 5)%nat.
Proof.
  induction counts as [|[k c] counts [IH1 IH2]].
  - split; [cbn; lia|]. split; [intros _ name n []|cbn; lia].
  - change (list_sum (map (fun e => Nat.min 5 (snd e)) ((k, c) :: counts)))
      with (Nat.min 5 c
            + list_sum (map (fun e => Nat.min 5 (snd e)) counts))%nat.
    change (list_sum (map snd ((k, c) :: counts)))
      with (c + list_sum (map snd counts))%nat.
    split; [lia|]. split.
    + intros Hle name n [Heq|Hin].
      * injection Heq as <- <-. lia.
      * apply (proj1 IH2) with (name := name); [lia|exact Hin].
    + intros Hall.
      assert (Hc : (c <= 5)%nat) by (apply (Hall k); now left).
      assert (Hr : (list_sum (map snd counts)
                    <= list_sum (map (fun e => Nat.min 5 (snd e)) counts))%nat).
      { apply (proj2 IH2). intros name n Hin. apply (Hall name). now right. }
      lia.
Qed.

(** X12.  What the flexible analyzer displays after a scan of tables with
    distinct names: nothing when there is no Match; otherwise Matches of
    [detailed_matches] only, and of every table listed in
    [matches_by_table] with count n exactly min(5, n) of them.  The closing
    line gives [total_matches] minus the number of Matches displayed, and it
    is left out exactly when no table has more than five Matches. *)
Theorem X12_flexible_display_shows_five_per_table :
  forall (keywords : list string) (max_results : Z) (tables : list Table),
    NoDup (map tbl_name tables) ->
    let res := fst (Flexible.search_keywords keywords max_results tables) in
    match FlexibleDisplay.display_results res with
    | None => Flexible.detailed_matches res = []
    | Some (shown, remaining) =>
        (forall m, In m shown -> In m (Flexible.detailed_matches res))
        /\ (forall name n,
              In (name, n) (Flexible.matches_by_table res) ->
              table_count name shown = Nat.min 5 n)
        /\ List.length shown
           = list_sum (map (fun e => Nat.min 5 (snd e))
                           (Flexible.matches_by_table res))
        /\ remaining
           = (if (List.length shown <? Flexible.total_matches res)%nat
              then Some (Flexible.total_matches res - List.length shown)%nat
              else None)
        /\ (remaining = None
            <-> forall name n,
                  In (name, n) (Flexible.matches_by_table res) ->
                  (n <= 5)%nat)
    end.
Proof.
  intros keywords max_results tables Hnd res.
  destruct (flexible_scan_counts keywords max_results tables
              {| Flexible.total_matches := 0;
                 Flexible.matches_by_table := [];
                 Flexible.detailed_matches := [] |} [] [])
    as (H1 & H2 & H3 & H4 & H5).
  { unfold counts_agree.
    cbn [Flexible.total_matches Flexible.matches_by_table
         Flexible.detailed_matches map List.length list_sum].
    repeat split; try constructor; intros; contradiction. }
  { exact Hnd. }
  fold (Flexible.search_keywords keywords max_results tables) in H1, H2, H3,
    H4, H5. fold res in H1, H2, H3, H4, H5.
  unfold FlexibleDisplay.display_results.
  destruct (Flexible.total_matches res =? 0)%nat eqn:E0.
  { apply Nat.eqb_eq in E0. rewrite E0 in H1.
    now destruct (Flexible.detailed_matches res). }
  destruct (display_loop_spec (Flexible.detailed_matches res) [])
    as (Hin & Hcount & Hsum).
  destruct (FlexibleDisplay.display_loop (Flexible.detailed_matches res) [])
    as [shown counts] eqn:E. cbn [fst snd] in Hin, Hcount, Hsum.
  change (list_sum (map snd [])) with 0%nat in Hsum. cbn [Nat.add] in Hsum.
  assert (Hper : forall name n,
            In (name, n) (Flexible.matches_by_table res) ->
            table_count name shown = Nat.min 5 n).
  { intros name n Hn. rewrite Hcount. cbn [count_of].
    destruct (H4 name n Hn) as (_ & _ & ->). f_equal. }
  assert (Hlen : List.length shown
                 = list_sum (map (fun e => Nat.min 5 (snd e))
                                 (Flexible.matches_by_table res))).
  { rewrite (length_by_table (map fst (Flexible.matches_by_table res)) H3
               shown).
    - rewrite map_map. f_equal. apply map_ext_in. intros [name n] Hn.
      cbn [fst snd]. now apply Hper.
    - intros m Hm. apply H5. now apply Hin. }
  split; [exact Hin|]. split; [exact Hper|]. split; [exact Hlen|].
  rewrite Hsum. split; [reflexivity|].
  destruct (sum_min_five (Flexible.matches_by_table res)) as [Hle Hiff].
  rewrite <- Hlen, <- H2 in Hle, Hiff.
  destruct (List.length shown <? Flexible.total_matches res)%nat eqn:El.
  - apply Nat.ltb_lt in El. split; [discriminate|].
    intros Hall. apply (proj2 Hiff) in Hall. lia.
  - apply Nat.ltb_ge in El. split; [|reflexivity].
    intros _. now apply (proj1 Hiff).
Qed.

Lemma X12_flexible_display_shows_five_per_table_witness :
  let tables :=
    [mkTable "many" Sample.item_columns (repeat Sample.token_row 7) None;
     Sample.one_token] in
  let res := fst (Flexible.search_keywords ["token"] 1000 tables) in
  NoDup (map tbl_name tables)
  /\ exists shown,
       FlexibleDisplay.display_results res = Some (shown, Some 2%nat)
       /\ List.length shown = 6%nat
       /\ table_count "many" shown = 5%nat.
Proof.
  cbv zeta.
  set (tables :=
         [mkTable "many" Sample.item_columns (repeat Sample.token_row 7) None;
          Sample.one_token]).
  assert (Hnd : NoDup (map tbl_name tables)).
  { cbn [map tbl_name tables Sample.one_token].
    constructor; [intros [H|[]]; discriminate H|].
    constructor; [intros []|constructor]. }
  split; [exact Hnd|].
  assert (H := X12_flexible_display_shows_five_per_table ["token"] 1000 tables
                 Hnd).
  cbv zeta in H.
  destruct (FlexibleDisplay.display_results
              (fst (Flexible.search_keywords ["token"] 1000 tables)))
    as [[shown remaining]|].
  - destruct H as (_ & Hper & Hlen & Hrem & _). exists shown.
    assert (H5 := Hper "many" 7%nat (or_introl eq_refl)).
    rewrite Hlen in Hrem. vm_compute in Hlen. vm_compute in Hrem.
    subst remaining. split; [reflexivity|]. split; [exact Hlen|exact H5].
  - vm_compute in H. discriminate H.
Defined.

(** ** The keywords of a run *)

Lemma lstrip_length (s : string) :
  (String.length (lstrip s) <= String.length s)%nat.
Proof.
  induction s as [|c s IH]; [apply Nat.le_refl|]. cbn [lstrip].
  destruct (is_space c); cbn [String.length]; lia.
Qed.

Lemma rstrip_length (s : string) :
  (String.length (rstrip s) <= String.length s)%nat.
Proof.
  induction s as [|c s IH]; [apply Nat.le_refl|]. cbn [rstrip].
  destruct (rstrip s); [destruct (is_space c)|]; cbn [String.length] in *; lia.
Qed.

Lemma lstrip_fixed (s : string) :
  (String.length s <= String.length (lstrip s))%nat -> lstrip s = s.
Proof.
  destruct s as [|c s]; [reflexivity|]. cbn [lstrip].
  destruct (is_space c); [|reflexivity]. intros H.
  assert (H' := lstrip_length s). cbn [String.length] in H. lia.
Qed.

Lemma strip_fixed (s : string) :
  strip s = s -> lstrip s = s /\ rstrip s = s.
Proof.
  unfold strip. intros H.
  assert (Hl : lstrip s = s).
  { apply lstrip_fixed. rewrite <- H at 1. apply rstrip_length. }
  split; [exact Hl|]. now rewrite Hl in H.
Qed.

Lemma lstrip_head (s : string) :
  match lstrip s with
  | EmptyString => True
  | String c _ => is_space c = false
  end.
Proof.
  induction s as [|c s IH]; [exact I|]. cbn [lstrip].
  destruct (is_space c) eqn:E; [exact IH|exact E].
Qed.

Lemma rstrip_head (c : ascii) (s : string) :
  is_space c = false -> exists r, rstrip (String c s) = String c r.
Proof.
  intros Hc. cbn [rstrip]. destruct (rstrip s) as [|c' r'].
  - rewrite Hc. now eexists.
  - now eexists.
Qed.

Lemma rstrip_idempotent (s : string) : rstrip (rstrip s) = rstrip s.
Proof.
  induction s as [|c s IH]; [reflexivity|]. cbn [rstrip].
  destruct (rstrip s) as [|c' r'] eqn:E.
  - destruct (is_space c) eqn:Ec; [reflexivity|]. cbn [rstrip]. now rewrite Ec.
  - cbn [rstrip]. cbn [rstrip] in IH.
    destruct (match rstrip r' with
              | EmptyString =>
                  if is_space c' then EmptyString else String c' EmptyString
              | String a s0 => String c' (String a s0)
              end) as [|c2 r2]; [discriminate IH|]. now rewrite IH.
Qed.

Lemma strip_idempotent (s : string) : strip (strip s) = strip s.
Proof.
  unfold strip.
  assert (Hl : lstrip (rstrip (lstrip s)) = rstrip (lstrip s)).
  { assert (Hh := lstrip_head s). destruct (lstrip s) as [|c r];
      [reflexivity|].
    destruct (rstrip_head c r Hh) as [r' ->]. cbn [lstrip]. now rewrite Hh. }
  rewrite Hl. apply rstrip_idempotent.
Qed.

Lemma lstrip_chars (s : string) (c : ascii) :
  In c (list_ascii_of_string (lstrip s)) -> In c (list_ascii_of_string s).
Proof.
  induction s as [|a s IH]; [intros []|]. cbn [lstrip].
  destruct (is_space a); [|trivial]. intros H. right. now apply IH.
Qed.

Lemma rstrip_chars (s : string) (c : ascii) :
  In c (list_ascii_of_string (rstrip s)) -> In c (list_ascii_of_string s).
Proof.
  induction s as [|a s IH]; [intros []|]. cbn [rstrip].
  destruct (rstrip s) as [|a' r'].
  - destruct (is_space a); [intros []|]. intros [<-|[]]. now left.
  - intros [<-|H]; [now left|]. right. now apply IH.
Qed.

Lemma strip_chars (s : string) (c : ascii) :
  In c (list_ascii_of_string (strip s)) -> In c (list_ascii_of_string s).
Proof.
  unfold strip. intros H. now apply lstrip_chars, rstrip_chars.
Qed.

Lemma split_commas_nonempty (s : string) : KeywordInput.split_commas s <> [].
Proof.
  destruct s as [|c s]; [discriminate|]. cbn [KeywordInput.split_commas].
  destruct (Ascii.eqb c KeywordInput.comma); [discriminate|].
  destruct (KeywordInput.split_commas s); discriminate.
Qed.

Lemma split_commas_free (s word : string) :
  In word (KeywordInput.split_commas s) ->
  ~ In KeywordInput.comma (list_ascii_of_string word).
Proof.
  revert word; induction s as [|c s IH]; intros word.
  - intros [<-|[]] [].
  - cbn [KeywordInput.split_commas].
    destruct (Ascii.eqb_spec c KeywordInput.comma) as [->|Hc].
    + intros [<-|H]; [intros []|now apply IH].
    + destruct (KeywordInput.split_commas s) as [|w ws] eqn:E.
      * intros [<-|[]] [H|[]]. now apply Hc.
      * intros [<-|H].
        -- intros [Hin|Hin]; [now apply Hc|].
           apply (IH w); [now left|exact Hin].
        -- apply IH. now right.
Qed.

Lemma split_commas_word (word : string) :
  ~ In KeywordInput.comma (list_ascii_of_string word) ->
  KeywordInput.split_commas word = [word].
Proof.
  induction word as [|c s IH]; [reflexivity|]. intros H.
  cbn [KeywordInput.split_commas].
  destruct (Ascii.eqb_spec c KeywordInput.comma) as [->|_].
  - exfalso. apply H. now left.
  - rewrite IH; [reflexivity|]. intros Hin. apply H. now right.
Qed.

Lemma split_commas_app (word rest : string) :
  ~ In KeywordInput.comma (list_ascii_of_string word) ->
  KeywordInput.split_commas
    (word ++ String KeywordInput.comma rest)%string
  = word :: KeywordInput.split_commas rest.
Proof.
  induction word as [|c s IH]; intros H.
  - cbn [String.append KeywordInput.split_commas].
    now rewrite Ascii.eqb_refl.
  - cbn [String.append KeywordInput.split_commas].
    destruct (Ascii.eqb_spec c KeywordInput.comma) as [->|_].
    + exfalso. apply H. now left.
    + rewrite IH; [reflexivity|]. intros Hin. apply H. now right.
Qed.

Lemma rstrip_app (a b : string) :
  rstrip b <> EmptyString -> rstrip (a ++ b) = (a ++ rstrip b)%string.
Proof.
  intros Hb. induction a as [|c a IH]; [reflexivity|].
  cbn [String.append rstrip]. rewrite IH.
  destruct (a ++ rstrip b)%string eqn:E; [|reflexivity].
  destruct a; [|discriminate E]. cbn [String.append] in E. contradiction.
Qed.

Lemma clean_parts (kw : string) :
  KeywordInput.clean kw ->
  lstrip kw = kw /\ rstrip kw = kw
  /\ exists c r, kw = String c r /\ is_space c = false.
Proof.
  intros (Hne & Hs & _). destruct (strip_fixed kw Hs) as [Hl Hr].
  split; [exact Hl|]. split; [exact Hr|].
  destruct kw as [|c r]; [contradiction|]. exists c, r. split; [reflexivity|].
  assert (Hh := lstrip_head (String c r)). now rewrite Hl in Hh.
Qed.

Lemma join_clean (ks : list string) :
  ks <> [] -> Forall KeywordInput.clean ks ->
  lstrip (KeywordInput.join ", " ks) = KeywordInput.join ", " ks
  /\ rstrip (KeywordInput.join ", " ks) = KeywordInput.join ", " ks
  /\ KeywordInput.join ", " ks <> EmptyString.
Proof.
  induction ks as [|kw ks IH]; [contradiction|]. intros _ Hall.
  inversion Hall as [|? ? Hkw Hks]; subst.
  destruct (clean_parts kw Hkw) as (Hl & Hr & c & r & -> & Hc).
  destruct ks as [|kw' ks].
  - cbn [KeywordInput.join]. split; [exact Hl|]. split; [exact Hr|discriminate].
  - destruct (IH ltac:(discriminate) Hks) as (_ & Hr' & Hne).
    change (KeywordInput.join ", " (String c r :: kw' :: ks))
      with (String c r ++ ", " ++ KeywordInput.join ", " (kw' :: ks))%string.
    split; [cbn [String.append lstrip]; now rewrite Hc|].
    split; [|discriminate].
    rewrite rstrip_app.
    + f_equal. change (", " ++ KeywordInput.join ", " (kw' :: ks))%string
        with (", " ++ KeywordInput.join ", " (kw' :: ks))%string.
      rewrite (rstrip_app ", "); [now rewrite Hr'|]. now rewrite Hr'.
    + rewrite (rstrip_app ", "); [|now rewrite Hr'].
      discriminate.
Qed.

Lemma strip_padded (kw : string) :
  KeywordInput.clean kw -> strip (String " " kw) = kw.
Proof.
  intros Hkw. destruct (clean_parts kw Hkw) as (Hl & Hr & _).
  unfold strip. cbn [lstrip].
  change (is_space " ") with true. cbv iota. now rewrite Hl.
Qed.

Lemma split_join (ks : list string) :
  ks <> [] -> Forall KeywordInput.clean ks ->
  exists first rest,
    ks = first :: rest
    /\ KeywordInput.split_commas (KeywordInput.join ", " ks)
       = first :: map (String " ") rest.
Proof.
  induction ks as [|kw ks IH]; [contradiction|]. intros _ Hall.
  inversion Hall as [|? ? Hkw Hks]; subst. exists kw, ks.
  split; [reflexivity|]. destruct ks as [|kw' ks].
  - cbn [KeywordInput.join map]. apply split_commas_word. apply Hkw.
  - destruct (IH ltac:(discriminate) Hks) as (f & r & Heq & Hsplit).
    injection Heq as <- <-.
    change (KeywordInput.join ", " (kw :: kw' :: ks))
      with (kw ++ String KeywordInput.comma
                    (String " " (KeywordInput.join ", " (kw' :: ks))))%string.
    rewrite split_commas_app; [|apply Hkw]. f_equal.
    cbn [KeywordInput.split_commas].
    change (Ascii.eqb " " KeywordInput.comma) with false. cbv iota.
    rewrite Hsplit. reflexivity.
Qed.

(** X13.  The keywords read from the prompt.  When a list is returned it is
    not empty and each of its keywords is clean: not empty, free of commas
    and of white space at its ends.  Conversely a non-empty list of clean
    keywords, typed as the analyzer prints it (joined with a comma and a
    space), is read back as it is. *)
Theorem X13_prompt_keywords_are_clean :
  forall line : string,
    (forall keywords,
       KeywordInput.keywords_of_line line = Some keywords ->
       keywords <> [] /\ Forall KeywordInput.clean keywords)
    /\ (forall keywords,
          keywords <> [] -> Forall KeywordInput.clean keywords ->
          KeywordInput.keywords_of_line (KeywordInput.join ", " keywords)
          = Some keywords).
Proof.
  intros line. split.
  - intros keywords. unfold KeywordInput.keywords_of_line.
    destruct (KeywordInput.is_empty (strip line)); [discriminate|].
    destruct (map strip _) as [|k ks] eqn:E; [discriminate|].
    intros H. injection H as <-. split; [discriminate|].
    rewrite <- E. apply Forall_forall. intros kw Hin.
    apply in_map_iff in Hin as (word & <- & Hin).
    apply filter_In in Hin as [Hin Hne].
    split; [|split].
    + intros Heq. now rewrite Heq in Hne.
    + apply strip_idempotent.
    + intros Hc. apply strip_chars in Hc.
      exact (split_commas_free _ _ Hin Hc).
  - intros keywords Hne Hall. unfold KeywordInput.keywords_of_line.
    destruct (join_clean keywords Hne Hall) as (Hl & Hr & Hj).
    assert (Hs : strip (KeywordInput.join ", " keywords)
                 = KeywordInput.join ", " keywords)
      by (unfold strip; now rewrite Hl, Hr).
    cbv zeta. rewrite Hs.
    destruct (KeywordInput.join ", " keywords) eqn:Ej; [contradiction|].
    cbn [KeywordInput.is_empty]. rewrite <- Ej.
    destruct (split_join keywords Hne Hall) as (first & rest & -> & ->).
    inversion Hall as [|? ? Hf Hrest]; subst.
    assert (Hkeep : forall kw, KeywordInput.clean kw ->
                      negb (KeywordInput.is_empty (strip kw)) = true).
    { intros kw Hkw. destruct Hkw as (Hn & -> & _). now destruct kw. }
    cbn [filter]. rewrite (Hkeep first Hf). cbn [map].
    destruct Hf as (_ & Hsf & _). rewrite Hsf. f_equal. f_equal.
    clear - Hrest. induction Hrest as [|kw rest Hkw Hrest IH]; [reflexivity|].
    cbn [map filter]. rewrite (strip_padded kw Hkw).
    destruct kw as [|c r]; [now destruct Hkw|].
    cbn [KeywordInput.is_empty negb map]. rewrite (strip_padded _ Hkw).
    now f_equal.
Qed.

Lemma X13_prompt_keywords_are_clean_witness :
  KeywordInput.keywords_of_line " token , api key,, "
  = Some ["token"; "api key"]
  /\ Forall KeywordInput.clean ["token"; "api key"]
  /\ KeywordInput.keywords_of_line (KeywordInput.join ", " ["token"; "api key"])
     = Some ["token"; "api key"].
Proof.
  assert (H1 : KeywordInput.keywords_of_line " token , api key,, "
               = Some ["token"; "api key"]) by reflexivity.
  destruct (X13_prompt_keywords_are_clean " token , api key,, ") as [Hc Hr].
  destruct (Hc _ H1) as [_ Hclean].
  split; [exact H1|]. split; [exact Hclean|].
  apply Hr; [discriminate|exact Hclean].
Defined.

Lemma index_of_nth (word : string) (argv : list string) :
  forall idx, KeywordInput.index_of word argv = Some idx ->
              nth_error argv idx = Some word.
Proof.
  induction argv as [|w rest IH]; intros idx; [discriminate|].
  cbn [KeywordInput.index_of].
  destruct (String.eqb_spec w word) as [->|_].
  - intros H. injection H as <-. reflexivity.
  - destruct (KeywordInput.index_of word rest) as [i|]; [|discriminate].
    intros H. injection H as <-. cbn [nth_error]. now apply IH.
Qed.

Lemma nth_error_skip_two (argv : list string) (i : nat) (w : string) :
  (2 <= i)%nat -> nth_error argv i = Some w ->
  (2 < List.length argv)%nat /\ In w (skipn 2 argv).
Proof.
  intros Hi Hn. destruct argv as [|a [|b rest]].
  - destruct i; discriminate Hn.
  - destruct i as [|[|i]]; try lia. discriminate Hn.
  - destruct i as [|[|i]]; try lia. cbn [nth_error] in Hn.
    cbn [skipn List.length]. split; [|now apply nth_error_In in Hn].
    destruct rest; [destruct i; discriminate Hn|cbn [List.length]; lia].
Qed.

(** X14.  When the command line gives [--max-results] a value (the option
    not being the script name itself), [get_keywords_from_input] does not
    prompt: the keywords are the words of the command line from the third
    on, the value of the option among them, and the option itself too
    unless it stands in the place of the database path.  The bound that
    [main] passes on is that value read as an integer, 1000 when it cannot
    be read. *)
Theorem X14_option_value_is_searched :
  forall (py_int : string -> option Z) (argv : list string) (line : string)
         (idx : nat) (text : string),
    KeywordInput.index_of "--max-results" argv = Some idx ->
    (1 <= idx)%nat ->
    nth_error argv (idx + 1) = Some text ->
    KeywordInput.get_keywords_from_input argv line = Some (skipn 2 argv)
    /\ In text (skipn 2 argv)
    /\ ((2 <= idx)%nat -> In "--max-results" (skipn 2 argv))
    /\ KeywordInput.max_results_of py_int argv
       = match py_int text with
         | Some n => n
         | None => 1000%Z
         end.
Proof.
  intros py_int argv line idx text Hidx Hpos Hval.
  destruct (nth_error_skip_two argv (idx + 1) text ltac:(lia) Hval)
    as [Hlen Hin].
  split.
  { unfold KeywordInput.get_keywords_from_input.
    apply Nat.ltb_lt in Hlen. now rewrite Hlen. }
  split; [exact Hin|]. split.
  - intros H2. apply index_of_nth in Hidx.
    now apply (nth_error_skip_two argv idx).
  - unfold KeywordInput.max_results_of. now rewrite Hidx, Hval.
Qed.

Lemma X14_option_value_is_searched_witness :
  let argv := ["flexible_keyword_analyzer.py"; "state.vscdb"; "token";
               "--max-results"; "500"] in
  KeywordInput.index_of "--max-results" argv = Some 3%nat
  /\ KeywordInput.get_keywords_from_input argv ""
     = Some ["token"; "--max-results"; "500"]
  /\ In "500" (skipn 2 argv)
  /\ In "--max-results" (skipn 2 argv).
Proof.
  cbv zeta.
  destruct (X14_option_value_is_searched (fun _ => None)
              ["flexible_keyword_analyzer.py"; "state.vscdb"; "token";
               "--max-results"; "500"] "" 3 "500"
              eq_refl ltac:(lia) eq_refl) as (Hk & Hv & Ho & _).
  split; [reflexivity|]. split; [exact Hk|]. split; [exact Hv|].
  apply Ho. lia.
Defined.

(** ** The summaries of the advanced analyzer *)

Lemma nonempty_fold_fresh {A : Type} (f : string * list Match -> A)
    (b : Buckets) (acc : list (string * A)) :
  NoDup (map fst acc ++ map fst b) ->
  fold_left
    (fun d cl =>
       match snd cl with
       | [] => d
       | _ :: _ => assoc_set (fst cl) (f cl) d
       end)
    b acc
  = acc
    ++ map (fun cl => (fst cl, f cl))
           (filter (fun cl => negb (Nat.eqb (List.length (snd cl)) 0)) b).
Proof.
  revert acc; induction b as [|[c l] b IH]; intros acc Hnd;
    cbn [fold_left filter map fst snd].
  - now rewrite app_nil_r.
  - cbn [map fst] in Hnd. destruct l as [|m l]; cbn [List.length Nat.eqb negb].
    + apply IH. now apply NoDup_remove_1 in Hnd.
    + rewrite assoc_set_fresh.
      * rewrite IH; [cbn [map fst snd]; now rewrite <- app_assoc|].
        rewrite map_app, <- app_assoc. exact Hnd.
      * apply NoDup_remove_2 in Hnd. intros Hin. apply Hnd.
        apply in_or_app. now left.
Qed.

Lemma count_tier_perm (tier : Sensitivity) (l l' : list Match) :
  Permutation l l' -> count_tier tier l = count_tier tier l'.
Proof.
  unfold count_tier. induction 1 as [|x l l' _ IH|x y l|l l' l'' _ IH1 _ IH2].
  - reflexivity.
  - cbn [filter]. destruct (Sensitivity_eqb (m_sensitivity x) tier);
      cbn [List.length]; now rewrite IH.
  - cbn [filter]. destruct (Sensitivity_eqb (m_sensitivity x) tier),
      (Sensitivity_eqb (m_sensitivity y) tier); reflexivity.
  - now rewrite IH1.
Qed.

Lemma sum_over_nonempty (g : list Match -> nat) (b : Buckets) :
  g [] = 0%nat ->
  (forall l1 l2, g (l1 ++ l2) = (g l1 + g l2)%nat) ->
  list_sum
    (map (fun cl => g (snd cl))
         (filter (fun cl => negb (Nat.eqb (List.length (snd cl)) 0)) b))
  = g (flatten b).
Proof.
  intros H0 Happ. unfold flatten.
  induction b as [|[c l] b IH]; [symmetry; exact H0|].
  cbn [filter flat_map snd]. rewrite Happ. destruct l as [|m l].
  - cbn [List.length Nat.eqb negb]. rewrite H0. exact IH.
  - cbn [List.length Nat.eqb negb map snd].
    change (list_sum (g (m :: l) :: ?r)) with (g (m :: l) + list_sum r)%nat.
    now rewrite IH.
Qed.

(** X15.  The overall summary of the advanced analyzer adds up.  The
    number of tier-low Matches, which it computes by subtraction, is the
    number of Matches of tier low; over the category breakdown the totals
    add up to [total_matches] and the counts of each tier to the overall
    count of the tier; every category of the breakdown is one of the
    taxonomy, has at least one Match and splits its total into its three
    tiers; and no more categories have data than the taxonomy has. *)
Theorem X15_overall_summary_adds_up :
  forall (tk : Taxonomy) (quick_mode : bool) (max_items : Z)
         (tables : list Table),
    NoDup (map fst tk) ->
    let res :=
      fst (AdvancedFiles.search_keywords tk quick_mode max_items tables) in
    let overall := AdvancedSummary.overall_statistics tk res in
    let stats := AdvancedSummary.category_stats res in
    AdvancedSummary.o_low_sensitive overall
    = Z.of_nat (count_tier Low (KeywordAnalyzer.raw_data res))
    /\ AdvancedSummary.o_total_matches overall
       = list_sum (map (fun cs => AdvancedSummary.s_total (snd cs)) stats)
    /\ AdvancedSummary.o_high_sensitive overall
       = list_sum
           (map (fun cs => AdvancedSummary.s_high_sensitive (snd cs)) stats)
    /\ AdvancedSummary.o_medium_sensitive overall
       = list_sum
           (map (fun cs => AdvancedSummary.s_medium_sensitive (snd cs)) stats)
    /\ (forall category s,
          In (category, s) stats ->
          In category (map fst tk)
          /\ (1 <= AdvancedSummary.s_total s)%nat
          /\ AdvancedSummary.s_total s
             = (AdvancedSummary.s_high_sensitive s
                + AdvancedSummary.s_medium_sensitive s
                + AdvancedSummary.s_low_sensitive s)%nat)
    /\ (AdvancedSummary.o_categories_with_data overall
        <= AdvancedSummary.o_total_categories overall)%nat.
Proof.
  intros tk quick_mode max_items tables Hnd res overall stats.
  destruct (ka_search_keywords tk quick_mode max_items tables) as [Hk Hp].
  fold (AdvancedFiles.search_keywords tk quick_mode max_items tables) in Hk, Hp.
  fold res in Hk, Hp.
  assert (E : stats
              = map (fun cl =>
                       (fst cl,
                        {| AdvancedSummary.s_total := List.length (snd cl);
                           AdvancedSummary.s_high_sensitive :=
                             count_tier High (snd cl);
                           AdvancedSummary.s_medium_sensitive :=
                             count_tier Medium (snd cl);
                           AdvancedSummary.s_low_sensitive :=
                             count_tier Low (snd cl);
                           AdvancedSummary.s_percentage :=
                             Advanced.category_percentage
                               (List.length (snd cl))
                               (List.length (KeywordAnalyzer.raw_data res)) |}))
                    (filter (fun cl => negb (Nat.eqb (List.length (snd cl)) 0))
                            (KeywordAnalyzer.keywords res))).
  { unfold stats, AdvancedSummary.category_stats. cbv zeta.
    rewrite (nonempty_fold_fresh
               (fun cl =>
                  {| AdvancedSummary.s_total := List.length (snd cl);
                     AdvancedSummary.s_high_sensitive :=
                       count_tier High (snd cl);
                     AdvancedSummary.s_medium_sensitive :=
                       count_tier Medium (snd cl);
                     AdvancedSummary.s_low_sensitive :=
                       count_tier Low (snd cl);
                     AdvancedSummary.s_percentage :=
                       Advanced.category_percentage
                         (List.length (snd cl))
                         (List.length (KeywordAnalyzer.raw_data res)) |}));
      [reflexivity|]. cbn [map app]. now rewrite Hk. }
  unfold overall, AdvancedSummary.overall_statistics.
  cbn [AdvancedSummary.o_low_sensitive AdvancedSummary.o_total_matches
       AdvancedSummary.o_high_sensitive AdvancedSummary.o_medium_sensitive
       AdvancedSummary.o_categories_with_data
       AdvancedSummary.o_total_categories].
  split; [rewrite (tier_partition (KeywordAnalyzer.raw_data res)); lia|].
  fold stats. rewrite E, !map_map. cbn [snd AdvancedSummary.s_total
    AdvancedSummary.s_high_sensitive AdvancedSummary.s_medium_sensitive].
  split.
  { rewrite (sum_over_nonempty (@List.length Match));
      [now apply Permutation_length|reflexivity|apply length_app]. }
  split.
  { rewrite (sum_over_nonempty (count_tier High));
      [now apply count_tier_perm|reflexivity|apply count_tier_app]. }
  split.
  { rewrite (sum_over_nonempty (count_tier Medium));
      [now apply count_tier_perm|reflexivity|apply count_tier_app]. }
  split.
  - intros category s Hin. apply in_map_iff in Hin as ([c l] & Heq & Hin).
    cbn [fst snd] in Heq. injection Heq as <- <-.
    apply filter_In in Hin as [Hin Hne].
    cbn [AdvancedSummary.s_total AdvancedSummary.s_high_sensitive
         AdvancedSummary.s_medium_sensitive AdvancedSummary.s_low_sensitive].
    split; [rewrite <- Hk; now apply (in_map fst) in Hin|].
    split; [|apply tier_partition]. cbn [snd] in Hne.
    destruct l; [discriminate Hne|cbn [List.length]; lia].
  - rewrite length_map, <- (length_map fst tk), <- Hk, length_map.
    apply filter_length_le.
Qed.

Lemma X15_overall_summary_adds_up_witness :
  let tk := KeywordAnalyzer.target_keywords in
  let res :=
    fst (AdvancedFiles.search_keywords tk false 1000 [Sample.item_table]) in
  NoDup (map fst tk)
  /\ AdvancedSummary.o_total_matches (AdvancedSummary.overall_statistics tk res)
     = list_sum (map (fun cs => AdvancedSummary.s_total (snd cs))
                     (AdvancedSummary.category_stats res))
  /\ map (fun cs => (fst cs, AdvancedSummary.s_total (snd cs)))
         (AdvancedSummary.category_stats res)
     = [("authentication", 1%nat); ("subscription", 1%nat)].
Proof.
  cbv zeta.
  assert (Hnd : NoDup (map fst KeywordAnalyzer.target_keywords)).
  { apply (NoDup_count_occ' string_dec). intros x Hx.
    repeat (destruct Hx as [<-|Hx]; [reflexivity|]). destruct Hx. }
  destruct (X15_overall_summary_adds_up KeywordAnalyzer.target_keywords false
              1000 [Sample.item_table] Hnd) as (_ & Ht & _).
  split; [exact Hnd|]. split; [exact Ht|]. reflexivity.
Defined.

(** ** The most frequent keywords *)

Lemma count_of_bump (k key : string) (counts : list (string * nat)) :
  count_of key (AdvancedSummary.bump k counts)
  = (count_of key counts + if string_dec k key then 1 else 0)%nat.
Proof.
  unfold AdvancedSummary.bump. rewrite count_of_assoc_set.
  destruct (String.eqb_spec k key) as [->|Hne];
    destruct (string_dec _ _) as [E|E]; try lia; try contradiction.
Qed.

Lemma assoc_set_keys {A : Type} (k : string) (a : A) (d : list (string * A)) :
  map fst (assoc_set k a d)
  = if in_dec string_dec k (map fst d) then map fst d else map fst d ++ [k].
Proof.
  induction d as [|[k' a'] d IH]; [reflexivity|].
  cbn [assoc_set map fst]. destruct (String.eqb_spec k' k) as [->|Hne].
  - clear IH. cbn [map fst].
    destruct (in_dec string_dec k (k :: map fst d)) as [_|Hn]; [reflexivity|].
    exfalso. apply Hn. now left.
  - cbn [map fst]. rewrite IH.
    destruct (in_dec string_dec k (map fst d)) as [Hin|Hn];
      destruct (in_dec string_dec k (k' :: map fst d)) as [Hin'|Hn'];
      try reflexivity.
    + exfalso. apply Hn'. now right.
    + destruct Hin' as [E|Hin']; [now contradiction Hne|contradiction].
Qed.

Lemma assoc_set_NoDup {A : Type} (k : string) (a : A) (d : list (string * A)) :
  NoDup (map fst d) -> NoDup (map fst (assoc_set k a d)).
Proof.
  intros Hnd. rewrite assoc_set_keys.
  destruct (in_dec _ _ _) as [_|Hn]; [exact Hnd|].
  apply NoDup_app; [exact Hnd|constructor; [intros []|constructor]|].
  intros x Hx [<-|[]]. exact (Hn Hx).
Qed.

Lemma count_of_In (counts : list (string * nat)) (k : string) (n : nat) :
  NoDup (map fst counts) -> In (k, n) counts -> count_of k counts = n.
Proof.
  induction counts as [|[k' n'] counts IH]; [intros _ []|].
  cbn [map fst]. intros Hnd [Heq|Hin]; cbn [count_of].
  - injection Heq as -> ->. now rewrite String.eqb_refl.
  - inversion Hnd as [|? ? Hfresh Hnd']; subst.
    destruct (String.eqb_spec k' k) as [->|_]; [|now apply IH].
    exfalso. apply Hfresh. now apply (in_map fst) in Hin.
Qed.

Lemma count_of_positive (counts : list (string * nat)) (k : string) :
  (1 <= count_of k counts)%nat -> In (k, count_of k counts) counts.
Proof.
  induction counts as [|[k' n'] counts IH]; cbn [count_of]; [lia|].
  destruct (String.eqb_spec k' k) as [->|_]; [now left|].
  intros H. right. now apply IH.
Qed.

Lemma In_assoc_set (k key : string) (n m : nat)
    (counts : list (string * nat)) :
  In (key, m) (assoc_set k n counts) ->
  (key = k /\ m = n) \/ In (key, m) counts.
Proof.
  induction counts as [|[k' n'] counts IH]; cbn [assoc_set].
  - intros [H|[]]. injection H as <- <-. now left.
  - destruct (String.eqb_spec k' k) as [->|_].
    + intros [H|H]; [injection H as <- <-; now left|right; now right].
    + intros [H|H]; [right; now left|].
      destruct (IH H) as [Hl|Hr]; [now left|right; now right].
Qed.

Lemma bump_fold (words : list string) :
  forall counts : list (string * nat),
    NoDup (map fst counts) ->
    (forall k n, In (k, n) counts -> (1 <= n)%nat) ->
    let final := fold_left (fun c k => AdvancedSummary.bump k c) words counts in
    NoDup (map fst final)
    /\ (forall k n, In (k, n) final -> (1 <= n)%nat)
    /\ (forall key,
          count_of key final
          = (count_of key counts + count_occ string_dec words key)%nat).
Proof.
  induction words as [|w words IH]; intros counts Hnd Hpos.
  - cbn [fold_left count_occ]. split; [exact Hnd|]. split; [exact Hpos|].
    intros key. lia.
  - cbn [fold_left].
    destruct (IH (AdvancedSummary.bump w counts)) as (H1 & H2 & H3).
    + now apply assoc_set_NoDup.
    + intros k n Hin. apply In_assoc_set in Hin as [[_ ->]|Hin]; [lia|].
      now apply (Hpos k).
    + split; [exact H1|]. split; [exact H2|]. intros key.
      rewrite H3, count_of_bump. cbn [count_occ].
      destruct (string_dec w key); lia.
Qed.

Lemma keyword_counts_fold (raw_data : list Match) :
  forall counts : list (string * nat),
    fold_left
      (fun counts m =>
         fold_left (fun counts k => AdvancedSummary.bump k counts)
                   (m_matched_keywords m) counts)
      raw_data counts
    = fold_left (fun c k => AdvancedSummary.bump k c)
                (flat_map m_matched_keywords raw_data) counts.
Proof.
  induction raw_data as [|m raw_data IH]; intros counts; [reflexivity|].
  cbn [fold_left flat_map]. now rewrite fold_left_app, IH.
Qed.

Lemma keyword_counts_spec (raw_data : list Match) :
  NoDup (map fst (AdvancedSummary.keyword_counts raw_data))
  /\ (forall k n,
        In (k, n) (AdvancedSummary.keyword_counts raw_data) <->
        n = AdvancedSummary.times_matched k raw_data /\ (1 <= n)%nat).
Proof.
  unfold AdvancedSummary.keyword_counts. rewrite keyword_counts_fold.
  destruct (bump_fold (flat_map m_matched_keywords raw_data) [])
    as (H1 & H2 & H3); [constructor|intros k n []|].
  cbv zeta in H1, H2, H3. split; [exact H1|]. intros k n.
  unfold AdvancedSummary.times_matched. split.
  - intros Hin. split; [|now apply (H2 k)].
    rewrite <- (count_of_In _ _ _ H1 Hin), H3. reflexivity.
  - intros [-> Hpos].
    assert (E := H3 k). cbn [count_of Nat.add] in E. rewrite <- E.
    apply count_of_positive. now rewrite E.
Qed.

Lemma insert_by_count_perm (x : string * nat) (l : list (string * nat)) :
  Permutation (AdvancedSummary.insert_by_count x l) (x :: l).
Proof.
  induction l as [|y l IH]; [apply Permutation_refl|].
  cbn [AdvancedSummary.insert_by_count].
  destruct (snd y <=? snd x)%nat; [apply Permutation_refl|].
  apply perm_trans with (y :: x :: l); [now apply perm_skip|apply perm_swap].
Qed.

Lemma sorted_by_count_perm (l : list (string * nat)) :
  Permutation (AdvancedSummary.sorted_by_count l) l.
Proof.
  unfold AdvancedSummary.sorted_by_count.
  induction l as [|x l IH]; [apply Permutation_refl|]. cbn [fold_right].
  apply perm_trans with (x :: fold_right AdvancedSummary.insert_by_count [] l);
    [apply insert_by_count_perm|now apply perm_skip].
Qed.

Lemma insert_by_count_sorted (x : string * nat) (l : list (string * nat)) :
  StronglySorted (fun a b => (snd b <= snd a)%nat) l ->
  StronglySorted (fun a b => (snd b <= snd a)%nat)
    (AdvancedSummary.insert_by_count x l).
Proof.
  induction 1 as [|y l Hs IH Hall]; cbn [AdvancedSummary.insert_by_count].
  - constructor; constructor.
  - destruct (snd y <=? snd x)%nat eqn:E.
    + apply Nat.leb_le in E. constructor; [now constructor|].
      constructor; [exact E|]. apply Forall_forall. intros z Hz.
      rewrite Forall_forall in Hall. specialize (Hall z Hz). lia.
    + apply Nat.leb_gt in E. constructor; [exact IH|].
      apply Forall_forall. intros z Hz.
      apply (Permutation_in _ (insert_by_count_perm x l)) in Hz.
      destruct Hz as [<-|Hz]; [lia|].
      rewrite Forall_forall in Hall. now apply Hall.
Qed.

Lemma sorted_by_count_sorted (l : list (string * nat)) :
  StronglySorted (fun a b => (snd b <= snd a)%nat)
    (AdvancedSummary.sorted_by_count l).
Proof.
  unfold AdvancedSummary.sorted_by_count.
  induction l as [|x l IH]; [constructor|]. cbn [fold_right].
  now apply insert_by_count_sorted.
Qed.

Lemma sorted_app_order {A : Type} (R : A -> A -> Prop) (l1 l2 : list A) :
  StronglySorted R (l1 ++ l2) ->
  StronglySorted R l1
  /\ forall x y, In x l1 -> In y l2 -> R x y.
Proof.
  induction l1 as [|a l1 IH]; cbn [app].
  - intros _. split; [constructor|intros x y []].
  - intros H. inversion H as [|? ? Hs Hall]; subst.
    destruct (IH Hs) as [Hs1 Hord]. rewrite Forall_forall in Hall. split.
    + constructor; [exact Hs1|]. apply Forall_forall. intros z Hz.
      apply Hall. apply in_or_app. now left.
    + intros x y [<-|Hx] Hy; [|now apply Hord].
      apply Hall. apply in_or_app. now right.
Qed.

(** X16.  The [top_keywords] of the overall summary: at most ten keywords,
    each listed once with the number of times it is listed among the
    matched keywords of the accepted Matches (at least once), in order of
    falling count; and when a matched keyword is missing from the list,
    the list has ten entries, none of them with a smaller count than the
    missing keyword. *)
Theorem X16_top_keywords_are_the_most_frequent :
  forall raw_data : list Match,
    let top := AdvancedSummary.get_top_keywords raw_data in
    (List.length top <= 10)%nat
    /\ NoDup (map fst top)
    /\ (forall k n,
          In (k, n) top ->
          n = AdvancedSummary.times_matched k raw_data /\ (1 <= n)%nat)
    /\ StronglySorted (fun a b => (snd b <= snd a)%nat) top
    /\ (forall k,
          (1 <= AdvancedSummary.times_matched k raw_data)%nat ->
          ~ In k (map fst top) ->
          List.length top = 10%nat
          /\ forall k' n',
               In (k', n') top ->
               (AdvancedSummary.times_matched k raw_data <= n')%nat).
Proof.
  intros raw_data top.
  destruct (keyword_counts_spec raw_data) as [Hnd Hspec].
  set (sorted := AdvancedSummary.sorted_by_count
                   (AdvancedSummary.keyword_counts raw_data)).
  assert (Hperm : Permutation sorted (AdvancedSummary.keyword_counts raw_data))
    by apply sorted_by_count_perm.
  assert (Hsorted : StronglySorted (fun a b => (snd b <= snd a)%nat) sorted)
    by apply sorted_by_count_sorted.
  assert (Hnds : NoDup (map fst sorted)).
  { apply (Permutation_NoDup (l := map fst
             (AdvancedSummary.keyword_counts raw_data))); [|exact Hnd].
    apply Permutation_map. now apply Permutation_sym. }
  rewrite <- (firstn_skipn 10 sorted) in Hsorted, Hnds.
  apply sorted_app_order in Hsorted as [Hs1 Hord].
  rewrite map_app in Hnds. apply NoDup_app_remove_r in Hnds.
  assert (E : top = firstn 10 sorted).
  { unfold top, AdvancedSummary.get_top_keywords. fold sorted.
    rewrite (assoc_fold_fresh fst snd (firstn 10 sorted) []);
      [|exact Hnds]. cbn [app]. rewrite <- (map_id (firstn 10 sorted)) at 2.
    apply map_ext. now intros []. }
  rewrite E.
  split; [apply firstn_le_length|]. split; [exact Hnds|]. split.
  { intros k n Hin. apply Hspec. apply (Permutation_in _ Hperm).
    now apply firstn_In in Hin. }
  split; [exact Hs1|].
  intros k Hpos Hout.
  assert (Hin : In (k, AdvancedSummary.times_matched k raw_data) sorted).
  { apply (Permutation_in _ (Permutation_sym Hperm)). now apply Hspec. }
  rewrite <- (firstn_skipn 10 sorted) in Hin.
  apply in_app_or in Hin as [Hin|Hin].
  { exfalso. apply Hout. now apply (in_map fst) in Hin. }
  split.
  - rewrite length_firstn.
    destruct (Nat.le_gt_cases 10 (List.length sorted)) as [Hle|Hlt]; [lia|].
    rewrite skipn_all2 in Hin by lia. destruct Hin.
  - intros k' n' Hin'. exact (Hord _ _ Hin' Hin).
Qed.

(** ** The extraction of credentials *)

Lemma preview_length (text : string) :
  (String.length (Credentials.preview text) <= 53)%nat.
Proof.
  unfold Credentials.preview.
  destruct (50 <? String.length text)%nat eqn:E.
  - rewrite string_length_app, take_length. cbn [String.length]. lia.
  - apply Nat.ltb_ge in E. lia.
Qed.









(** ** The export of the optimized analyzer *)





(** ** The summary of a category *)

Lemma ascii_compare_spec (a b : ascii) :
  CompareSpec (a = b) (N_of_ascii a < N_of_ascii b)%N
              (N_of_ascii b < N_of_ascii a)%N (Ascii.compare a b).
Proof.
  unfold Ascii.compare.
  destruct (N.compare_spec (N_of_ascii a) (N_of_ascii b)) as [E|L|G];
    constructor; try assumption.
  rewrite <- (ascii_N_embedding a), <- (ascii_N_embedding b). now rewrite E.
Qed.

Lemma string_leb_trans (a b c : string) :
  String.leb a b = true -> String.leb b c = true -> String.leb a c = true.
Proof.
  unfold String.leb. revert b c.
  induction a as [|x a IH]; intros [|y b] [|z c]; cbn [String.compare];
    try reflexivity; try discriminate.
  destruct (ascii_compare_spec x y) as [->|Lxy|Gxy];
    destruct (ascii_compare_spec y z) as [->|Lyz|Gyz];
    try discriminate.
  - destruct (ascii_compare_spec z z) as [_|L|L]; try lia. apply IH.
  - intros _ _. destruct (ascii_compare_spec y z) as [E|L|G];
      [subst; lia|reflexivity|lia].
  - intros _ _. destruct (ascii_compare_spec x z) as [E|L|G];
      [subst; lia|reflexivity|lia].
  - intros _ _. destruct (ascii_compare_spec x z) as [E|L|G];
      [subst; lia|reflexivity|lia].
Qed.

Lemma insert_sorted_perm (x : string) (l : list string) :
  Permutation (CategorySummary.insert_sorted x l) (x :: l).
Proof.
  induction l as [|y l IH]; [apply Permutation_refl|].
  cbn [CategorySummary.insert_sorted].
  destruct (String.leb x y); [apply Permutation_refl|].
  apply perm_trans with (y :: x :: l); [now apply perm_skip|apply perm_swap].
Qed.

Lemma insert_sorted_sorted (x : string) (l : list string) :
  StronglySorted (fun a b => String.leb a b = true) l ->
  StronglySorted (fun a b => String.leb a b = true)
    (CategorySummary.insert_sorted x l).
Proof.
  induction 1 as [|y l Hs IH Hall]; cbn [CategorySummary.insert_sorted].
  - constructor; constructor.
  - destruct (String.leb x y) eqn:E.
    + constructor; [now constructor|].
      constructor; [exact E|]. apply Forall_forall. intros z Hz.
      rewrite Forall_forall in Hall.
      exact (string_leb_trans _ _ _ E (Hall z Hz)).
    + constructor; [exact IH|]. apply Forall_forall. intros z Hz.
      apply (Permutation_in _ (insert_sorted_perm x l)) in Hz.
      destruct Hz as [<-|Hz].
      * destruct (String.leb_total x y) as [H|H]; [|exact H].
        rewrite E in H. discriminate H.
      * rewrite Forall_forall in Hall. now apply Hall.
Qed.

Lemma sorted_set_spec (words : list string) :
  Permutation (CategorySummary.sorted_set words) (nodup string_dec words)
  /\ NoDup (CategorySummary.sorted_set words)
  /\ StronglySorted (fun a b => String.leb a b = true)
       (CategorySummary.sorted_set words)
  /\ (forall w, In w (CategorySummary.sorted_set words) <-> In w words).
Proof.
  unfold CategorySummary.sorted_set.
  assert (Hp : forall l,
            Permutation (fold_right CategorySummary.insert_sorted [] l) l).
  { induction l as [|x l IH]; [apply Permutation_refl|]. cbn [fold_right].
    apply perm_trans
      with (x :: fold_right CategorySummary.insert_sorted [] l);
      [apply insert_sorted_perm|now apply perm_skip]. }
  split; [apply Hp|]. split; [|split].
  - apply (Permutation_NoDup (Permutation_sym (Hp _))). apply NoDup_nodup.
  - induction (nodup string_dec words) as [|x l IH]; [constructor|].
    cbn [fold_right]. now apply insert_sorted_sorted.
  - intros w. split; intros H.
    + apply (nodup_In string_dec). exact (Permutation_in _ (Hp _) H).
    + apply (Permutation_in _ (Permutation_sym (Hp _))).
      now apply (nodup_In string_dec).
Qed.

Lemma length_by_key {A : Type} (key : A -> string) (names : list string) :
  NoDup names ->
  forall l : list A,
    (forall a, In a l -> In (key a) names) ->
    List.length l
    = list_sum
        (map (fun name =>
                List.length (filter (fun a => String.eqb (key a) name) l))
             names).
Proof.
  intros Hnd l. induction l as [|a l IH]; intros Hall.
  - cbn [filter List.length]. clear. induction names as [|n names IH];
      [reflexivity|]. cbn [map].
    change (list_sum (0%nat :: ?r)) with (list_sum r). exact IH.
  - cbn [List.length filter].
    rewrite (IH (fun a' Ha' => Hall a' (or_intror Ha'))).
    assert (Hin := Hall a (or_introl eq_refl)).
    clear IH Hall.
    induction Hnd as [|n names Hfresh Hnd IHn]; [destruct Hin|].
    cbn [map].
    change (list_sum (?x :: ?r)) with (x + list_sum r)%nat.
    destruct (String.eqb_spec (key a) n) as [E|E].
    + cbn [List.length].
      assert (Hrest :
        map (fun name =>
               List.length
                 (if String.eqb (key a) name
                  then a :: filter (fun a0 => String.eqb (key a0) name) l
                  else filter (fun a0 => String.eqb (key a0) name) l)) names
        = map (fun name =>
                 List.length (filter (fun a0 => String.eqb (key a0) name) l))
              names).
      { apply map_ext_in. intros name Hname.
        destruct (String.eqb_spec (key a) name) as [E'|_]; [|reflexivity].
        exfalso. apply Hfresh. now rewrite <- E, E'. }
      rewrite Hrest. lia.
    + destruct Hin as [Hin|Hin]; [now contradiction E|].
      specialize (IHn Hin). lia.
Qed.

(** X19.  The summary written for a category by the advanced analyzer.
    The three tier counts add up to the total.  The tables are listed
    once each, in ascending order; every table of a Match is listed, every
    listed table has at least one Match, and the counts of the tables add
    up to the total.  The keywords are listed once each, in ascending
    order; every matched keyword of a Match is listed, and the count of a
    listed keyword lies between one and the total. *)
Theorem X19_category_summary_adds_up :
  forall matches : list Match,
    let s := CategorySummary.create_category_summary matches in
    CategorySummary.total_matches s
    = (CategorySummary.high_sens s + CategorySummary.medium_sens s
       + CategorySummary.low_sens s)%nat
    /\ list_sum (map snd (CategorySummary.tables_involved s))
       = CategorySummary.total_matches s
    /\ NoDup (map fst (CategorySummary.tables_involved s))
    /\ StronglySorted (fun a b => String.leb a b = true)
         (map fst (CategorySummary.tables_involved s))
    /\ (forall table,
          In table (map fst (CategorySummary.tables_involved s))
          <-> exists m, In m matches /\ m_table m = table)
    /\ (forall table n,
          In (table, n) (CategorySummary.tables_involved s) -> (1 <= n)%nat)
    /\ NoDup (map fst (CategorySummary.keywords_found s))
    /\ StronglySorted (fun a b => String.leb a b = true)
         (map fst (CategorySummary.keywords_found s))
    /\ (forall keyword,
          In keyword (map fst (CategorySummary.keywords_found s))
          <-> exists m, In m matches /\ In keyword (m_matched_keywords m))
    /\ (forall keyword n,
          In (keyword, n) (CategorySummary.keywords_found s) ->
          (1 <= n <= CategorySummary.total_matches s)%nat).
Proof.
  intros matches s.
  destruct (sorted_set_spec (map m_table matches)) as (_ & Hnt & Hst & Hit).
  destruct (sorted_set_spec (flat_map m_matched_keywords matches))
    as (_ & Hnk & Hsk & Hik).
  unfold s, CategorySummary.create_category_summary.
  cbn [CategorySummary.total_matches CategorySummary.high_sens
       CategorySummary.medium_sens CategorySummary.low_sens
       CategorySummary.tables_involved CategorySummary.keywords_found].
  rewrite !map_map. cbn [fst snd]. rewrite !map_id.
  split; [apply tier_partition|]. split.
  { symmetry. apply (length_by_key m_table); [exact Hnt|].
    intros m Hm. apply Hit. now apply in_map. }
  split; [exact Hnt|]. split; [exact Hst|]. split.
  { intros table. rewrite Hit, in_map_iff. split; intros (m & H1 & H2); eauto. }
  split.
  { intros table n Hin. apply in_map_iff in Hin as (t & Heq & Hin).
    injection Heq as -> <-. apply Hit in Hin.
    apply in_map_iff in Hin as (m & Ht & Hm).
    assert (Hf : In m (filter (fun m0 => String.eqb (m_table m0) table)
                              matches)).
    { apply filter_In. split; [exact Hm|]. now apply String.eqb_eq. }
    destruct (filter _ matches); [destruct Hf|cbn [List.length]; lia]. }
  split; [exact Hnk|]. split; [exact Hsk|]. split.
  { intros keyword. rewrite Hik, in_flat_map. reflexivity. }
  intros keyword n Hin. apply in_map_iff in Hin as (k & Heq & Hin).
  injection Heq as -> <-. apply Hik in Hin.
  apply in_flat_map in Hin as (m & Hm & Hk). split.
  - assert (Hf : In m (filter (fun m0 =>
                                 str_mem keyword (m_matched_keywords m0))
                              matches)).
    { apply filter_In. split; [exact Hm|]. unfold str_mem.
      apply existsb_exists. exists keyword. split; [exact Hk|].
      apply String.eqb_refl. }
    destruct (filter _ matches); [destruct Hf|cbn [List.length]; lia].
  - apply filter_length_le.
Qed.
